(** * Monthly traffic report: section extraction, metrics and write-back

  A shallow embedding of the section scanner and extractor
  (agents/section_detector_agent.py), the metrics engine
  (agents/metrics_calculator_agent.py, utils/excel_utils.py), the
  result writer (agents/excel_writer_agent.py) and the choice of summary
  made by the summary generator (agents/summary_generator_agent.py).

  Conventions of the embedding.
  - A worksheet is a finite map from (row, column), both 1-indexed, to a
    cell value; a coordinate that is absent reads as the empty cell.
  - A pandas DataFrame is a list of column labels together with a list of
    rows; the index is the row position (the extractor resets it).
  - A Python float is an exact rational or one of the three IEEE special
    values.  Arithmetic on rationals is exact: binary rounding, overflow
    and the sign of zero are not tracked.
  - The two library parsers that turn text into a number
    (pandas.to_numeric and Python's float) are parameters of the
    development. *)

From Stdlib Require Import ZArith QArith Lqa String Ascii List Bool Lia DecimalString Sorted.
From stdpp Require Import gmap strings list sorting.

Open Scope string_scope.
Open Scope list_scope.

(** ** Text helpers: the string methods the code calls *)

Module Text.

(** [c.lower()] on one character; only A-Z have a lower-case form here. *)
Definition lower_ascii (c : ascii) : ascii :=
  let n := nat_of_ascii c in
  if (65 <=? n)%nat && (n <=? 90)%nat then ascii_of_nat (n + 32) else c.

Fixpoint lower (s : string) : string :=
  match s with
  | EmptyString => EmptyString
  | String c t => String (lower_ascii c) (lower t)
  end.

(** [pat in s] *)
Fixpoint contains (pat s : string) : bool :=
  String.prefix pat s
  || match s with
     | EmptyString => false
     | String _ t => contains pat t
     end.

(** The ASCII characters [str.strip()] removes. *)
Definition is_space (c : ascii) : bool :=
  let n := nat_of_ascii c in
  ((9 <=? n)%nat && (n <=? 13)%nat) || ((28 <=? n)%nat && (n <=? 32)%nat).

Fixpoint lstrip (s : string) : string :=
  match s with
  | EmptyString => EmptyString
  | String c t => if is_space c then lstrip t else s
  end.

Fixpoint rstrip (s : string) : string :=
  match s with
  | EmptyString => EmptyString
  | String c t =>
      match rstrip t with
      | EmptyString => if is_space c then EmptyString else String c EmptyString
      | t' => String c t'
      end
  end.

(** [s.strip()] *)
Definition strip (s : string) : string := rstrip (lstrip s).

(** [s.endswith(suf)] *)
Fixpoint endswith (suf s : string) : bool :=
  String.eqb suf s
  || match s with
     | EmptyString => false
     | String _ t => endswith suf t
     end.

(** [any(m in s for m in pats)] *)
Definition contains_any (pats : list string) (s : string) : bool :=
  existsb (fun m => contains m s) pats.

End Text.

(** ** Numbers *)

(** A float: a finite value, or an IEEE special value. *)
Inductive pynum : Type :=
| Fin (q : Q)
| PInf
| NInf
| NaN.

Module Num.

Definition isnan (v : pynum) : bool :=
  match v with NaN => true | _ => false end.

Definition isinf (v : pynum) : bool :=
  match v with PInf | NInf => true | _ => false end.

Definition finite (v : pynum) : bool :=
  match v with Fin _ => true | _ => false end.

Definition neg (v : pynum) : pynum :=
  match v with
  | Fin q => Fin (- q)
  | PInf => NInf
  | NInf => PInf
  | NaN => NaN
  end.

Definition add (a b : pynum) : pynum :=
  match a, b with
  | NaN, _ | _, NaN => NaN
  | Fin x, Fin y => Fin (x + y)
  | PInf, NInf | NInf, PInf => NaN
  | PInf, _ | _, PInf => PInf
  | NInf, _ | _, NInf => NInf
  end.

Definition sub (a b : pynum) : pynum := add a (neg b).

(** -1, 0 or 1; the sign of NaN is never consulted. *)
Definition sgn (v : pynum) : Z :=
  match v with
  | Fin q => Z.sgn (Qnum q)
  | PInf => 1
  | NInf => -1
  | NaN => 0
  end.

Definition inf_of_sign (s : Z) : pynum :=
  match s with
  | Z0 => NaN
  | Zpos _ => PInf
  | Zneg _ => NInf
  end.

Definition mul (a b : pynum) : pynum :=
  match a, b with
  | NaN, _ | _, NaN => NaN
  | Fin x, Fin y => Fin (x * y)
  | _, _ => inf_of_sign (sgn a * sgn b)
  end.

(** Division as numpy does it; the callers never divide by zero. *)
Definition div (a b : pynum) : pynum :=
  match a, b with
  | NaN, _ | _, NaN => NaN
  | Fin x, Fin y => if Qeq_bool y 0 then inf_of_sign (sgn a) else Fin (x / y)
  | Fin _, _ => Fin 0
  | _, Fin _ => inf_of_sign (sgn a * (if Z.eqb (sgn b) 0 then 1 else sgn b))
  | _, _ => NaN
  end.

(** [a <= b] *)
Definition le (a b : pynum) : bool :=
  match a, b with
  | NaN, _ | _, NaN => false
  | Fin x, Fin y => Qle_bool x y
  | NInf, _ => true
  | _, PInf => true
  | _, _ => false
  end.

(** [a > b] *)
Definition gt (a b : pynum) : bool :=
  match a, b with
  | NaN, _ | _, NaN => false
  | _, _ => negb (le a b)
  end.

(** [a == b] *)
Definition eqb (a b : pynum) : bool :=
  match a, b with
  | Fin x, Fin y => Qeq_bool x y
  | PInf, PInf | NInf, NInf => true
  | _, _ => false
  end.

(** [bool(a)]: every float but zero is true, NaN included. *)
Definition truthy (a : pynum) : bool := negb (eqb a (Fin 0)).

(** Nearest integer, ties to the even one. *)
Definition round_half_even (q : Q) : Z :=
  let n := Qnum q in
  let d := Zpos (Qden q) in
  let f := (n / d)%Z in
  let r := (n mod d)%Z in
  match (2 * r ?= d)%Z with
  | Lt => f
  | Gt => (f + 1)%Z
  | Eq => if Z.even f then f else (f + 1)%Z
  end.

(** [round(q, 2)] on a finite value. *)
Definition round2 (q : Q) : Q := round_half_even (q * 100) # 100.

(** [round(v, 0)]; a special value rounds to itself. *)
Definition round0 (v : pynum) : pynum :=
  match v with
  | Fin q => Fin (round_half_even q # 1)
  | _ => v
  end.

Definition str_Z (z : Z) : string := NilZero.string_of_int (Z.to_int z).

Definition two_digits (z : Z) : string :=
  str_Z (z / 10) +:+ str_Z (z mod 10).

(** [f"{v:.2f}"] *)
Definition format_2f (v : pynum) : string :=
  match v with
  | Fin q =>
      let n := Z.abs (round_half_even (q * 100)) in
      (if Qle_bool 0 q then "" else "-")
        +:+ str_Z (n / 100) +:+ "." +:+ two_digits (n mod 100)
  | PInf => "inf"
  | NInf => "-inf"
  | NaN => "nan"
  end.

Fixpoint frac_digits (fuel : nat) (r d : Z) : string :=
  match fuel with
  | O => ""
  | S k =>
      if (r =? 0)%Z then ""
      else str_Z (10 * r / d) +:+ frac_digits k ((10 * r) mod d) d
  end.

(** [str(v)].  A whole number prints as an int does; another finite
    value prints its decimal expansion, cut after 16 places. *)
Definition str (v : pynum) : string :=
  match v with
  | Fin q =>
      let n := Qnum q in
      let d := Zpos (Qden q) in
      if (n mod d =? 0)%Z then str_Z (n / d)
      else (if (n <? 0)%Z then "-" else "")
             +:+ str_Z (Z.abs n / d) +:+ "."
             +:+ frac_digits 16 (Z.abs n mod d) d
  | PInf => "inf"
  | NInf => "-inf"
  | NaN => "nan"
  end.

End Num.

(** ** Cell values *)

(** What a worksheet cell or a DataFrame entry holds.  Dates are not
  modelled. *)
Inductive cell : Type :=
| CNone
| CBool (b : bool)
| CNum (v : pynum)
| CStr (s : string).

Module Cell.

(** [bool(c)] *)
Definition truthy (c : cell) : bool :=
  match c with
  | CNone => false
  | CBool b => b
  | CNum v => Num.truthy v
  | CStr s => negb (String.eqb s "")
  end.

(** [pd.isna(c)] *)
Definition isna (c : cell) : bool :=
  match c with
  | CNone => true
  | CNum NaN => true
  | _ => false
  end.

Definition is_str (c : cell) : bool :=
  match c with CStr _ => true | _ => false end.

(** [str(c)] *)
Definition str (c : cell) : string :=
  match c with
  | CNone => "None"
  | CBool true => "True"
  | CBool false => "False"
  | CNum v => Num.str v
  | CStr s => s
  end.

(** [str(c).lower()] *)
Definition lower (c : cell) : string := Text.lower (str c).

(** The entry stored for an optional percentage. *)
Definition of_result (r : option Q) : cell :=
  match r with
  | Some q => CNum (Fin q)
  | None => CNone
  end.

End Cell.

(** ** DataFrame *)

(** A row maps a column label to its entry; labels are taken to be
    distinct, as pandas needs them to be for the accesses made here. *)
Record DataFrame : Type := {
  columns : list string;
  rows : list (gmap string cell)
}.

Module DF.

(** [row[label]] *)
Definition get (row : gmap string cell) (label : string) : cell :=
  default CNone (row !! label).

(** [label in df.columns] *)
Definition has_column (df : DataFrame) (label : string) : bool :=
  existsb (String.eqb label) (columns df).

(** [row.iloc[0] if len(row) > 0 else None] *)
Definition first (cols : list string) (row : gmap string cell) : cell :=
  match cols with
  | c :: _ => get row c
  | [] => CNone
  end.

(** [df.at[idx, label] = v] *)
Definition set_at (df : DataFrame) (idx : nat) (label : string) (v : cell)
  : DataFrame :=
  {| columns := columns df;
     rows := alter (fun row => <[label := v]> row) idx (rows df) |}.

(** [df[label] = None]: the column is overwritten, or appended. *)
Definition set_column_none (label : string) (df : DataFrame) : DataFrame :=
  {| columns := if has_column df label then columns df
                else columns df ++ [label];
     rows := (fun row => <[label := CNone]> row) <$> rows df |}.

(** [df.at[idx, label]], read. *)
Definition at_ (df : DataFrame) (idx : nat) (label : string) : cell :=
  match rows df !! idx with
  | Some row => get row label
  | None => CNone
  end.

(** [for idx, row in df.iterrows(): body]: the rows are those of the frame
    as it was when the loop started; [body] threads the loop's state. *)
Fixpoint iterrows {S : Type} (body : S -> nat -> gmap string cell -> S)
  (idx : nat) (rs : list (gmap string cell)) (st : S) : S :=
  match rs with
  | [] => st
  | row :: rest => iterrows body (Datatypes.S idx) rest (body st idx row)
  end.

End DF.

(** An insertion-ordered dict with text keys and values. *)
Module ODict.

Fixpoint set (k v : string) (d : list (string * string))
  : list (string * string) :=
  match d with
  | [] => [(k, v)]
  | (k', v') :: rest =>
      if String.eqb k k' then (k, v) :: rest else (k', v') :: set k v rest
  end.

Fixpoint get (k : string) (d : list (string * string)) : option string :=
  match d with
  | [] => None
  | (k', v') :: rest => if String.eqb k k' then Some v' else get k rest
  end.

Definition values (d : list (string * string)) : list string := map snd d.

End ODict.

(** ** Worksheet *)

(** Cell values by (row, column).  The width of the sheet
    ([worksheet.max_column]) is passed beside it where the code reads whole
    rows. *)
Module Sheet.

(** [worksheet.cell(r, c).value] *)
Definition value (ws : gmap (nat * nat) cell) (r c : nat) : cell :=
  default CNone (ws !! (r, c)).

(** [worksheet.cell(r, c).value = v] *)
Definition set (ws : gmap (nat * nat) cell) (r c : nat) (v : cell)
  : gmap (nat * nat) cell :=
  <[(r, c) := v]> ws.

(** The values of row [r] in the [n] columns from [first_col] on. *)
Definition row_values (ws : gmap (nat * nat) cell) (r first_col n : nat)
  : list cell :=
  map (fun c => value ws r c) (seq first_col n).

End Sheet.

(** The section descriptor; its name and the input path play no part in
    the functions modelled. *)
Record section_info : Type := {
  header_row : nat;
  data_start_row : nat;
  data_end_row : nat
}.

Definition with_data_end_row (si : section_info) (e : nat) : section_info :=
  {| header_row := header_row si;
     data_start_row := data_start_row si;
     data_end_row := e |}.

(** [range(lo, hi + 1)] *)
Definition range_incl (lo hi : nat) : list nat := seq lo (hi + 1 - lo).

(** [range(lo, hi)] *)
Definition range_excl (lo hi : nat) : list nat := seq lo (hi - lo).

(** ** agents/section_detector_agent.py: extract_section_data *)

(** The label of the header cell [c], the [i]-th after column A. *)
Definition header_label (i : nat) (c : cell) : string :=
  if Cell.truthy c then Text.strip (Cell.str c)
  else "Column_" +:+ Num.str_Z (Z.of_nat (i + 1)).

Definition read_headers (ws : gmap (nat * nat) cell) (max_column : nat)
  (header_row_idx : nat) : list string :=
  map (fun i => header_label i (Sheet.value ws header_row_idx (i + 1)))
    (seq 1 (max_column - 1)).

(** The loop over the data rows (lines 105-117): stop at the first row
    whose read cells are all false, keep a row whose first read cell is
    true. *)
Fixpoint read_rows (ws : gmap (nat * nat) cell) (n_headers : nat)
  (row_idxs : list nat) : list (list cell) :=
  match row_idxs with
  | [] => []
  | row_idx :: rest =>
      let row_data := Sheet.row_values ws row_idx 2 n_headers in
      if negb (existsb Cell.truthy row_data) then []
      else if Cell.truthy (hd CNone row_data)
           then row_data :: read_rows ws n_headers rest
           else read_rows ws n_headers rest
  end.

(** One row of [pd.DataFrame(data_rows, columns=headers)]. *)
Definition row_of_list (headers : list string) (row_data : list cell)
  : gmap string cell :=
  list_to_map (zip headers row_data).

(** The mask of the %Change filter (line 131), negated. *)
Definition is_change_text (c : cell) : bool :=
  Text.contains "% change" (Cell.lower c)
  || Text.contains "%change" (Cell.lower c).

(** [df.dropna(how='all')] keeps a row unless all its entries are missing. *)
Definition all_missing (cols : list string) (row : gmap string cell) : bool :=
  forallb (fun c => Cell.isna (DF.get row c)) cols.

Definition extract_section_data (ws : gmap (nat * nat) cell)
  (max_column : nat) (si : section_info) : DataFrame :=
  let headers := read_headers ws max_column (header_row si) in
  let data_rows :=
    read_rows ws (length headers)
      (range_incl (data_start_row si) (data_end_row si)) in
  let df_rows := map (row_of_list headers) data_rows in
  if (0 <? length df_rows)%nat && (0 <? length headers)%nat then
    let month_col :=
      if existsb (String.eqb "Month") headers then "Month"
      else hd "" headers in
    let kept :=
      List.filter (fun row => negb (is_change_text (DF.get row month_col)))
        df_rows in
    let kept := List.filter (fun row => negb (all_missing headers row)) kept in
    {| columns := headers; rows := kept |}
  else {| columns := headers; rows := df_rows |}.

(** ** agents/section_detector_agent.py: detect_sections *)

(** A section as the scanner reports it. *)
Record detected_section : Type := {
  name : string;
  info : section_info
}.

(** The labels of column A that never name a section (line 50). *)
Definition reserved_labels : list string :=
  ["month"; "total"; "% change"; "%change"].

(** The test of one row (lines 41-55): the name of the section the row
    heads, if it heads one.  [worksheet[row_idx]] has [max_column] cells. *)
Definition section_header_name (ws : gmap (nat * nat) cell)
  (max_column row_idx : nat) : option string :=
  let col_a_value := Sheet.value ws row_idx 1 in
  if negb (Cell.truthy col_a_value) then None
  else
    let col_a_str := Text.strip (Cell.str col_a_value) in
    if existsb (String.eqb (Text.lower col_a_str)) reserved_labels then None
    else
      let col_b_value :=
        if (1 <? max_column)%nat then Sheet.value ws row_idx 2 else CNone in
      if Cell.truthy col_b_value
         && String.eqb (Text.lower (Text.strip (Cell.str col_b_value))) "month"
      then Some col_a_str
      else None.

(** The first loop (lines 40-63): the name and the header row of every
    section, in row order. *)
Definition scan_headers (ws : gmap (nat * nat) cell)
  (max_column max_row : nat) : list (string * nat) :=
  omap
    (fun row_idx =>
       (fun col_a_str => (col_a_str, row_idx))
         <$> section_header_name ws max_column row_idx)
    (range_incl 1 max_row).

(** [detect_sections(worksheet)]; the second loop (lines 66-72) ends a
    section on the row before the next header, the last one on the last row
    of the sheet. *)
Definition detect_sections (ws : gmap (nat * nat) cell)
  (max_column max_row : nat) : list detected_section :=
  let sections := scan_headers ws max_column max_row in
  imap
    (fun i section =>
       {| name := fst section;
          info :=
            {| header_row := snd section;
               data_start_row := snd section + 1;
               data_end_row :=
                 if (i <? length sections - 1)%nat
                 then from_option snd 0 (sections !! (i + 1)) - 1
                 else max_row |} |})
    sections.

(** ** utils/excel_utils.py: detect_month_order *)

Definition month_order : list string :=
  ["January"; "February"; "March"; "April"; "May"; "June";
   "July"; "August"; "September"; "October"; "November"; "December"].

(** The month a value of the month column names (lines 190-192): the value
    is not missing, its text is not blank, and the stripped text is one of
    [month_order]. *)
Definition month_name (month : cell) : option string :=
  if negb (Cell.isna month)
     && negb (String.eqb (Text.strip (Cell.str month)) "")
  then
    let month_str := Text.strip (Cell.str month) in
    if existsb (String.eqb month_str) month_order then Some month_str
    else None
  else None.

(** The loop of lines 189-194: each month once, in order of appearance. *)
Definition months_in_data (values : list cell) : list string :=
  fold_left
    (fun acc month =>
       match month_name month with
       | Some month_str =>
           if existsb (String.eqb month_str) acc then acc
           else acc ++ [month_str]
       | None => acc
       end)
    values [].

(** [month_order.index(x)]; the callers pass members of [month_order]. *)
Fixpoint index_of (x : string) (l : list string) : nat :=
  match l with
  | [] => 0
  | y :: rest => if String.eqb x y then 0 else S (index_of x rest)
  end.

(** [sorted(l, key=lambda x: month_order.index(x))]: a stable sort. *)
Fixpoint insert_by_month (x : string) (l : list string) : list string :=
  match l with
  | [] => [x]
  | y :: rest =>
      if (index_of x month_order <? index_of y month_order)%nat
      then x :: y :: rest
      else y :: insert_by_month x rest
  end.

Definition sort_by_month (l : list string) : list string :=
  fold_left (fun acc x => insert_by_month x acc) l [].

(** [detect_month_order(df, month_column)]; no result when the frame has no
    such column and [df[month_column]] raises KeyError. *)
Definition detect_month_order (df : DataFrame) (month_column : string)
  : option (list string) :=
  if DF.has_column df month_column then
    Some (sort_by_month
            (months_in_data (map (fun row => DF.get row month_column) (rows df))))
  else None.

(** ** Sample data for the worked examples *)

Module Sample.

Fixpoint digits_value (s : string) (acc : Z) : option Z :=
  match s with
  | EmptyString => Some acc
  | String c rest =>
      let n := nat_of_ascii c in
      if (48 <=? n)%nat && (n <=? 57)%nat
      then digits_value rest (10 * acc + Z.of_nat (n - 48))
      else None
  end.

(** An instance of [float(text)]: unsigned whole numbers only. *)
Definition float (s : string) : option pynum :=
  match Text.strip s with
  | EmptyString => None
  | t => (fun z => Fin (inject_Z z)) <$> digits_value t 0
  end.

(** An instance of [pd.to_numeric(text, errors="coerce")]. *)
Definition numeric (s : string) : pynum := default NaN (float s).

Definition num (z : Z) : cell := CNum (Fin (inject_Z z)).

(** A worksheet from its rows, each a row number with the values of
    columns A, B, C, ... *)
Definition sheet_of (grid : list (nat * list cell)) : gmap (nat * nat) cell :=
  fold_left
    (fun ws r =>
       fold_left
         (fun w cv => <[(fst r, fst cv) := snd cv]> w)
         (zip (seq 1 (length (snd r))) (snd r)) ws)
    grid ∅.

(** A table from its labels and the entries of its rows. *)
Definition table_of (cols : list string) (entries : list (list cell))
  : DataFrame :=
  {| columns := cols;
     rows := map (fun r => list_to_map (zip cols r)) entries |}.

(** Three years, January and February, a Total row: the standard layout. *)
Definition table_three_years : DataFrame :=
  table_of
    ["Month"; "Year-2023"; "Year-2024"; "Year-2025"; "YOY%"; "LM%"]
    [ [CStr "January"; num 8; num 10; num 11; CNone; CNone];
      [CStr "February"; num 8; num 10; num 9; CNone; CNone];
      [CStr "December"; num 8; num 20; CNone; CNone; CNone];
      [CStr "Total"; num 24; num 40; num 20; CNone; CNone] ].

(** No row has a 2024 value above 0. *)
Definition table_zero_2024 : DataFrame :=
  table_of
    ["Month"; "Year-2024"; "Year-2025"]
    [ [CStr "January"; num 0; num 50];
      [CStr "Total"; num 0; num 50] ].



(** A sheet with the years 2023 and 2024 only; rows 2 to 5 are January,
    September, Total, %Change. *)
Definition sheet_two_years : gmap (nat * nat) cell :=
  sheet_of
    [ (1, [CStr "Visits"; CStr "Month"; CStr "Year-2023"; CStr "Year-2024"]);
      (2, [CNone; CStr "January"; num 100; num 150]);
      (3, [CNone; CStr "September"; num 100; num 50]);
      (4, [CNone; CStr "Total"; num 200; num 200]);
      (5, [CNone; CStr "% Change"; CNone; CStr "stale"]) ].

Definition table_two_years : DataFrame :=
  table_of
    ["Month"; "Year-2023"; "Year-2024"]
    [ [CStr "January"; num 100; num 150];
      [CStr "September"; num 100; num 50];
      [CStr "Total"; num 200; num 200] ].

Definition section_1_to_5 : section_info :=
  {| header_row := 1; data_start_row := 2; data_end_row := 5 |}.

(** A sheet with the three years; rows 2 to 5 are January, February,
    Total, %Change. *)
Definition sheet_three_years : gmap (nat * nat) cell :=
  sheet_of
    [ (1, [CStr "Visits"; CStr "Month"; CStr "Year-2023"; CStr "Year-2024";
           CStr "Year-2025"; CStr "YOY % (2024-2025)"; CStr "LM % (2025)"]);
      (2, [CNone; CStr "January"; num 8; num 10; num 11; CStr "old";
           CStr "kept"]);
      (3, [CNone; CStr "February"; num 8; num 10; num 9; CNone; CNone]);
      (4, [CNone; CStr "Total"; num 16; num 20; num 20; CNone; CNone]);
      (5, [CNone; CStr "% Change"; CStr "stale"; CNone; CNone; CNone; CNone]) ].

Definition table_three_years_written : DataFrame :=
  table_of
    ["Month"; "Year-2023"; "Year-2024"; "Year-2025";
     "YOY % (2024-2025)"; "LM % (2025)"]
    [ [CStr "January"; num 8; num 10; num 11; CNum (Fin (1000 # 100)); CNone];
      [CStr "February"; num 8; num 10; num 9; CNum (Fin (-1000 # 100));
       CNum (Fin (-1818 # 100))];
      [CStr "Total"; num 16; num 20; num 20; CNone; CNone] ].



(** A sheet whose row 4 is blank inside the data range, and whose row 2
    records zero in both year columns. *)
Definition sheet_with_gap : gmap (nat * nat) cell :=
  sheet_of
    [ (1, [CStr "Organic"; CStr "Month"; CStr "Year-2024"; CStr "Year-2025"]);
      (2, [CNone; CStr "January"; num 0; num 0]);
      (3, [CNone; CStr "February"; num 5; num 6]);
      (4, [CNone; CNone; CNone; CNone]);
      (5, [CNone; CStr "March"; num 7; num 8]) ].

Definition section_1_to_6 : section_info :=
  {| header_row := 1; data_start_row := 2; data_end_row := 6 |}.

(** The scenario of the specification: header in row 10, January to
    August in rows 11 to 18, the Total row 19 and the %Change row 20. *)
Definition sheet_scenario : gmap (nat * nat) cell :=
  sheet_of
    [ (10, [CStr "Total Visits"; CStr "Month"; CStr "Year-2023";
            CStr "Year-2024"; CStr "Year-2025"; CStr "YOY%"; CStr "LM%"]);
      (11, [CNone; CStr "January"; num 9; num 10; num 11]);
      (12, [CNone; CStr "February"; num 9; num 10; num 9]);
      (13, [CNone; CStr "March"; num 9; num 10; num 10]);
      (14, [CNone; CStr "April"; num 9; num 10; num 10]);
      (15, [CNone; CStr "May"; num 9; num 10; num 10]);
      (16, [CNone; CStr "June"; num 9; num 10; num 10]);
      (17, [CNone; CStr "July"; num 9; num 10; num 10]);
      (18, [CNone; CStr "August"; num 9; num 10; num 10]);
      (19, [CNone; CStr "Total"]);
      (20, [CNone; CStr "% Change"]) ].

Definition section_scenario : section_info :=
  {| header_row := 10; data_start_row := 11; data_end_row := 20 |}.

(** A sheet with two sections: "Organic" in rows 1 to 5, "Paid" in rows 6
    to 9; row 5 is blank. *)
Definition sheet_two_sections : gmap (nat * nat) cell :=
  sheet_of
    [ (1, [CStr "Organic"; CStr "Month"; CStr "Year-2024"; CStr "Year-2025"]);
      (2, [CNone; CStr "January"; num 10; num 11]);
      (3, [CNone; CStr "February"; num 10; num 9]);
      (4, [CNone; CStr "Total"; num 20; num 20]);
      (6, [CStr "Paid"; CStr "Month"; CStr "Year-2024"; CStr "Year-2025"]);
      (7, [CNone; CStr "January"; num 5; num 6]);
      (8, [CNone; CStr "February"; num 5; num 4]);
      (9, [CStr "Total"; CStr "Total"; num 10; num 10]) ].

Definition section_organic : detected_section :=
  {| name := "Organic";
     info := {| header_row := 1; data_start_row := 2; data_end_row := 5 |} |}.

Definition section_paid : detected_section :=
  {| name := "Paid";
     info := {| header_row := 6; data_start_row := 7; data_end_row := 9 |} |}.

(** A table whose January row holds text where the YOY belongs. *)
Definition table_text_metric : DataFrame :=
  table_of
    ["Month"; "Year-2024"; "Year-2025"; "YOY % (2024-2025)"; "LM % (2025)"]
    [ [CStr "January"; num 10; num 11; CStr "n/a"; CNone];
      [CStr "February"; num 10; num 9; CNum (Fin (-1000 # 100)); CNone] ].

(** A table with the months out of order, one of them twice, and a value
    that is no month. *)
Definition table_months_shuffled : DataFrame :=
  table_of
    ["Month"; "Year-2025"]
    [ [CStr "March"; num 3];
      [CStr " January "; num 1];
      [CStr "Total"; num 6];
      [CStr "March"; num 3];
      [CStr "february"; num 2] ].

End Sample.

(** ** utils/excel_utils.py: the numeric rules *)

Section Model.

(** [pd.to_numeric(text, errors="coerce")]: NaN when the text is no
    number. *)
Variable parse_numeric : string -> pynum.

(** [float(text)]: no result when Python raises ValueError. *)
Variable parse_float : string -> option pynum.

(** [pd.to_numeric(c, errors="coerce")] on one value *)
Definition to_numeric (c : cell) : pynum :=
  match c with
  | CNone => NaN
  | CBool b => Fin (if b then 1 else 0)
  | CNum v => v
  | CStr s => parse_numeric s
  end.

Definition safe_percentage_calculation (numerator denominator : pynum)
  : option Q :=
  if Num.isnan denominator || Num.eqb denominator (Fin 0) then None
  else if Num.isnan numerator then None
  else
    let percentage := Num.mul (Num.div numerator denominator) (Fin 100) in
    match percentage with
    | Fin p => Some (Num.round2 p)
    | _ => None
    end.

Definition calculate_yoy_percentage (value_2024 value_2025 : pynum)
  : option Q :=
  if Num.isnan value_2024 || Num.isnan value_2025 then None
  else if Num.le value_2024 (Fin 0) then None
  else
    let difference := Num.sub value_2025 value_2024 in
    safe_percentage_calculation difference value_2024.

Definition calculate_lm_percentage (current_value previous_value : pynum)
  : option Q :=
  if Num.isnan current_value || Num.isnan previous_value then None
  else if Num.le previous_value (Fin 0) then None
  else
    let difference := Num.sub current_value previous_value in
    safe_percentage_calculation difference previous_value.

(** The YOY of one Month-row, from the two entries of its year columns
    (calculate_metrics, lines 138-150). *)
Definition row_yoy (val_2024 val_2025 : cell) : option Q :=
  calculate_yoy_percentage (to_numeric val_2024) (to_numeric val_2025).

Definition format_percentage_for_excel (value : option pynum) : string :=
  match value with
  | None => ""
  | Some v => Num.format_2f v +:+ "%"
  end.

(** [is_skip_row(row)]; the row enters through [row.iloc[0]], the only
    entry the function reads. *)
Definition is_skip_row (first : cell) : bool :=
  if Cell.isna first then true
  else
    let first_cell := Text.lower (Text.strip (Cell.str first)) in
    Text.contains "% change" first_cell || Text.contains "%change" first_cell.

(** [pd.notna(month_val) and 'total' in str(month_val).lower()] *)
Definition is_total_row (month_val : cell) : bool :=
  negb (Cell.isna month_val) && Text.contains "total" (Cell.lower month_val).

Definition pick_2024_2025 (year_columns : list string)
  : option string * option string :=
  fold_left
    (fun acc col =>
       let col_str := Text.lower col in
       if Text.contains "2024" col_str then (Some col, snd acc)
       else if Text.contains "2025" col_str then (fst acc, Some col)
       else acc)
    year_columns (None, None).

(** One row of the mask [notna(2024) & notna(2025) & (2024 > 0)]. *)
Definition valid_row (col_2024 col_2025 : string) (row : gmap string cell)
  : bool :=
  let v_2024 := to_numeric (DF.get row col_2024) in
  let v_2025 := to_numeric (DF.get row col_2025) in
  negb (Num.isnan v_2024) && negb (Num.isnan v_2025)
  && Num.gt v_2024 (Fin 0).

Definition is_section_empty (df : DataFrame) (year_columns : list string)
  : bool :=
  match pick_2024_2025 year_columns with
  | (Some col_2024, Some col_2025) =>
      if String.eqb col_2024 "" || String.eqb col_2025 "" then true
      else if negb (DF.has_column df col_2024)
              || negb (DF.has_column df col_2025) then true
      else
        let valid_rows := List.filter (valid_row col_2024 col_2025) (rows df) in
        (length valid_rows =? 0)%nat
  | _ => true
  end.

(** ** agents/metrics_calculator_agent.py *)

Definition year_col_step (year_columns : list (string * string))
  (col : string) : list (string * string) :=
  let col_str := Text.lower col in
  if Text.contains "year-2023" col_str || Text.contains "year 2023" col_str
     || Text.endswith "2023" col_str
  then ODict.set "2023" col year_columns
  else if Text.contains "year-2024" col_str
          || Text.contains "year 2024" col_str
          || Text.endswith "2024" col_str
  then ODict.set "2024" col year_columns
  else if Text.contains "year-2025" col_str
          || Text.contains "year 2025" col_str
          || Text.endswith "2025" col_str
  then ODict.set "2025" col year_columns
  else year_columns.

Definition identify_year_columns (df : DataFrame) : list (string * string) :=
  fold_left year_col_step (columns df) [].

(** ['yoy' in col_str and '2024' in col_str and '2025' in col_str] *)
Definition is_yoy_label (col_str : string) : bool :=
  Text.contains "yoy" col_str && Text.contains "2024" col_str
  && Text.contains "2025" col_str.

(** ['lm' in col_str and '2025' in col_str] *)
Definition is_lm_label (col_str : string) : bool :=
  Text.contains "lm" col_str && Text.contains "2025" col_str.

(** The labels of the YOY and the LM column: the last matching label of the
    frame, or the default name (calculate_metrics, lines 101-111). *)
Definition pick_metric_columns (cols : list string) : string * string :=
  fold_left
    (fun acc col =>
       let col_str := Text.lower col in
       if is_yoy_label col_str then (col, snd acc)
       else if is_lm_label col_str then (fst acc, col)
       else acc)
    cols ("YOY % (2024-2025)", "LM % (2025)").

(** [if label not in df.columns: df[label] = None] *)
Definition ensure_column (label : string) (df : DataFrame) : DataFrame :=
  if DF.has_column df label then df else DF.set_column_none label df.

(** The body of the YOY loop (lines 124-151). *)
Definition yoy_body (cols : list string) (col_2024 col_2025 yoy_col : string)
  (result_df : DataFrame) (idx : nat) (row : gmap string cell) : DataFrame :=
  if is_skip_row (DF.first cols row) then result_df
  else
    let month_val := DF.first cols row in
    if is_total_row month_val then DF.set_at result_df idx yoy_col CNone
    else
      let yoy_result := row_yoy (DF.get row col_2024) (DF.get row col_2025) in
      DF.set_at result_df idx yoy_col (Cell.of_result yoy_result).

Definition yoy_pass (col_2024 col_2025 yoy_col : string) (df : DataFrame)
  : DataFrame :=
  DF.iterrows (yoy_body (columns df) col_2024 col_2025 yoy_col) 0 (rows df) df.

(** The test of the December search (lines 166-169): the row is not
    skipped and its first field contains "december". *)
Definition is_december_row (cols : list string) (row : gmap string cell)
  : bool :=
  if is_skip_row (DF.first cols row) then false
  else
    let month_val := DF.first cols row in
    negb (Cell.isna month_val)
    && Text.contains "december" (Cell.lower month_val).

(** The search for the December row (lines 164-175): the 2024 entry of the
    first row that passes the test. *)
Fixpoint find_december (cols : list string) (col_2024 : string)
  (rs : list (gmap string cell)) : option pynum :=
  match rs with
  | [] => None
  | row :: rest =>
      if is_december_row cols row
      then Some (to_numeric (DF.get row col_2024))
      else find_december cols col_2024 rest
  end.

(** The state of the LM loop. *)
Record lm_state : Type := {
  lm_df : DataFrame;
  previous_value : option pynum;
  first_month : bool
}.

(** The body of the LM loop (lines 177-220). *)
Definition lm_body (cols : list string) (col_2025 lm_col : string)
  (december_2024_value : option pynum)
  (st : lm_state) (idx : nat) (row : gmap string cell) : lm_state :=
  if is_skip_row (DF.first cols row) then st
  else
    let month_val := DF.first cols row in
    if is_total_row month_val then
      {| lm_df := DF.set_at (lm_df st) idx lm_col CNone;
         previous_value := previous_value st;
         first_month := first_month st |}
    else
      let current_value := to_numeric (DF.get row col_2025) in
      if first_month st then
        let lm_result :=
          match december_2024_value with
          | Some dec =>
              if negb (Num.isnan dec)
              then calculate_lm_percentage current_value dec
              else None
          | None => None
          end in
        {| lm_df := DF.set_at (lm_df st) idx lm_col (Cell.of_result lm_result);
           previous_value := Some current_value;
           first_month := false |}
      else
        let lm_result :=
          match previous_value st with
          | Some prev => calculate_lm_percentage current_value prev
          | None => None
          end in
        {| lm_df := DF.set_at (lm_df st) idx lm_col (Cell.of_result lm_result);
           previous_value := Some current_value;
           first_month := false |}.

(** [december_2024_value] as the LM pass starts; [col_2024] is
    [year_cols.get('2024')]. *)
Definition december_value (col_2024 : option string) (df : DataFrame)
  : option pynum :=
  match col_2024 with
  | Some c => if String.eqb c "" then None
              else find_december (columns df) c (rows df)
  | None => None
  end.

(** The LM pass (lines 154-220). *)
Definition lm_pass (col_2024 : option string) (col_2025 lm_col : string)
  (df : DataFrame) : DataFrame :=
  let december_2024_value := december_value col_2024 df in
  lm_df
    (DF.iterrows (lm_body (columns df) col_2025 lm_col december_2024_value)
       0 (rows df)
       {| lm_df := df; previous_value := None; first_month := true |}).


(** [calculate_metrics(df, section_name)].  The totals kept in [df.attrs]
    are not entries of the table and are left out. *)
Definition calculate_metrics (df : DataFrame) : DataFrame :=
  let result_df := df in
  let year_cols := identify_year_columns result_df in
  if is_section_empty result_df (ODict.values year_cols) then
    DF.set_column_none "LM %" (DF.set_column_none "YOY %" result_df)
  else
    let yoy_col := fst (pick_metric_columns (columns result_df)) in
    let lm_col := snd (pick_metric_columns (columns result_df)) in
    let result_df := ensure_column yoy_col result_df in
    let result_df := ensure_column lm_col result_df in
    let result_df :=
      match ODict.get "2024" year_cols, ODict.get "2025" year_cols with
      | Some col_2024, Some col_2025 =>
          yoy_pass col_2024 col_2025 yoy_col result_df
      | _, _ => result_df
      end in
    match ODict.get "2025" year_cols with
    | Some col_2025 =>
        lm_pass (ODict.get "2024" year_cols) col_2025 lm_col result_df
    | None => result_df
    end.

(** ** agents/excel_writer_agent.py *)

(** [if idx:] on a row or column index that may be None. *)
Definition index_truthy (idx : option nat) : bool :=
  match idx with
  | Some (Datatypes.S _) => true
  | _ => false
  end.

(** [if name:] on a label that may be None. *)
Definition label_truthy (name : option string) : bool :=
  match name with
  | Some s => negb (String.eqb s "")
  | None => false
  end.

Record column_indices : Type := {
  ci_yoy : option nat;
  ci_lm : option nat;
  ci_summary : option nat
}.

Definition find_yoy_lm_columns (ws : gmap (nat * nat) cell)
  (max_column header_row_idx : nat) : column_indices :=
  let found :=
    fold_left
      (fun acc col_idx =>
         let v := Sheet.value ws header_row_idx col_idx in
         if Cell.truthy v then
           let cell_str := Cell.lower v in
           if is_yoy_label cell_str then (Some col_idx, snd acc)
           else if is_lm_label cell_str then (fst acc, Some col_idx)
           else acc
         else acc)
      (seq 1 max_column) (None, None) in
  {| ci_yoy := fst found;
     ci_lm := snd found;
     ci_summary :=
       if index_truthy (snd found) then (fun x => x + 2) <$> snd found
       else if index_truthy (fst found) then (fun x => x + 3) <$> fst found
       else Some 8 |}.

(** The metric columns of the frame as the writer finds them (lines
    78-83). *)
Definition pick_written_columns (cols : list string)
  : option string * option string :=
  fold_left
    (fun acc col =>
       let col_str := Text.lower col in
       if Text.contains "yoy" col_str
          && (Text.contains "2024" col_str || Text.contains "2025" col_str)
       then (Some col, snd acc)
       else if is_lm_label col_str then (fst acc, Some col)
       else acc)
    cols (None, None).

(** [format_percentage_for_excel(value)] on an entry of the frame that is
    not missing; text cannot take the format and raises. *)
Definition format_entry (value : cell) : option string :=
  match value with
  | CNum v => Some (format_percentage_for_excel (Some v))
  | CBool b => Some (format_percentage_for_excel (Some (Fin (if b then 1 else 0))))
  | CNone => Some (format_percentage_for_excel None)
  | CStr _ => None
  end.

(** One metric of one row (lines 94-100 and 103-108); no sheet comes back
    when the formatting raises. *)
Definition write_entry (ws : gmap (nat * nat) cell) (excel_row : nat)
  (col_name : option string) (col_idx : option nat)
  (row : gmap string cell) : option (gmap (nat * nat) cell) :=
  match col_name, col_idx with
  | Some name, Some idx =>
      if label_truthy col_name && index_truthy col_idx then
        let value := DF.get row name in
        if negb (Cell.isna value) then
          match format_entry value with
          | Some text => Some (Sheet.set ws excel_row idx (CStr text))
          | None => None
          end
        else Some ws
      else Some ws
  | _, _ => Some ws
  end.

(** The body of the row loop of write_metrics_to_excel (lines 89-108). *)
Definition write_row_body (yoy_col_name lm_col_name : option string)
  (ci : column_indices) (data_start : nat)
  (st : option (gmap (nat * nat) cell)) (df_idx : nat)
  (row : gmap string cell) : option (gmap (nat * nat) cell) :=
  match st with
  | None => None
  | Some ws =>
      let excel_row := data_start + df_idx in
      match write_entry ws excel_row yoy_col_name (ci_yoy ci) row with
      | None => None
      | Some ws' => write_entry ws' excel_row lm_col_name (ci_lm ci) row
      end
  end.

(** The row loop of write_metrics_to_excel. *)
Definition write_metric_rows (ws : gmap (nat * nat) cell) (df : DataFrame)
  (data_start : nat) (ci : column_indices)
  : option (gmap (nat * nat) cell) :=
  let yoy_col_name := fst (pick_written_columns (columns df)) in
  let lm_col_name := snd (pick_written_columns (columns df)) in
  DF.iterrows (write_row_body yoy_col_name lm_col_name ci data_start)
    0 (rows df) (Some ws).

(** The test both recomputes apply to column B to find the Total row. *)
Definition is_total_label (cell_value : cell) : bool :=
  match cell_value with
  | CStr s =>
      negb (String.eqb s "") && Text.contains "total" (Text.lower s)
      && negb (Text.contains "visits" (Text.lower s))
  | _ => false
  end.

(** The test for the %Change row, tried when the first one fails. *)
Definition is_change_label (cell_value : cell) : bool :=
  match cell_value with
  | CStr s =>
      negb (String.eqb s "")
      && (Text.contains "% change" (Text.lower s)
          || Text.contains "%change" (Text.lower s))
  | _ => false
  end.

(** [pd.to_numeric(df[label], errors='coerce').sum()] over the given rows:
    NaN entries are skipped. *)
Definition column_sum (rs : list (gmap string cell)) (label : string)
  : pynum :=
  fold_left
    (fun acc row =>
       let v := to_numeric (DF.get row label) in
       if Num.isnan v then acc else Num.add acc v)
    rs (Fin 0).

(** ['year' in s or '2023' in s or '2024' in s or '2025' in s], and neither
    'yoy' nor 'lm' (write_total_row, lines 145-146). *)
Definition is_summed_header (header_str : string) : bool :=
  (Text.contains "year" header_str || Text.contains "2023" header_str
   || Text.contains "2024" header_str || Text.contains "2025" header_str)
  && negb (Text.contains "yoy" header_str)
  && negb (Text.contains "lm" header_str).

Definition total_row_body (df : DataFrame) (header_row_idx total_row_idx : nat)
  (ws : gmap (nat * nat) cell) (col_idx : nat) : gmap (nat * nat) cell :=
  let header_value := Sheet.value ws header_row_idx col_idx in
  if Cell.truthy header_value then
    if is_summed_header (Cell.lower header_value) then
      match List.find
              (fun df_col =>
                 String.eqb (Text.strip (Cell.str header_value))
                   (Text.strip df_col))
              (columns df) with
      | Some df_col =>
          let df_without_total :=
            List.filter
              (fun row =>
                 negb (Text.contains "total"
                         (Cell.lower (DF.first (columns df) row))))
              (rows df) in
          let total_sum := column_sum df_without_total df_col in
          if negb (Num.isnan total_sum) && negb (Num.eqb total_sum (Fin 0))
          then Sheet.set ws total_row_idx col_idx (CNum (Num.round0 total_sum))
          else ws
      | None => ws
      end
    else ws
  else ws.

Definition write_total_row (ws : gmap (nat * nat) cell) (df : DataFrame)
  (si : section_info) : gmap (nat * nat) cell :=
  let total_row_idx :=
    List.find (fun row_idx => is_total_label (Sheet.value ws row_idx 2))
      (range_incl (data_start_row si) (data_end_row si)) in
  match total_row_idx with
  | Some idx =>
      if index_truthy total_row_idx then
        fold_left (total_row_body df (header_row si) idx) (range_excl 3 20) ws
      else ws
  | None => ws
  end.

(** The scan of column B for the Total and the %Change row (lines
    183-192): the last row of each kind wins. *)
Definition locate_rows (ws : gmap (nat * nat) cell) (si : section_info)
  : option nat * option nat :=
  fold_left
    (fun acc row_idx =>
       let cell_value := Sheet.value ws row_idx 2 in
       if is_total_label cell_value then (Some row_idx, snd acc)
       else if is_change_label cell_value then (fst acc, Some row_idx)
       else acc)
    (range_incl (data_start_row si) (data_end_row si)) (None, None).

(** STEP 1: columns B to S of the %Change row are emptied, then the label
    is put back. *)
Definition clear_change_row (ws : gmap (nat * nat) cell) (change_row_idx : nat)
  : gmap (nat * nat) cell :=
  Sheet.set
    (fold_left (fun w col_idx => Sheet.set w change_row_idx col_idx CNone)
       (range_excl 2 20) ws)
    change_row_idx 2 (CStr "% Change").

(** The year a header names for the %Change row (lines 212-220). *)
Definition header_year (header_value : cell) : option string :=
  if Cell.truthy header_value then
    let header_str := Cell.lower header_value in
    if negb (Text.contains "yoy" header_str)
       && negb (Text.contains "lm" header_str)
       && negb (Text.contains "% change" header_str)
    then
      if Text.contains "2023" header_str then Some "2023"
      else if Text.contains "2024" header_str then Some "2024"
      else if Text.contains "2025" header_str then Some "2025"
      else None
    else None
  else None.

(** The years [header_year] can give. *)
Definition known_years : list string := ["2023"; "2024"; "2025"].

(** The order of the sort key: [a] does not come after [b]. *)
Definition year_le (a b : nat * string) : Prop :=
  String.ltb (snd b) (snd a) = false.

(** [year_columns.sort(key=lambda x: x[1])]: a stable sort. *)
Fixpoint insert_by_year (x : nat * string) (l : list (nat * string))
  : list (nat * string) :=
  match l with
  | [] => [x]
  | y :: rest =>
      if String.ltb (snd x) (snd y) then x :: y :: rest
      else y :: insert_by_year x rest
  end.

Definition sort_by_year (l : list (nat * string)) : list (nat * string) :=
  fold_left (fun acc x => insert_by_year x acc) l [].

(** STEP 2: the year columns, (column, year), sorted by year. *)
Definition collect_year_columns (ws : gmap (nat * nat) cell)
  (header_row_idx : nat) : list (nat * string) :=
  sort_by_year
    (omap
       (fun col_idx =>
          (fun year => (col_idx, year))
            <$> header_year (Sheet.value ws header_row_idx col_idx))
       (range_excl 3 20)).

(** [float(c)] on a value that is not None; no result when it raises. *)
Definition py_float (c : cell) : option pynum :=
  match c with
  | CNone => None
  | CBool b => Some (Fin (if b then 1 else 0))
  | CNum v => Some v
  | CStr s => parse_float s
  end.

(** The Total of one year column (lines 250-263): the value of the
    formula-resolved sheet when there is one, else the sum of the first
    column of the frame that names the year. *)
Definition total_of_year (df : DataFrame)
  (ws_data_only : option (gmap (nat * nat) cell))
  (total_row_idx col_idx : nat) (year : string) : option pynum :=
  let total_val :=
    match ws_data_only with
    | Some wsd => py_float (Sheet.value wsd total_row_idx col_idx)
    | None => None
    end in
  match total_val with
  | Some v => Some v
  | None =>
      match List.find
              (fun col_name =>
                 Text.contains year (Text.lower col_name)
                 && negb (Text.contains "yoy" (Text.lower col_name))
                 && negb (Text.contains "lm" (Text.lower col_name)))
              (columns df) with
      | Some col_name => Some (column_sum (rows df) col_name)
      | None => None
      end
  end.

Definition jan_aug_months : list string :=
  ["jan"; "feb"; "march"; "april"; "may"; "june"; "july"; "aug"].

(** The sum of one year column over the first eight months (lines
    270-286). *)
Definition jan_aug_sum_of (ws : gmap (nat * nat) cell)
  (ws_data_only : option (gmap (nat * nat) cell))
  (data_start total_row_idx col_idx : nat) : pynum :=
  fold_left
    (fun jan_aug_sum row_idx =>
       match Sheet.value ws row_idx 2 with
       | CStr month_cell =>
           if negb (String.eqb month_cell "")
              && Text.contains_any jan_aug_months
                   (Text.lower (Text.strip month_cell))
           then
             let val :=
               match ws_data_only with
               | Some wsd => Sheet.value wsd row_idx col_idx
               | None => Sheet.value ws row_idx col_idx
               end in
             match val with
             | CNone => Num.add jan_aug_sum (Fin 0)
             | _ =>
                 match py_float val with
                 | Some v => Num.add jan_aug_sum v
                 | None => jan_aug_sum
                 end
             end
           else jan_aug_sum
       | _ => jan_aug_sum
       end)
    (range_excl data_start total_row_idx) (Fin 0).

(** STEP 4: the accepted Totals and first-eight-months sums, by year. *)
Definition gather_values (ws : gmap (nat * nat) cell) (df : DataFrame)
  (ws_data_only : option (gmap (nat * nat) cell))
  (data_start total_row_idx : nat) (year_columns : list (nat * string))
  : gmap string pynum * gmap string pynum :=
  fold_left
    (fun acc cy =>
       let col_idx := fst cy in
       let year := snd cy in
       let total_values :=
         match total_of_year df ws_data_only total_row_idx col_idx year with
         | Some total_val =>
             if Num.truthy total_val && Num.gt total_val (Fin 0)
             then <[year := total_val]> (fst acc)
             else fst acc
         | None => fst acc
         end in
       let jan_aug_sum :=
         jan_aug_sum_of ws ws_data_only data_start total_row_idx col_idx in
       let jan_aug_values :=
         if Num.gt jan_aug_sum (Fin 0)
         then <[year := jan_aug_sum]> (snd acc)
         else snd acc in
       (total_values, jan_aug_values))
    year_columns (∅, ∅).

(** [((current - base) / base) * 100] *)
Definition pct_change (current base : pynum) : pynum :=
  Num.mul (Num.div (Num.sub current base) base) (Fin 100).

(** What the last loop writes into the cell of one year column, if
    anything (lines 308-331). *)
Definition change_cell (reference_year : string) (reference_total : pynum)
  (total_values jan_aug_values : gmap string pynum) (year : string)
  : option cell :=
  if String.eqb year reference_year then None
  else if String.eqb year "2025" && bool_decide (is_Some (jan_aug_values !! "2024"))
  then
    match jan_aug_values !! "2024", jan_aug_values !! year with
    | Some jan_aug_2024, Some current_jan_aug =>
        if Num.truthy jan_aug_2024 && Num.gt jan_aug_2024 (Fin 0)
        then Some (CStr (Num.format_2f (pct_change current_jan_aug jan_aug_2024)
                           +:+ "% (till Aug)"))
        else None
    | _, _ => None
    end
  else
    match total_values !! year with
    | Some current_total =>
        Some (CStr (format_percentage_for_excel
                      (Some (pct_change current_total reference_total))))
    | None => None
    end.

(** The cell of one year column as the specification words it, for
    comparison with [change_cell]: the latest year takes the partial
    comparison with its immediate predecessor when both partial sums exist,
    every other case the Total against the reference. *)
Definition claimed_change_cell (year_columns : list (nat * string))
  (reference_year : string) (reference_total : pynum)
  (total_values jan_aug_values : gmap string pynum) (year : string)
  : option cell :=
  let years := map snd year_columns in
  let latest := List.last years "" in
  let predecessor := List.last (removelast years) "" in
  let total_vs_reference :=
    match total_values !! year with
    | Some current_total =>
        Some (CStr (format_percentage_for_excel
                      (Some (pct_change current_total reference_total))))
    | None => None
    end in
  if String.eqb year reference_year then None
  else if String.eqb year latest then
    match jan_aug_values !! latest, jan_aug_values !! predecessor with
    | Some partial_latest, Some partial_predecessor =>
        if Num.gt partial_predecessor (Fin 0)
        then Some (CStr (Num.format_2f
                           (pct_change partial_latest partial_predecessor)
                           +:+ "% (till Aug)"))
        else total_vs_reference
    | _, _ => total_vs_reference
    end
  else total_vs_reference.

(** STEP 5, the loop over the year columns. *)
Definition fill_change_row (ws : gmap (nat * nat) cell) (change_row_idx : nat)
  (year_columns : list (nat * string)) (reference_year : string)
  (reference_total : pynum) (total_values jan_aug_values : gmap string pynum)
  : gmap (nat * nat) cell :=
  fold_left
    (fun w cy =>
       match change_cell reference_year reference_total total_values
               jan_aug_values (snd cy) with
       | Some v => Sheet.set w change_row_idx (fst cy) v
       | None => w
       end)
    year_columns ws.

(** The recompute once the %Change row is cleared (STEP 2 to STEP 6). *)
Definition refill_change_row (ws : gmap (nat * nat) cell) (df : DataFrame)
  (si : section_info) (ws_data_only : option (gmap (nat * nat) cell))
  (total_row_idx change_row_idx : nat) : gmap (nat * nat) cell :=
  let year_columns := collect_year_columns ws (header_row si) in
  if (length year_columns <? 2)%nat then ws
  else
    let values :=
      gather_values ws df ws_data_only (data_start_row si) total_row_idx
        year_columns in
    let total_values := fst values in
    let jan_aug_values := snd values in
    if (size total_values <? 2)%nat then ws
    else
      let reference_year := from_option snd "" (head year_columns) in
      match total_values !! reference_year with
      | Some reference_total =>
          if negb (Num.truthy reference_total)
             || Num.le reference_total (Fin 0)
          then ws
          else fill_change_row ws change_row_idx year_columns reference_year
                 reference_total total_values jan_aug_values
      | None => ws
      end.

(** [write_percent_change_row]; [ws_data_only] is the sheet of the workbook
    loaded with data_only=True, when the load succeeded.  The
    column_indices argument is not read by the function. *)
Definition write_percent_change_row (ws : gmap (nat * nat) cell)
  (df : DataFrame) (si : section_info)
  (ws_data_only : option (gmap (nat * nat) cell)) : gmap (nat * nat) cell :=
  match locate_rows ws si with
  | (Some total_row_idx, Some change_row_idx) =>
      if index_truthy (Some total_row_idx) && index_truthy (Some change_row_idx)
      then
        refill_change_row (clear_change_row ws change_row_idx) df si
          ws_data_only total_row_idx change_row_idx
      else ws
  | _ => ws
  end.

(** [write_metrics_to_excel]: the row loop, then the two recomputes. *)
Definition write_metrics_to_excel (ws : gmap (nat * nat) cell)
  (df : DataFrame) (data_start : nat) (ci : column_indices)
  (si : section_info) (ws_data_only : option (gmap (nat * nat) cell))
  : option (gmap (nat * nat) cell) :=
  match write_metric_rows ws df data_start ci with
  | Some ws1 =>
      let ws2 := write_total_row ws1 df si in
      Some (write_percent_change_row ws2 df si ws_data_only)
  | None => None
  end.

(** What the write-back promises for the cell of one metric of one row:
    text when the entry is present, the old value when it is missing. *)
Definition written_or_untouched (ws ws' : gmap (nat * nat) cell)
  (excel_row idx : nat) (value : cell) : Prop :=
  (Cell.isna value = false ->
   Some (Sheet.value ws' excel_row idx) = CStr <$> format_entry value)
  /\ (Cell.isna value = true ->
      Sheet.value ws' excel_row idx = Sheet.value ws excel_row idx).

(** The metric entries of a row can take the percentage format: none is
    text. *)
Definition entries_formattable (yoy_col_name lm_col_name : option string)
  (row : gmap string cell) : Prop :=
  forall name, yoy_col_name = Some name \/ lm_col_name = Some name ->
               Cell.is_str (DF.get row name) = false.

(** The promise of the write-back for both metrics of the row [df_idx]. *)
Definition row_written (yoy_col_name lm_col_name : option string)
  (ci : column_indices) (data_start : nat)
  (ws ws' : gmap (nat * nat) cell) (df_idx : nat)
  (row : gmap string cell) : Prop :=
  forall name idx,
    (yoy_col_name = Some name /\ ci_yoy ci = Some idx)
    \/ (lm_col_name = Some name /\ ci_lm ci = Some idx) ->
    written_or_untouched ws ws' (data_start + df_idx) idx (DF.get row name).

(** ** agents/summary_generator_agent.py *)

(** [identify_metric_columns(df)]: the last label of each kind. *)
Definition identify_metric_columns (df : DataFrame)
  : option string * option string :=
  fold_left
    (fun metric_cols col =>
       let col_str := Text.lower col in
       if Text.contains "yoy" col_str
          && (Text.contains "2024" col_str || Text.contains "2025" col_str)
       then (Some col, snd metric_cols)
       else if Text.contains "lm" col_str && Text.contains "2025" col_str
       then (fst metric_cols, Some col)
       else metric_cols)
    (columns df) (None, None).

(** [col and col in df.columns and df[col].notna().any()] (generate_summary,
    lines 92-93). *)
Definition has_values (df : DataFrame) (col : option string) : bool :=
  match col with
  | Some c =>
      negb (String.eqb c "") && DF.has_column df c
      && existsb (fun row => negb (Cell.isna (DF.get row c))) (rows df)
  | None => false
  end.

(** [not has_yoy and not has_lm]: the summary of an inactive section is
    asked for. *)
Definition no_calculated_metrics (df : DataFrame) : bool :=
  let metric_cols := identify_metric_columns df in
  negb (has_values df (fst metric_cols))
  && negb (has_values df (snd metric_cols)).

(** The summary returned when the call of the language model raises
    (generate_summary, lines 126-137). *)
Definition fallback_summary (section_name : string) (df : DataFrame)
  : string :=
  if no_calculated_metrics df then
    "No measurable traffic was recorded in " +:+ section_name
      +:+ " during the analyzed period."
  else
    "Analysis of " +:+ section_name
      +:+ " metrics shows varying patterns across the reporting period. Further investigation recommended.".

(** ** Notions used to state the properties *)

(** The tests of one branch of identify_year_columns (lines 48-56). *)
Definition year_pattern (year col_str : string) : bool :=
  Text.contains ("year-" +:+ year) col_str
  || Text.contains ("year " +:+ year) col_str
  || Text.endswith year col_str.

(** The year a label is filed under: the first branch whose tests pass. *)
Definition label_year (col : string) : option string :=
  List.find (fun year => year_pattern year (Text.lower col)) known_years.

(** The order of the sort key of detect_month_order. *)
Definition month_le (a b : string) : Prop :=
  index_of a month_order <= index_of b month_order.

(** Two sheets agree outside the rows [lo] to [hi]. *)
Definition same_outside_rows (lo hi : nat) (ws ws' : gmap (nat * nat) cell)
  : Prop :=
  forall r c, r < lo \/ hi < r -> Sheet.value ws' r c = Sheet.value ws r c.

(** * Properties *)

(** ** The numeric rules *)

Lemma Qle_bool_false_neq0 (a : Q) :
  Qle_bool a 0 = false -> Qeq_bool a 0 = false.
Proof.
  intros Hle. destruct (Qeq_bool a 0) eqn:Heq; [|reflexivity].
  apply Qeq_bool_iff in Heq.
  assert (Qle_bool a 0 = true) as Habs.
  { apply Qle_bool_iff. rewrite Heq. apply Qle_refl. }
  congruence.
Qed.


Lemma safe_percentage_finite (n d : Q) :
  Qeq_bool d 0 = false ->
  safe_percentage_calculation (Fin n) (Fin d)
  = Some (Num.round2 (n / d * 100)).
Proof.
  intros Hd. unfold safe_percentage_calculation. simpl.
  rewrite Hd. reflexivity.
Qed.


(** ** DataFrame accesses *)

Lemma DF_get_insert_eq (row : gmap string cell) (label : string) (v : cell) :
  DF.get (<[label := v]> row) label = v.
Proof. unfold DF.get. now rewrite lookup_insert_eq. Qed.

Lemma DF_get_insert_ne (row : gmap string cell) (l1 l2 : string) (v : cell) :
  l1 <> l2 -> DF.get (<[l1 := v]> row) l2 = DF.get row l2.
Proof. intros Hne. unfold DF.get. now rewrite lookup_insert_ne. Qed.

Lemma DF_set_at_columns df idx label v :
  columns (DF.set_at df idx label v) = columns df.
Proof. reflexivity. Qed.

Lemma DF_set_at_length df idx label v :
  length (rows (DF.set_at df idx label v)) = length (rows df).
Proof. unfold DF.set_at. simpl. apply length_alter. Qed.

Lemma DF_at_set_at_same df idx label v :
  idx < length (rows df) ->
  DF.at_ (DF.set_at df idx label v) idx label = v.
Proof.
  intros Hlt. unfold DF.at_, DF.set_at. simpl.
  rewrite list_lookup_alter_eq.
  destruct (lookup_lt_is_Some_2 (rows df) idx Hlt) as [row Hrow].
  rewrite Hrow. simpl. apply DF_get_insert_eq.
Qed.

Lemma DF_at_set_at_other_row df idx k label label' v :
  idx <> k ->
  DF.at_ (DF.set_at df idx label v) k label' = DF.at_ df k label'.
Proof.
  intros Hne. unfold DF.at_, DF.set_at. simpl.
  now rewrite list_lookup_alter_ne.
Qed.

Lemma DF_at_set_at_other_col df idx k label label' v :
  label <> label' ->
  DF.at_ (DF.set_at df idx label v) k label' = DF.at_ df k label'.
Proof.
  intros Hne. unfold DF.at_, DF.set_at. simpl.
  destruct (decide (idx = k)) as [->|Hk].
  - rewrite list_lookup_alter_eq. destruct (rows df !! k); simpl; [|reflexivity].
    now apply DF_get_insert_ne.
  - now rewrite list_lookup_alter_ne.
Qed.

Lemma DF_iterrows_app {S : Type} (body : S -> nat -> gmap string cell -> S)
  (l1 l2 : list (gmap string cell)) (idx : nat) (st : S) :
  DF.iterrows body idx (l1 ++ l2) st
  = DF.iterrows body (idx + length l1) l2 (DF.iterrows body idx l1 st).
Proof.
  revert idx st. induction l1 as [|r l1 IH]; intros idx st; simpl.
  - now rewrite Nat.add_0_r.
  - rewrite IH. f_equal. lia.
Qed.

(** ** The activation check *)




Lemma DF_at_set_column_none (label : string) (df : DataFrame) (idx : nat) :
  DF.at_ (DF.set_column_none label df) idx label = CNone.
Proof.
  unfold DF.at_, DF.set_column_none. simpl.
  rewrite list_lookup_fmap. destruct (rows df !! idx); simpl; [|reflexivity].
  apply DF_get_insert_eq.
Qed.

Lemma DF_at_set_column_none_ne (label label' : string) (df : DataFrame) (idx : nat) :
  label <> label' ->
  DF.at_ (DF.set_column_none label df) idx label' = DF.at_ df idx label'.
Proof.
  intros Hne. unfold DF.at_, DF.set_column_none. simpl.
  rewrite list_lookup_fmap. destruct (rows df !! idx); simpl; [|reflexivity].
  now apply DF_get_insert_ne.
Qed.

Lemma calculate_metrics_inactive (df : DataFrame) :
  is_section_empty df (ODict.values (identify_year_columns df)) = true ->
  calculate_metrics df
  = DF.set_column_none "LM %" (DF.set_column_none "YOY %" df)
  /\ forall idx,
      DF.at_ (calculate_metrics df) idx "YOY %" = CNone
      /\ DF.at_ (calculate_metrics df) idx "LM %" = CNone.
Proof.
  intros Hempty.
  assert (calculate_metrics df
          = DF.set_column_none "LM %" (DF.set_column_none "YOY %" df)) as Heq.
  { unfold calculate_metrics. now rewrite Hempty. }
  split; [exact Heq|].
  intros idx. rewrite Heq. split.
  - rewrite DF_at_set_column_none_ne by discriminate.
    apply DF_at_set_column_none.
  - apply DF_at_set_column_none.
Qed.


(** ** Loops that assign one column, row by row *)

Section ColumnLoop.

Context {S : Type}.
Variable proj : S -> DataFrame.
Variable body : S -> nat -> gmap string cell -> S.
Variable col : string.

Hypothesis body_writes :
  forall st idx row,
    proj (body st idx row) = proj st
    \/ exists v, proj (body st idx row) = DF.set_at (proj st) idx col v.

Lemma loop_step_length st idx row :
  length (rows (proj (body st idx row))) = length (rows (proj st)).
Proof.
  destruct (body_writes st idx row) as [->|[v ->]];
    [reflexivity|apply DF_set_at_length].
Qed.

Lemma loop_step_columns st idx row :
  columns (proj (body st idx row)) = columns (proj st).
Proof.
  destruct (body_writes st idx row) as [->|[v ->]]; reflexivity.
Qed.

Lemma loop_length rs idx st :
  length (rows (proj (DF.iterrows body idx rs st))) = length (rows (proj st)).
Proof.
  revert idx st. induction rs as [|r rs IH]; intros idx st; simpl;
    [reflexivity|].
  rewrite IH. apply loop_step_length.
Qed.

Lemma loop_columns rs idx st :
  columns (proj (DF.iterrows body idx rs st)) = columns (proj st).
Proof.
  revert idx st. induction rs as [|r rs IH]; intros idx st; simpl;
    [reflexivity|].
  rewrite IH. apply loop_step_columns.
Qed.

Lemma loop_other_column rs idx st k label :
  label <> col ->
  DF.at_ (proj (DF.iterrows body idx rs st)) k label = DF.at_ (proj st) k label.
Proof.
  intros Hne. revert idx st.
  induction rs as [|r rs IH]; intros idx st; simpl; [reflexivity|].
  rewrite IH.
  destruct (body_writes st idx r) as [->|[v ->]]; [reflexivity|].
  apply DF_at_set_at_other_col. congruence.
Qed.

Lemma loop_earlier_row rs idx st k label :
  k < idx ->
  DF.at_ (proj (DF.iterrows body idx rs st)) k label = DF.at_ (proj st) k label.
Proof.
  revert idx st.
  induction rs as [|r rs IH]; intros idx st Hlt; simpl; [reflexivity|].
  rewrite IH by lia.
  destruct (body_writes st idx r) as [->|[v ->]]; [reflexivity|].
  apply DF_at_set_at_other_row. lia.
Qed.

(** The entry of row [length pre] after the loop is the one its own step
    left. *)
Lemma loop_at_row pre r post st label :
  DF.at_ (proj (DF.iterrows body 0 (pre ++ r :: post) st)) (length pre) label
  = DF.at_ (proj (body (DF.iterrows body 0 pre st) (length pre) r))
      (length pre) label.
Proof.
  rewrite DF_iterrows_app. simpl.
  apply loop_earlier_row. lia.
Qed.

End ColumnLoop.

Lemma yoy_body_writes cols col_2024 col_2025 yoy_col st idx row :
  yoy_body cols col_2024 col_2025 yoy_col st idx row = st
  \/ exists v, yoy_body cols col_2024 col_2025 yoy_col st idx row
               = DF.set_at st idx yoy_col v.
Proof.
  unfold yoy_body.
  destruct (is_skip_row _); [now left|].
  destruct (is_total_row _); right; eauto.
Qed.

Lemma lm_body_writes cols col_2025 lm_col dec st idx row :
  lm_df (lm_body cols col_2025 lm_col dec st idx row) = lm_df st
  \/ exists v, lm_df (lm_body cols col_2025 lm_col dec st idx row)
               = DF.set_at (lm_df st) idx lm_col v.
Proof.
  unfold lm_body.
  destruct (is_skip_row _); [now left|].
  destruct (is_total_row _); [right; simpl; eauto|].
  destruct (first_month st); right; simpl; eauto.
Qed.

(** ** The YOY and the LM pass *)









(** ** Total-rows *)







Lemma DF_has_column_In (d : DataFrame) (label : string) :
  DF.has_column d label = true <-> In label (columns d).
Proof.
  unfold DF.has_column. rewrite existsb_exists. split.
  - intros [x [Hin Heq]]. apply String.eqb_eq in Heq. now subst.
  - intros Hin. exists label. split; [exact Hin|apply String.eqb_refl].
Qed.

Lemma ensure_column_length label d :
  length (rows (ensure_column label d)) = length (rows d).
Proof.
  unfold ensure_column. destruct (DF.has_column d label); [reflexivity|].
  simpl. apply length_fmap.
Qed.


Lemma ensure_column_at_ne label d k c :
  c <> label -> DF.at_ (ensure_column label d) k c = DF.at_ d k c.
Proof.
  intros Hne. unfold ensure_column.
  destruct (DF.has_column d label); [reflexivity|].
  apply DF_at_set_column_none_ne. congruence.
Qed.



Lemma yoy_pass_length c24 c25 yoy_col d :
  length (rows (yoy_pass c24 c25 yoy_col d)) = length (rows d).
Proof.
  unfold yoy_pass.
  apply (loop_length (fun x => x) _ yoy_col (yoy_body_writes _ c24 c25 yoy_col)).
Qed.

Lemma yoy_pass_columns c24 c25 yoy_col d :
  columns (yoy_pass c24 c25 yoy_col d) = columns d.
Proof.
  unfold yoy_pass.
  apply (loop_columns (fun x => x) _ yoy_col (yoy_body_writes _ c24 c25 yoy_col)).
Qed.

Lemma yoy_pass_other_column c24 c25 yoy_col d k label :
  label <> yoy_col ->
  DF.at_ (yoy_pass c24 c25 yoy_col d) k label = DF.at_ d k label.
Proof.
  intros Hne. unfold yoy_pass.
  now apply (loop_other_column (fun x => x) _ yoy_col
               (yoy_body_writes _ c24 c25 yoy_col)).
Qed.

Lemma lm_pass_other_column c24 c25 lm_col d k label :
  label <> lm_col ->
  DF.at_ (lm_pass c24 c25 lm_col d) k label = DF.at_ d k label.
Proof.
  intros Hne. unfold lm_pass.
  now rewrite (loop_other_column lm_df _ lm_col (lm_body_writes _ c25 lm_col _)).
Qed.



(** ** Extraction *)

Lemma read_rows_stop ws n pre k post :
  existsb Cell.truthy (Sheet.row_values ws k 2 n) = false ->
  read_rows ws n (pre ++ k :: post) = read_rows ws n pre.
Proof.
  intros Hstop. induction pre as [|j pre IH]; simpl.
  - now rewrite Hstop.
  - rewrite IH. reflexivity.
Qed.

Lemma range_incl_split lo k hi :
  lo <= k <= hi ->
  range_incl lo hi = range_excl lo k ++ k :: seq (S k) (hi - k).
Proof.
  intros [Hlo Hhi]. unfold range_incl, range_excl.
  replace (hi + 1 - lo) with ((k - lo) + S (hi - k)) by lia.
  rewrite seq_app. simpl. repeat f_equal; lia.
Qed.

Lemma blank_row_all_false ws k n :
  (forall c, 2 <= c < 2 + n -> Sheet.value ws k c = CNone) ->
  existsb Cell.truthy (Sheet.row_values ws k 2 n) = false.
Proof.
  intros Hblank. unfold Sheet.row_values.
  apply not_true_is_false. intros Hex.
  apply existsb_exists in Hex as [x [Hin Hx]].
  apply in_map_iff in Hin as [c [<- Hc]].
  apply in_seq in Hc. rewrite Hblank in Hx by lia. discriminate.
Qed.

(** C8.  Reading the data rows from data_start_row to data_end_row stops at
    a row that is blank in every read column: the rows read are those of
    the range that ends just before it, however far data_end_row extends;
    the rows kept are numbered from 0 without a gap, and a section whose
    first data row is blank gives a table with the header labels and no
    row. *)
Theorem extraction_stops_at_blank_row (ws : gmap (nat * nat) cell)
  (max_column : nat) (si : section_info) (k : nat) :
  data_start_row si <= k <= data_end_row si ->
  (forall c, 2 <= c <= max_column -> Sheet.value ws k c = CNone) ->
  let headers := read_headers ws max_column (header_row si) in
  let df := extract_section_data ws max_column si in
  read_rows ws (length headers)
    (range_incl (data_start_row si) (data_end_row si))
  = read_rows ws (length headers) (range_excl (data_start_row si) k)
  /\ df = extract_section_data ws max_column (with_data_end_row si k)
  /\ (forall i, i < length (rows df) <-> is_Some (rows df !! i))
  /\ (k = data_start_row si -> columns df = headers /\ rows df = []).
Proof.
  intros Hk Hblank headers df.
  assert (Hn : length headers = max_column - 1).
  { unfold headers, read_headers. now rewrite length_map, length_seq. }
  assert (Hstop : existsb Cell.truthy (Sheet.row_values ws k 2 (length headers))
                  = false).
  { apply blank_row_all_false. intros c Hc. apply Hblank. lia. }
  assert (Hread : forall e, k <= e ->
             read_rows ws (length headers) (range_incl (data_start_row si) e)
             = read_rows ws (length headers) (range_excl (data_start_row si) k)).
  { intros e He. rewrite (range_incl_split (data_start_row si) k e) by lia.
    now apply read_rows_stop. }
  split; [apply Hread; lia|].
  split.
  { unfold df, extract_section_data. simpl. fold headers.
    rewrite (Hread (data_end_row si)) by lia.
    rewrite (Hread k) by lia. reflexivity. }
  split.
  { intros i. symmetry. apply lookup_lt_is_Some. }
  intros ->. unfold df, extract_section_data. fold headers.
  rewrite (Hread (data_end_row si)) by lia.
  unfold range_excl. rewrite Nat.sub_diag. simpl. now split.
Qed.

(** C10, amended.  A data row whose read cells are all false (empty, None
    or 0), the first one included, ends the extraction as a blank row does;
    a row whose first field is false while another read cell is true is
    dropped and the reading goes on; a row whose first field is true, a
    month name for one, is kept and the reading goes on, whatever its
    other cells hold, zero in every year column included. *)
Theorem extraction_row_cases (ws : gmap (nat * nat) cell) (n row_idx : nat)
  (rest : list nat) :
  let row_data := Sheet.row_values ws row_idx 2 n in
  (existsb Cell.truthy row_data = false ->
   read_rows ws n (row_idx :: rest) = [])
  /\ (existsb Cell.truthy row_data = true ->
      Cell.truthy (hd CNone row_data) = false ->
      read_rows ws n (row_idx :: rest) = read_rows ws n rest)
  /\ (Cell.truthy (hd CNone row_data) = true ->
      read_rows ws n (row_idx :: rest) = row_data :: read_rows ws n rest).
Proof.
  intros row_data. simpl. fold row_data. repeat split.
  - intros ->. reflexivity.
  - intros -> ->. reflexivity.
  - intros Hfirst.
    assert (existsb Cell.truthy row_data = true) as ->.
    { destruct row_data as [|c cs]; simpl in *; [discriminate|].
      now rewrite Hfirst. }
    simpl. now rewrite Hfirst.
Qed.

(** ** Worksheet accesses *)

Lemma Sheet_value_set_eq ws r c v : Sheet.value (Sheet.set ws r c v) r c = v.
Proof. unfold Sheet.value, Sheet.set. now rewrite lookup_insert_eq. Qed.

Lemma Sheet_value_set_ne ws r c v r' c' :
  (r, c) <> (r', c') ->
  Sheet.value (Sheet.set ws r c v) r' c' = Sheet.value ws r' c'.
Proof.
  intros Hne. unfold Sheet.value, Sheet.set. now rewrite lookup_insert_ne.
Qed.

(** ** The row loop of the write-back *)

Lemma find_yoy_lm_columns_inv ws max_column hr :
  let ci := find_yoy_lm_columns ws max_column hr in
  (forall a, ci_yoy ci = Some a ->
             1 <= a /\ is_yoy_label (Cell.lower (Sheet.value ws hr a)) = true)
  /\ (forall b, ci_lm ci = Some b ->
              1 <= b /\ is_yoy_label (Cell.lower (Sheet.value ws hr b)) = false).
Proof.
  unfold find_yoy_lm_columns. simpl.
  set (step := fun (acc : option nat * option nat) (col_idx : nat) => _).
  assert (Hgen : forall cols acc,
             (forall c, In c cols -> 1 <= c) ->
             ((forall a, fst acc = Some a ->
                 1 <= a /\ is_yoy_label (Cell.lower (Sheet.value ws hr a)) = true)
              /\ (forall b, snd acc = Some b ->
                 1 <= b /\ is_yoy_label (Cell.lower (Sheet.value ws hr b)) = false)) ->
             (forall a, fst (fold_left step cols acc) = Some a ->
                 1 <= a /\ is_yoy_label (Cell.lower (Sheet.value ws hr a)) = true)
             /\ (forall b, snd (fold_left step cols acc) = Some b ->
                 1 <= b /\ is_yoy_label (Cell.lower (Sheet.value ws hr b)) = false)).
  { induction cols as [|c cols IH]; intros acc Hpos Hacc; simpl; [exact Hacc|].
    apply IH; [intros x Hx; apply Hpos; now right|].
    assert (Hc : 1 <= c) by (apply Hpos; now left).
    destruct Hacc as [Hy Hl]. unfold step.
    destruct (Cell.truthy (Sheet.value ws hr c)); [|now split].
    destruct (is_yoy_label (Cell.lower (Sheet.value ws hr c))) eqn:Hyoy; simpl.
    - split; [|exact Hl]. intros a [= <-]. now split.
    - destruct (is_lm_label (Cell.lower (Sheet.value ws hr c))); simpl;
        [|now split].
      split; [exact Hy|]. intros b [= <-]. now split. }
  apply Hgen.
  - intros c Hc. apply in_seq in Hc. lia.
  - split; intros x Hx; discriminate Hx.
Qed.

Lemma find_yoy_lm_columns_distinct ws max_column hr a b :
  ci_yoy (find_yoy_lm_columns ws max_column hr) = Some a ->
  ci_lm (find_yoy_lm_columns ws max_column hr) = Some b ->
  a <> b.
Proof.
  intros Ha Hb.
  destruct (find_yoy_lm_columns_inv ws max_column hr) as [Hy Hl].
  destruct (Hy a Ha) as [_ Hya]. destruct (Hl b Hb) as [_ Hlb].
  intros ->. congruence.
Qed.

Lemma contains_nonempty pat s :
  pat <> "" -> Text.contains pat s = true -> s <> "".
Proof.
  intros Hpat Hc ->. simpl in Hc. destruct pat; [contradiction|discriminate].
Qed.

Lemma lower_nonempty s : Text.lower s <> "" -> s <> "".
Proof. intros H ->. now apply H. Qed.

Lemma pick_written_columns_truthy (cols : list string) :
  (forall name, fst (pick_written_columns cols) = Some name -> name <> "")
  /\ (forall name, snd (pick_written_columns cols) = Some name -> name <> "").
Proof.
  unfold pick_written_columns.
  set (step := fun (acc : option string * option string) (col : string) => _).
  assert (Hgen : forall cs acc,
             ((forall name, fst acc = Some name -> name <> "")
              /\ (forall name, snd acc = Some name -> name <> "")) ->
             (forall name, fst (fold_left step cs acc) = Some name -> name <> "")
             /\ (forall name, snd (fold_left step cs acc) = Some name
                              -> name <> "")).
  { induction cs as [|c cs IH]; intros acc Hacc; simpl; [exact Hacc|].
    apply IH. destruct Hacc as [Hy Hl]. unfold step.
    destruct (Text.contains "yoy" (Text.lower c)) eqn:Hyoy; simpl.
    - destruct (_ || _); simpl.
      + split; [|exact Hl]. intros name [= <-].
        apply lower_nonempty.
        now apply (contains_nonempty "yoy").
      + unfold is_lm_label.
        destruct (Text.contains "lm" (Text.lower c)) eqn:Hlm; simpl;
          [|now split].
        destruct (Text.contains "2025" (Text.lower c)); [|now split].
        split; [exact Hy|]. intros name [= <-].
        apply lower_nonempty. now apply (contains_nonempty "lm").
    - unfold is_lm_label.
      destruct (Text.contains "lm" (Text.lower c)) eqn:Hlm; simpl;
        [|now split].
      destruct (Text.contains "2025" (Text.lower c)); [|now split].
      split; [exact Hy|]. intros name [= <-].
      apply lower_nonempty. now apply (contains_nonempty "lm"). }
  apply Hgen. split; intros x Hx; discriminate Hx.
Qed.

Lemma write_entry_spec ws excel_row col_name col_idx row :
  (forall name, col_name = Some name -> name <> "") ->
  (forall a, col_idx = Some a -> 1 <= a) ->
  (forall name, col_name = Some name -> Cell.is_str (DF.get row name) = false) ->
  exists ws',
    write_entry ws excel_row col_name col_idx row = Some ws'
    /\ (forall r c, r <> excel_row \/ Some c <> col_idx ->
                    Sheet.value ws' r c = Sheet.value ws r c)
    /\ (forall name idx, col_name = Some name -> col_idx = Some idx ->
           written_or_untouched ws ws' excel_row idx (DF.get row name)).
Proof.
  intros Hname Hidx Hstr. unfold write_entry.
  destruct col_name as [name|]; [|exists ws; repeat split; congruence].
  destruct col_idx as [idx|]; [|exists ws; repeat split; congruence].
  specialize (Hname name eq_refl). specialize (Hidx idx eq_refl).
  specialize (Hstr name eq_refl).
  assert (label_truthy (Some name) = true) as ->.
  { simpl. destruct (String.eqb_spec name ""); [contradiction|reflexivity]. }
  assert (index_truthy (Some idx) = true) as ->.
  { destruct idx; [lia|reflexivity]. }
  simpl.
  destruct (Cell.isna (DF.get row name)) eqn:Hna; simpl.
  - exists ws. split; [reflexivity|]. split; [reflexivity|].
    intros n i [= <-] [= <-]. split; intros H; [congruence|reflexivity].
  - destruct (format_entry (DF.get row name)) as [text|] eqn:Hfmt.
    + exists (Sheet.set ws excel_row idx (CStr text)).
      split; [reflexivity|]. split.
      * intros r c Hrc. apply Sheet_value_set_ne. intros [= <- <-].
        destruct Hrc; congruence.
      * intros n i [= <-] [= <-]. split; intros H; [|congruence].
        rewrite Sheet_value_set_eq, Hfmt. reflexivity.
    + destruct (DF.get row name); simpl in *; discriminate.
Qed.

Section WriteLoop.

Variable yoy_col_name lm_col_name : option string.
Variable ci : column_indices.
Variable data_start : nat.

Hypothesis names_truthy :
  forall name, yoy_col_name = Some name \/ lm_col_name = Some name ->
               name <> "".
Hypothesis indices_truthy :
  forall a, ci_yoy ci = Some a \/ ci_lm ci = Some a -> 1 <= a.
Hypothesis indices_distinct :
  forall a b, ci_yoy ci = Some a -> ci_lm ci = Some b -> a <> b.

Let entries_formattable := entries_formattable yoy_col_name lm_col_name.
Let row_written := row_written yoy_col_name lm_col_name ci data_start.

Lemma write_row_body_spec ws df_idx row :
  entries_formattable row ->
  exists ws',
    write_row_body yoy_col_name lm_col_name ci data_start (Some ws) df_idx row
    = Some ws'
    /\ (forall r c, r <> data_start + df_idx
                    \/ (Some c <> ci_yoy ci /\ Some c <> ci_lm ci) ->
                    Sheet.value ws' r c = Sheet.value ws r c)
    /\ row_written ws ws' df_idx row.
Proof.
  intros Hfmt. unfold write_row_body.
  destruct (write_entry_spec ws (data_start + df_idx) yoy_col_name (ci_yoy ci) row)
    as [ws1 [Hw1 [Hframe1 Hcell1]]]; eauto.
  destruct (write_entry_spec ws1 (data_start + df_idx) lm_col_name (ci_lm ci) row)
    as [ws2 [Hw2 [Hframe2 Hcell2]]]; eauto.
  rewrite Hw1, Hw2. exists ws2. split; [reflexivity|]. split.
  - intros r c Hrc. rewrite Hframe2, Hframe1; [reflexivity| |];
      destruct Hrc as [Hr|[Hy Hl]]; auto.
  - intros name idx [[Hn Hi]|[Hn Hi]].
    + destruct (Hcell1 name idx Hn Hi) as [Hpresent Hmissing].
      assert (Hkeep : Sheet.value ws2 (data_start + df_idx) idx
                      = Sheet.value ws1 (data_start + df_idx) idx).
      { apply Hframe2. right. intros Heq. symmetry in Heq.
        now apply (indices_distinct idx idx Hi Heq). }
      split; intros Hna; rewrite Hkeep; auto.
    + destruct (Hcell2 name idx Hn Hi) as [Hpresent Hmissing].
      split; intros Hna; [now apply Hpresent|].
      rewrite (Hmissing Hna). apply Hframe1. right. intros Heq.
      symmetry in Heq. now apply (indices_distinct idx idx Heq Hi).
Qed.

Lemma write_loop_spec rs df_idx ws :
  (forall row, In row rs -> entries_formattable row) ->
  exists ws',
    DF.iterrows (write_row_body yoy_col_name lm_col_name ci data_start)
      df_idx rs (Some ws) = Some ws'
    /\ (forall r c, r < data_start + df_idx
                    \/ (Some c <> ci_yoy ci /\ Some c <> ci_lm ci) ->
                    Sheet.value ws' r c = Sheet.value ws r c)
    /\ (forall j row, rs !! j = Some row -> row_written ws ws' (df_idx + j) row).
Proof.
  revert df_idx ws. induction rs as [|row rs IH]; intros df_idx ws Hfmt;
    cbn [DF.iterrows].
  - exists ws. split; [reflexivity|]. split; [reflexivity|].
    intros j r Hj. discriminate Hj.
  - destruct (write_row_body_spec ws df_idx row (Hfmt row (or_introl eq_refl)))
      as [ws1 [Hbody [Hframe1 Hrow1]]].
    rewrite Hbody.
    destruct (IH (Datatypes.S df_idx) ws1) as [ws' [Hloop [Hframe Hrows]]].
    { intros r Hr. apply Hfmt. now right. }
    exists ws'. split; [exact Hloop|]. split.
    + intros r c Hrc. rewrite Hframe, Hframe1; [reflexivity| |];
        destruct Hrc as [Hr|Hc]; auto; left; lia.
    + intros [|j] r Hj; simpl in Hj.
      * injection Hj as <-. rewrite Nat.add_0_r.
        intros name idx Hres.
        destruct (Hrow1 name idx Hres) as [Hpresent Hmissing].
        assert (Hkeep : Sheet.value ws' (data_start + df_idx) idx
                        = Sheet.value ws1 (data_start + df_idx) idx).
        { apply Hframe. left. lia. }
        split; intros Hna; rewrite Hkeep; auto.
      * replace (df_idx + Datatypes.S j) with (Datatypes.S df_idx + j) by lia.
        intros name idx Hres.
        destruct (Hrows j r Hj name idx Hres) as [Hpresent Hmissing].
        split; intros Hna; [now apply Hpresent|].
        rewrite (Hmissing Hna). apply Hframe1. left. lia.
Qed.

End WriteLoop.

(** C9.  In the row loop of the write-back, with the metric columns the
    header row resolves, every row of the table whose YOY or LM entry is
    present has that entry written as percentage text at grid row
    data_start_row + row index in the resolved column, and a missing entry
    leaves that grid cell as it was; no cell outside the two metric columns
    changes. *)
Theorem write_back_rows (ws : gmap (nat * nat) cell)
  (max_column header_row_idx data_start : nat) (df : DataFrame) :
  let ci := find_yoy_lm_columns ws max_column header_row_idx in
  let yoy_col_name := fst (pick_written_columns (columns df)) in
  let lm_col_name := snd (pick_written_columns (columns df)) in
  (forall row name,
      In row (rows df) ->
      yoy_col_name = Some name \/ lm_col_name = Some name ->
      Cell.is_str (DF.get row name) = false) ->
  exists ws',
    write_metric_rows ws df data_start ci = Some ws'
    /\ (forall i row name idx,
          rows df !! i = Some row ->
          (yoy_col_name = Some name /\ ci_yoy ci = Some idx)
          \/ (lm_col_name = Some name /\ ci_lm ci = Some idx) ->
          written_or_untouched ws ws' (data_start + i) idx (DF.get row name))
    /\ (forall r c, Some c <> ci_yoy ci -> Some c <> ci_lm ci ->
                    Sheet.value ws' r c = Sheet.value ws r c).
Proof.
  intros ci yoy_col_name lm_col_name Hfmt.
  destruct (pick_written_columns_truthy (columns df)) as [Hyn Hln].
  destruct (find_yoy_lm_columns_inv ws max_column header_row_idx) as [Hyi Hli].
  destruct (write_loop_spec yoy_col_name lm_col_name ci data_start) with
    (rs := rows df) (df_idx := 0) (ws := ws) as [ws' [Hloop [Hframe Hrows]]].
  - intros name [H|H]; [now apply Hyn|now apply Hln].
  - intros a [H|H]; [now apply Hyi|now apply Hli].
  - apply find_yoy_lm_columns_distinct.
  - intros row Hrow name Hname. now apply Hfmt.
  - exists ws'. split; [exact Hloop|]. split.
    + intros i row name idx Hrow Hres. now apply (Hrows i row Hrow).
    + intros r c Hy Hl. apply Hframe. now right.
Qed.

(** ** The %Change row: which cells the recompute touches *)

Lemma clear_fold_lookup (cols : list nat) ws cr r c :
  fold_left (fun w col_idx => Sheet.set w cr col_idx CNone) cols ws !! (r, c)
  = if bool_decide (r = cr /\ c ∈ cols) then Some CNone else ws !! (r, c).
Proof.
  revert ws. induction cols as [|x cols IH]; intros ws; simpl.
  - rewrite bool_decide_eq_false_2; [reflexivity|].
    intros [_ Hin]. now apply not_elem_of_nil in Hin.
  - rewrite IH. unfold Sheet.set.
    destruct (bool_decide_reflect (r = cr /\ c ∈ cols)) as [[-> Hin]|Hno].
    + rewrite bool_decide_eq_true_2; [reflexivity|].
      split; [reflexivity|now apply list_elem_of_further].
    + destruct (decide ((cr, x) = (r, c))) as [[= -> ->]|Hne].
      * rewrite lookup_insert_eq, bool_decide_eq_true_2; [reflexivity|].
        split; [reflexivity|apply list_elem_of_here].
      * rewrite lookup_insert_ne by exact Hne.
        rewrite bool_decide_eq_false_2; [reflexivity|].
        intros [-> Hin]. apply elem_of_cons in Hin as [->|Hin];
          [now apply Hne|apply Hno; tauto].
Qed.

Lemma clear_change_row_lookup ws cr r c :
  clear_change_row ws cr !! (r, c)
  = if bool_decide (r = cr /\ 2 <= c < 20)
    then Some (if bool_decide (c = 2) then CStr "% Change" else CNone)
    else ws !! (r, c).
Proof.
  unfold clear_change_row. unfold Sheet.set at 1.
  destruct (decide ((cr, 2) = (r, c))) as [Heq|Hne].
  - injection Heq as <- <-.
    rewrite lookup_insert_eq, bool_decide_eq_true_2 by lia.
    rewrite bool_decide_eq_true_2 by reflexivity. reflexivity.
  - rewrite lookup_insert_ne by exact Hne. rewrite clear_fold_lookup.
    unfold range_excl.
    destruct (bool_decide_reflect (r = cr /\ 2 <= c < 20)) as [[-> Hc]|Hno].
    + rewrite bool_decide_eq_true_2
        by (split; [reflexivity|apply list_elem_of_In, in_seq; lia]).
      rewrite bool_decide_eq_false_2; [reflexivity|]. intros ->. now apply Hne.
    + rewrite bool_decide_eq_false_2; [reflexivity|].
      intros [-> Hin]. apply list_elem_of_In, in_seq in Hin. apply Hno. lia.
Qed.

Lemma clear_change_row_value_in ws cr c :
  3 <= c < 20 -> Sheet.value (clear_change_row ws cr) cr c = CNone.
Proof.
  intros Hc. unfold Sheet.value. rewrite clear_change_row_lookup.
  rewrite bool_decide_eq_true_2 by lia.
  rewrite bool_decide_eq_false_2 by lia. reflexivity.
Qed.

Lemma clear_change_row_value_label ws cr :
  Sheet.value (clear_change_row ws cr) cr 2 = CStr "% Change".
Proof.
  unfold Sheet.value. rewrite clear_change_row_lookup.
  rewrite bool_decide_eq_true_2 by lia. reflexivity.
Qed.

Lemma clear_change_row_value_other ws cr r c :
  r <> cr \/ c < 2 \/ 20 <= c ->
  Sheet.value (clear_change_row ws cr) r c = Sheet.value ws r c.
Proof.
  intros Hout. unfold Sheet.value. rewrite clear_change_row_lookup.
  rewrite bool_decide_eq_false_2; [reflexivity|]. intros [-> Hc]. lia.
Qed.

Lemma fill_change_row_lookup ws cr year_columns ry rt tv jv r c :
  r <> cr \/ ~ In c (map fst year_columns) ->
  fill_change_row ws cr year_columns ry rt tv jv !! (r, c) = ws !! (r, c).
Proof.
  unfold fill_change_row. revert ws.
  induction year_columns as [|[col year] ycs IH]; intros ws Hout; simpl;
    [reflexivity|].
  rewrite IH by (simpl in Hout; tauto).
  destruct (change_cell ry rt tv jv year); [|reflexivity].
  unfold Sheet.set. apply lookup_insert_ne. intros [= -> ->].
  simpl in Hout. tauto.
Qed.

Lemma insert_by_year_In x l z :
  In z (insert_by_year x l) <-> z = x \/ In z l.
Proof.
  induction l as [|y l IH]; simpl.
  - split; intros [H|H]; auto.
  - destruct (String.ltb (snd x) (snd y)); simpl; [split; intros [H|H]; auto|].
    rewrite IH. tauto.
Qed.

Lemma sort_by_year_In l z : In z (sort_by_year l) <-> In z l.
Proof.
  unfold sort_by_year.
  assert (Hgen : forall acc, In z (fold_left (fun a x => insert_by_year x a) l acc)
                             <-> In z l \/ In z acc).
  { induction l as [|x l IH]; intros acc; simpl; [tauto|].
    rewrite IH, insert_by_year_In. split; intros H; intuition auto. }
  rewrite Hgen. simpl. tauto.
Qed.

Lemma collect_year_columns_In ws hr col year :
  In (col, year) (collect_year_columns ws hr) ->
  3 <= col < 20 /\ header_year (Sheet.value ws hr col) = Some year.
Proof.
  unfold collect_year_columns. rewrite sort_by_year_In.
  rewrite <- list_elem_of_In, list_elem_of_omap.
  intros [c [Hc Hy]]. apply list_elem_of_In, in_seq in Hc.
  destruct (header_year (Sheet.value ws hr c)) eqn:Hh; simpl in Hy;
    [|discriminate].
  injection Hy as <- <-. split; [lia|exact Hh].
Qed.

Lemma refill_change_row_lookup ws df si wsd tr cr r c :
  r <> cr \/ c < 3 \/ 20 <= c ->
  refill_change_row ws df si wsd tr cr !! (r, c) = ws !! (r, c).
Proof.
  intros Hout. unfold refill_change_row.
  set (ycs := collect_year_columns ws (header_row si)).
  set (vals := gather_values ws df wsd (data_start_row si) tr ycs).
  destruct (length ycs <? 2)%nat; [reflexivity|].
  destruct (size (fst vals) <? 2)%nat; [reflexivity|].
  destruct (fst vals !! from_option snd "" (head ycs)) as [rt|]; [|reflexivity].
  destruct (_ || _); [reflexivity|].
  apply fill_change_row_lookup.
  destruct Hout as [Hr|Hc]; [now left|right].
  intros Hin. apply in_map_iff in Hin as [[col year] [<- Hin]].
  apply collect_year_columns_In in Hin. simpl in Hc. lia.
Qed.

(** ** The %Change row: running the recompute twice *)

Lemma locate_rows_ext ws ws' si :
  (forall r, is_total_label (Sheet.value ws' r 2)
             = is_total_label (Sheet.value ws r 2)
             /\ is_change_label (Sheet.value ws' r 2)
                = is_change_label (Sheet.value ws r 2)) ->
  locate_rows ws' si = locate_rows ws si.
Proof.
  intros Hsame. unfold locate_rows.
  generalize (@None nat, @None nat).
  induction (range_incl (data_start_row si) (data_end_row si)) as [|r l IH];
    intros acc; simpl; [reflexivity|].
  destruct (Hsame r) as [-> ->]. apply IH.
Qed.

Lemma locate_rows_change_sound ws si cr :
  snd (locate_rows ws si) = Some cr ->
  is_total_label (Sheet.value ws cr 2) = false
  /\ is_change_label (Sheet.value ws cr 2) = true.
Proof.
  unfold locate_rows.
  assert (Hgen : forall l acc,
             (forall x, snd acc = Some x ->
                is_total_label (Sheet.value ws x 2) = false
                /\ is_change_label (Sheet.value ws x 2) = true) ->
             forall x,
               snd (fold_left
                      (fun acc row_idx =>
                         let cell_value := Sheet.value ws row_idx 2 in
                         if is_total_label cell_value then (Some row_idx, snd acc)
                         else if is_change_label cell_value
                              then (fst acc, Some row_idx)
                              else acc) l acc) = Some x ->
               is_total_label (Sheet.value ws x 2) = false
               /\ is_change_label (Sheet.value ws x 2) = true).
  { induction l as [|r l IH]; intros acc Hacc x; simpl; [apply Hacc|].
    apply IH. intros y.
    destruct (is_total_label (Sheet.value ws r 2)) eqn:Ht; simpl;
      [apply Hacc|].
    destruct (is_change_label (Sheet.value ws r 2)) eqn:Hc; simpl;
      [|apply Hacc].
    intros [= <-]. now split. }
  apply Hgen. intros x Hx. discriminate Hx.
Qed.

(** C7.  Running the %Change-row recompute a second time, on the sheet the
    first run left and with the same table and formula-resolved sheet,
    changes no cell. *)
Theorem write_percent_change_row_idempotent (ws : gmap (nat * nat) cell)
  (df : DataFrame) (si : section_info)
  (ws_data_only : option (gmap (nat * nat) cell)) :
  write_percent_change_row
    (write_percent_change_row ws df si ws_data_only) df si ws_data_only
  = write_percent_change_row ws df si ws_data_only.
Proof.
  destruct (locate_rows ws si) as [total_row change_row] eqn:Hloc.
  assert (Hnoop : write_percent_change_row ws df si ws_data_only = ws ->
                  write_percent_change_row
                    (write_percent_change_row ws df si ws_data_only)
                    df si ws_data_only
                  = write_percent_change_row ws df si ws_data_only).
  { intros Heq. now rewrite !Heq. }
  destruct total_row as [tr|], change_row as [cr|];
    try (apply Hnoop; unfold write_percent_change_row; now rewrite Hloc).
  destruct (index_truthy (Some tr) && index_truthy (Some cr)) eqn:Htruthy;
    [|apply Hnoop; unfold write_percent_change_row;
      now rewrite Hloc, Htruthy].
  set (ws' := refill_change_row (clear_change_row ws cr) df si ws_data_only tr cr).
  assert (Hfirst : write_percent_change_row ws df si ws_data_only = ws').
  { unfold write_percent_change_row. now rewrite Hloc, Htruthy. }
  rewrite Hfirst.
  assert (Hcol2 : forall r, Sheet.value ws' r 2
                            = Sheet.value (clear_change_row ws cr) r 2).
  { intros r. unfold Sheet.value, ws'.
    rewrite refill_change_row_lookup by lia. reflexivity. }
  destruct (locate_rows_change_sound ws si cr) as [Hnot_total Hchange].
  { now rewrite Hloc. }
  assert (Hloc' : locate_rows ws' si = (Some tr, Some cr)).
  { rewrite <- Hloc. apply locate_rows_ext. intros r. rewrite Hcol2.
    destruct (decide (r = cr)) as [->|Hne].
    - rewrite clear_change_row_value_label, Hnot_total, Hchange.
      split; reflexivity.
    - rewrite clear_change_row_value_other by tauto. split; reflexivity. }
  assert (Hclear : clear_change_row ws' cr = clear_change_row ws cr).
  { apply map_eq. intros [r c]. rewrite !clear_change_row_lookup.
    destruct (bool_decide_reflect (r = cr /\ 2 <= c < 20)) as [Hin|Hout];
      [reflexivity|].
    unfold ws'. rewrite refill_change_row_lookup by lia.
    rewrite clear_change_row_lookup.
    rewrite bool_decide_eq_false_2 by exact Hout. reflexivity. }
  unfold write_percent_change_row at 1. rewrite Hloc', Htruthy, Hclear.
  reflexivity.
Qed.

(** ** The %Change row: what the recompute writes *)

Lemma insert_by_year_perm x l : Permutation (insert_by_year x l) (x :: l).
Proof.
  induction l as [|y l IH]; simpl; [reflexivity|].
  destruct (String.ltb (snd x) (snd y)); [reflexivity|].
  rewrite IH. apply perm_swap.
Qed.

Lemma sort_by_year_perm l : Permutation (sort_by_year l) l.
Proof.
  unfold sort_by_year.
  assert (Hgen : forall acc,
             Permutation (fold_left (fun a x => insert_by_year x a) l acc)
               (l ++ acc)).
  { induction l as [|x l IH]; intros acc; simpl; [reflexivity|].
    rewrite IH, insert_by_year_perm. symmetry. apply Permutation_middle. }
  rewrite Hgen. now rewrite app_nil_r.
Qed.

Lemma collect_year_columns_NoDup ws hr :
  NoDup (map fst (collect_year_columns ws hr)).
Proof.
  unfold collect_year_columns.
  rewrite (Permutation_map fst (sort_by_year_perm _)).
  unfold range_excl.
  assert (Hgen : forall l : list nat,
             NoDup l ->
             NoDup (map fst
                      (omap (fun col_idx =>
                               (fun year => (col_idx, year))
                                 <$> header_year (Sheet.value ws hr col_idx)) l))
             /\ forall c, In c (map fst
                                  (omap (fun col_idx =>
                                           (fun year => (col_idx, year))
                                             <$> header_year
                                                   (Sheet.value ws hr col_idx)) l))
                          -> In c l).
  { induction l as [|c l IH]; intros Hnd; simpl.
    - split; [constructor|tauto].
    - apply NoDup_cons in Hnd as [Hc Hnd]. destruct (IH Hnd) as [IH1 IH2].
      destruct (header_year (Sheet.value ws hr c)); simpl.
      + split.
        * apply NoDup_cons. split; [|exact IH1].
          intros Hin. apply Hc. apply list_elem_of_In, IH2.
          now apply list_elem_of_In.
        * intros x [<-|Hx]; [now left|right; now apply IH2].
      + split; [exact IH1|]. intros x Hx. right. now apply IH2. }
  apply Hgen. apply NoDup_ListNoDup, seq_NoDup.
Qed.

Lemma fill_change_row_value ws cr year_columns ry rt tv jv col year :
  NoDup (map fst year_columns) ->
  In (col, year) year_columns ->
  Sheet.value (fill_change_row ws cr year_columns ry rt tv jv) cr col
  = match change_cell ry rt tv jv year with
    | Some v => v
    | None => Sheet.value ws cr col
    end.
Proof.
  unfold fill_change_row. revert ws.
  induction year_columns as [|[c y] ycs IH]; intros ws Hnd Hin; simpl in *;
    [contradiction|].
  apply NoDup_cons in Hnd as [Hc Hnd].
  destruct Hin as [[= -> ->]|Hin].
  - pose proof (fill_change_row_lookup
                  (match change_cell ry rt tv jv year with
                   | Some v => Sheet.set ws cr col v
                   | None => ws
                   end) cr ycs ry rt tv jv cr col) as Hkeep.
    unfold fill_change_row in Hkeep. unfold Sheet.value at 1.
    rewrite Hkeep by (right; intros Hin; apply Hc; now apply list_elem_of_In).
    fold (Sheet.value
            (match change_cell ry rt tv jv year with
             | Some v => Sheet.set ws cr col v
             | None => ws
             end) cr col).
    destruct (change_cell ry rt tv jv year); [apply Sheet_value_set_eq|].
    reflexivity.
  - rewrite IH by assumption.
    destruct (change_cell ry rt tv jv year) as [v|]; [reflexivity|].
    destruct (change_cell ry rt tv jv y); [|reflexivity].
    apply Sheet_value_set_ne. intros [= ->]. apply Hc.
    apply list_elem_of_In, in_map_iff. now exists (col, year).
Qed.

Lemma header_year_known c year :
  header_year c = Some year -> In year known_years.
Proof.
  unfold header_year, known_years.
  destruct (Cell.truthy c); [|discriminate].
  destruct (_ && _); [|discriminate].
  destruct (Text.contains "2023" _); [intros [= <-]; simpl; tauto|].
  destruct (Text.contains "2024" _); [intros [= <-]; simpl; tauto|].
  destruct (Text.contains "2025" _); [intros [= <-]; simpl; tauto|].
  discriminate.
Qed.

Lemma known_years_order a b c :
  In a known_years -> In b known_years -> In c known_years ->
  String.ltb a a = false
  /\ (String.ltb a b = true -> String.ltb b a = false)
  /\ (String.ltb a b = true -> String.ltb c b = false ->
      String.ltb c a = false).
Proof.
  unfold known_years. simpl.
  intros [<-|[<-|[<-|[]]]] [<-|[<-|[<-|[]]]] [<-|[<-|[<-|[]]]];
    vm_compute; repeat split; congruence.
Qed.

Lemma insert_by_year_sorted x l :
  (forall z, In z (x :: l) -> In (snd z) known_years) ->
  StronglySorted year_le l ->
  StronglySorted year_le (insert_by_year x l).
Proof.
  intros Hknown Hsorted. induction l as [|y l IH]; simpl.
  - repeat constructor.
  - apply StronglySorted_inv in Hsorted as [Hl Hy].
    assert (Hx : In (snd x) known_years) by (apply Hknown; now left).
    assert (Hyk : In (snd y) known_years) by (apply Hknown; right; now left).
    destruct (String.ltb (snd x) (snd y)) eqn:Hlt.
    + constructor; [constructor; assumption|].
      constructor.
      * unfold year_le.
        destruct (known_years_order (snd x) (snd y) (snd y) Hx Hyk Hyk)
          as [_ [Hasym _]].
        now apply Hasym.
      * rewrite List.Forall_forall in Hy |- *. intros z Hz.
        assert (Hzk : In (snd z) known_years)
          by (apply Hknown; right; now right).
        unfold year_le.
        destruct (known_years_order (snd x) (snd y) (snd z) Hx Hyk Hzk)
          as [_ [_ Htrans]].
        apply Htrans; [exact Hlt|]. now apply Hy.
    + constructor.
      * apply IH; [|exact Hl]. intros z [<-|Hz]; apply Hknown; simpl; auto.
      * rewrite List.Forall_forall in Hy |- *. intros z Hz.
        apply insert_by_year_In in Hz as [->|Hz]; [exact Hlt|now apply Hy].
Qed.

Lemma sort_by_year_sorted l :
  (forall z, In z l -> In (snd z) known_years) ->
  StronglySorted year_le (sort_by_year l).
Proof.
  unfold sort_by_year. intros Hknown.
  assert (Hgen : forall acc,
             (forall z, In z (l ++ acc) -> In (snd z) known_years) ->
             StronglySorted year_le acc ->
             StronglySorted year_le
               (fold_left (fun a x => insert_by_year x a) l acc)).
  { clear Hknown. induction l as [|x l IH]; intros acc Hk Hs; simpl;
      [exact Hs|].
    apply IH.
    - intros z Hz. apply Hk. simpl. apply in_app_iff in Hz as [Hz|Hz].
      + right. apply in_app_iff. now left.
      + apply insert_by_year_In in Hz as [->|Hz]; [now left|].
        right. apply in_app_iff. now right.
    - apply insert_by_year_sorted; [|exact Hs].
      intros z [<-|Hz]; apply Hk; simpl; [now left|].
      right. apply in_app_iff. now right. }
  apply Hgen; [|constructor]. intros z Hz. apply Hknown.
  now rewrite app_nil_r in Hz.
Qed.

Lemma collect_year_columns_known ws hr z :
  In z (collect_year_columns ws hr) -> In (snd z) known_years.
Proof.
  destruct z as [col year]. intros Hin.
  apply collect_year_columns_In in Hin as [_ Hy].
  now apply header_year_known in Hy.
Qed.

(** The first year column after the sort carries the lowest year. *)
Lemma reference_year_lowest ws hr col year :
  In (col, year) (collect_year_columns ws hr) ->
  String.ltb year (from_option snd "" (head (collect_year_columns ws hr)))
  = false.
Proof.
  intros Hin.
  assert (Hsorted : StronglySorted year_le (collect_year_columns ws hr)).
  { unfold collect_year_columns. apply sort_by_year_sorted.
    intros z Hz. apply sort_by_year_In in Hz.
    now apply (collect_year_columns_known ws hr). }
  pose proof (collect_year_columns_known ws hr) as Hknown.
  destruct (collect_year_columns ws hr) as [|h t]; [contradiction|].
  simpl. apply StronglySorted_inv in Hsorted as [_ Hh].
  destruct Hin as [->|Hin].
  - simpl.
    assert (Hy : In year known_years) by (apply (Hknown (col, year)); now left).
    now destruct (known_years_order year year year Hy Hy Hy) as [Hirr _].
  - rewrite List.Forall_forall in Hh. now apply (Hh (col, year)).
Qed.

Lemma gt_zero_accepted v :
  Num.gt v (Fin 0) = true ->
  Num.truthy v = true /\ Num.le v (Fin 0) = false.
Proof.
  destruct v as [q| | |]; simpl; try discriminate; [|now split].
  intros Hgt. apply negb_true_iff in Hgt. split; [|exact Hgt].
  unfold Num.truthy. simpl. now rewrite (Qle_bool_false_neq0 q Hgt).
Qed.

Lemma gather_values_positive ws df wsd ds tr year_columns :
  let values := gather_values ws df wsd ds tr year_columns in
  (forall y v, fst values !! y = Some v -> Num.gt v (Fin 0) = true)
  /\ (forall y v, snd values !! y = Some v -> Num.gt v (Fin 0) = true).
Proof.
  unfold gather_values.
  set (step := fun (acc : gmap string pynum * gmap string pynum)
                   (cy : nat * string) => _).
  assert (Hgen : forall l acc,
             ((forall y v, fst acc !! y = Some v -> Num.gt v (Fin 0) = true)
              /\ (forall y v, snd acc !! y = Some v -> Num.gt v (Fin 0) = true)) ->
             (forall y v, fst (fold_left step l acc) !! y = Some v ->
                          Num.gt v (Fin 0) = true)
             /\ (forall y v, snd (fold_left step l acc) !! y = Some v ->
                             Num.gt v (Fin 0) = true)).
  { induction l as [|[col year] l IH]; intros acc Hacc; simpl; [exact Hacc|].
    apply IH. destruct Hacc as [Ht Hj]. unfold step. simpl. split.
    - intros y v.
      destruct (total_of_year df wsd tr col year) as [t|]; [|apply Ht].
      destruct (Num.truthy t && Num.gt t (Fin 0)) eqn:Hacc; [|apply Ht].
      apply andb_prop in Hacc as [_ Hgt].
      destruct (decide (year = y)) as [->|Hne].
      + rewrite lookup_insert_eq. now intros [= <-].
      + rewrite lookup_insert_ne by exact Hne. apply Ht.
    - intros y v.
      destruct (Num.gt (jan_aug_sum_of ws wsd ds tr col) (Fin 0)) eqn:Hgt;
        [|apply Hj].
      destruct (decide (year = y)) as [->|Hne].
      + rewrite lookup_insert_eq. now intros [= <-].
      + rewrite lookup_insert_ne by exact Hne. apply Hj. }
  apply Hgen.
  split; intros y v Hy; simpl in Hy; rewrite lookup_empty in Hy; discriminate.
Qed.

(** C4, amended.  Once the recompute has found both rows, at least two year
    columns, at least two accepted Totals and the Total of the reference
    year, the reference is the lowest year among the year columns, its cell
    stays blank, and every other year column holds: for the year 2025 when
    a first-eight-months sum was accepted for 2024, the 2025-against-2024
    partial percentage marked "(till Aug)" if a 2025 sum was accepted too
    and nothing if not; in every other case the Total-against-reference
    percentage if that year's Total was accepted and nothing if not. *)
Theorem percent_change_row_cells (ws : gmap (nat * nat) cell) (df : DataFrame)
  (si : section_info) (ws_data_only : option (gmap (nat * nat) cell))
  (total_row_idx change_row_idx : nat) (reference_total : pynum) :
  locate_rows ws si = (Some total_row_idx, Some change_row_idx) ->
  1 <= total_row_idx -> 1 <= change_row_idx ->
  let ws1 := clear_change_row ws change_row_idx in
  let year_columns := collect_year_columns ws1 (header_row si) in
  let values :=
    gather_values ws1 df ws_data_only (data_start_row si) total_row_idx
      year_columns in
  let total_values := fst values in
  let jan_aug_values := snd values in
  let reference_year := from_option snd "" (head year_columns) in
  2 <= length year_columns ->
  2 <= size total_values ->
  total_values !! reference_year = Some reference_total ->
  let out := write_percent_change_row ws df si ws_data_only in
  forall col year,
    In (col, year) year_columns ->
    String.ltb year reference_year = false
    /\ Sheet.value out change_row_idx col
       = if String.eqb year reference_year then CNone
         else if String.eqb year "2025"
                 && bool_decide (is_Some (jan_aug_values !! "2024"))
         then
           match jan_aug_values !! "2024", jan_aug_values !! "2025" with
           | Some partial_2024, Some partial_2025 =>
               CStr (Num.format_2f (pct_change partial_2025 partial_2024)
                       +:+ "% (till Aug)")
           | _, _ => CNone
           end
         else
           match total_values !! year with
           | Some total =>
               CStr (Num.format_2f (pct_change total reference_total) +:+ "%")
           | None => CNone
           end.
Proof.
  intros Hloc Htr Hcr ws1 year_columns values total_values jan_aug_values
    reference_year Hlen Hsize Href out col year Hin.
  split; [exact (reference_year_lowest ws1 (header_row si) col year Hin)|].
  destruct (gather_values_positive ws1 df ws_data_only (data_start_row si)
              total_row_idx year_columns) as [Htot Hjan].
  fold values in Htot, Hjan. fold total_values in Htot.
  fold jan_aug_values in Hjan.
  destruct (gt_zero_accepted _ (Htot _ _ Href)) as [Htruthy Hle].
  assert (Hout : out = fill_change_row ws1 change_row_idx year_columns
                         reference_year reference_total total_values
                         jan_aug_values).
  { unfold out, write_percent_change_row. rewrite Hloc.
    assert (index_truthy (Some total_row_idx) = true) as ->
      by (destruct total_row_idx; [lia|reflexivity]).
    assert (index_truthy (Some change_row_idx) = true) as ->
      by (destruct change_row_idx; [lia|reflexivity]).
    cbn [andb]. unfold refill_change_row.
    fold ws1. fold year_columns. fold values. fold total_values.
    fold jan_aug_values. fold reference_year.
    assert ((length year_columns <? 2)%nat = false) as ->
      by (apply Nat.ltb_ge; lia).
    assert ((size total_values <? 2)%nat = false) as ->
      by (apply Nat.ltb_ge; lia).
    rewrite Href, Htruthy, Hle. reflexivity. }
  rewrite Hout.
  rewrite (fill_change_row_value ws1 change_row_idx year_columns reference_year
             reference_total total_values jan_aug_values col year
             (collect_year_columns_NoDup ws1 (header_row si)) Hin).
  assert (Hblank : Sheet.value ws1 change_row_idx col = CNone).
  { apply clear_change_row_value_in.
    exact (proj1 (collect_year_columns_In ws1 (header_row si) col year Hin)). }
  rewrite Hblank. unfold change_cell.
  clear Hout Hblank Hin Href Hsize Hlen Htot.
  clearbody out reference_year jan_aug_values total_values.
  destruct (String.eqb year reference_year); [reflexivity|].
  destruct (String.eqb_spec year "2025") as [->|Hne]; cbn [andb].
  - destruct (jan_aug_values !! "2024") as [p24|] eqn:H24.
    + destruct (gt_zero_accepted _ (Hjan _ _ H24)) as [Ht Hg].
      rewrite bool_decide_eq_true_2 by eauto.
      rewrite Ht, (Hjan _ _ H24). cbn [andb].
      destruct (jan_aug_values !! "2025"); reflexivity.
    + rewrite bool_decide_eq_false_2 by (intros [x Hx]; discriminate).
      destruct (total_values !! "2025"); reflexivity.
  - destruct (total_values !! year); reflexivity.
Qed.

(** ** Sections with fewer than two year columns *)





Lemma total_row_fold_lookup df hr idx cols ws r c :
  r <> idx \/ ~ In c cols ->
  fold_left (total_row_body df hr idx) cols ws !! (r, c) = ws !! (r, c).
Proof.
  revert ws. induction cols as [|x cols IH]; intros ws Hout; simpl;
    [reflexivity|].
  rewrite IH by (simpl in Hout; tauto).
  unfold total_row_body.
  destruct (Cell.truthy _); [|reflexivity].
  destruct (is_summed_header _); [|reflexivity].
  destruct (List.find _ _); [|reflexivity].
  destruct (_ && _); [|reflexivity].
  unfold Sheet.set. apply lookup_insert_ne. intros [= -> ->].
  simpl in Hout. tauto.
Qed.


(** ** The section scanner *)

Lemma scan_headers_elem ws max_column max_row n r :
  (n, r) ∈ scan_headers ws max_column max_row
  <-> 1 <= r <= max_row /\ section_header_name ws max_column r = Some n.
Proof.
  unfold scan_headers, range_incl. rewrite list_elem_of_omap. split.
  - intros (x & Hx & Hf). apply elem_of_seq in Hx.
    destruct (section_header_name ws max_column x) eqn:Hn; simpl in Hf;
      [|discriminate].
    injection Hf as <- <-. split; [lia | assumption].
  - intros [Hr Hn]. exists r. split.
    + apply elem_of_seq. lia.
    + rewrite Hn. reflexivity.
Qed.

Lemma tagged_seq_sorted {A : Type} (f : nat -> option A) (lo n : nat) :
  StronglySorted (fun a b : A * nat => snd a < snd b)
    (omap (fun r => (fun x => (x, r)) <$> f r) (seq lo n)).
Proof.
  revert lo. induction n as [|n IH]; intros lo; simpl.
  - constructor.
  - destruct (f lo) as [x|]; simpl; [|apply IH].
    constructor; [apply IH|].
    apply Forall_forall. intros [y r] Hy.
    apply (proj1 (list_elem_of_omap
                    (fun r => (fun x => (x, r)) <$> f r) (seq (S lo) n) (y, r)))
      in Hy.
    destruct Hy as (k & Hk & Hf). apply elem_of_seq in Hk.
    destruct (f k); simpl in Hf; [|discriminate].
    injection Hf as <- <-. simpl. lia.
Qed.

Lemma sorted_lookup_lt {A : Type} (R : A -> A -> Prop) (l : list A) i j a b :
  StronglySorted R l -> i < j -> l !! i = Some a -> l !! j = Some b -> R a b.
Proof.
  intros Hs Hij Hi Hj.
  rewrite <- (take_drop_middle l j b Hj) in Hs.
  apply (StronglySorted_app_1_elem_of R _ _ a b Hs).
  - apply (list_elem_of_lookup_2 _ i). rewrite lookup_take_lt; assumption.
  - apply list_elem_of_here.
Qed.

Lemma scan_headers_lookup_lt ws max_column max_row i j a b :
  i < j ->
  scan_headers ws max_column max_row !! i = Some a ->
  scan_headers ws max_column max_row !! j = Some b ->
  snd a < snd b.
Proof.
  intros Hij Hi Hj.
  exact (sorted_lookup_lt _ _ i j a b
           (tagged_seq_sorted (section_header_name ws max_column) 1 _)
           Hij Hi Hj).
Qed.

(** What the second loop makes of the entry [i] of the first. *)
Lemma detect_sections_lookup ws max_column max_row i s :
  detect_sections ws max_column max_row !! i = Some s ->
  scan_headers ws max_column max_row !! i
  = Some (name s, header_row (info s))
  /\ data_start_row (info s) = header_row (info s) + 1
  /\ data_end_row (info s)
     = match scan_headers ws max_column max_row !! (i + 1) with
       | Some next => snd next - 1
       | None => max_row
       end.
Proof.
  unfold detect_sections. rewrite list_lookup_imap.
  destruct (scan_headers ws max_column max_row !! i) as [[n h]|] eqn:Hi;
    simpl; [|discriminate].
  intros [= <-]. simpl. split; [reflexivity|]. split; [reflexivity|].
  apply lookup_lt_Some in Hi.
  destruct (scan_headers ws max_column max_row !! (i + 1)) as [next|] eqn:Hn.
  - apply lookup_lt_Some in Hn.
    replace (i <? length (scan_headers ws max_column max_row) - 1)%nat
      with true by (symmetry; apply Nat.ltb_lt; lia).
    reflexivity.
  - apply lookup_ge_None in Hn.
    replace (i <? length (scan_headers ws max_column max_row) - 1)%nat
      with false by (symmetry; apply Nat.ltb_ge; lia).
    reflexivity.
Qed.

Lemma detect_sections_next ws max_column max_row i :
  header_row ∘ info <$> detect_sections ws max_column max_row !! i
  = snd <$> scan_headers ws max_column max_row !! i.
Proof.
  unfold detect_sections. rewrite list_lookup_imap.
  destruct (scan_headers ws max_column max_row !! i); reflexivity.
Qed.

(** X1.  Every section the scanner reports is headed by a row that passes
    the header test under the reported name; its data start on the next
    row; it ends on the row before the next reported header, or on the last
    row of the sheet when it is the last section; and its header row is
    never below its end row. *)
Theorem detect_sections_layout (ws : gmap (nat * nat) cell)
  (max_column max_row i : nat) (s : detected_section) :
  detect_sections ws max_column max_row !! i = Some s ->
  section_header_name ws max_column (header_row (info s)) = Some (name s)
  /\ 1 <= header_row (info s)
  /\ data_start_row (info s) = header_row (info s) + 1
  /\ header_row (info s) <= data_end_row (info s) <= max_row
  /\ data_end_row (info s)
     = match detect_sections ws max_column max_row !! (i + 1) with
       | Some next => header_row (info next) - 1
       | None => max_row
       end.
Proof.
  intros Hs. destruct (detect_sections_lookup _ _ _ _ _ Hs) as (Hi & Hstart & Hend).
  pose proof (list_elem_of_lookup_2 _ _ _ Hi) as Hin.
  apply scan_headers_elem in Hin. destruct Hin as [Hr Hn].
  pose proof (detect_sections_next ws max_column max_row (i + 1)) as Hnext.
  split; [assumption|]. split; [lia|]. split; [assumption|].
  destruct (scan_headers ws max_column max_row !! (i + 1)) as [[n' h']|] eqn:Hi1.
  - pose proof (scan_headers_lookup_lt _ _ _ i (i + 1) _ _ ltac:(lia) Hi Hi1)
      as Hlt.
    pose proof (list_elem_of_lookup_2 _ _ _ Hi1) as Hin1.
    apply scan_headers_elem in Hin1. simpl in Hlt, Hend.
    destruct (detect_sections ws max_column max_row !! (i + 1)) as [next|];
      simpl in Hnext; [|discriminate].
    injection Hnext as Hnext. rewrite Hnext, Hend. split; [lia | reflexivity].
  - destruct (detect_sections ws max_column max_row !! (i + 1)) as [next|];
      simpl in Hnext; [discriminate|].
    rewrite Hend. split; [lia | reflexivity].
Qed.

(** X2.  The reported sections follow one another without overlap: a
    section ends above the header row of every section reported after
    it. *)
Theorem detect_sections_disjoint (ws : gmap (nat * nat) cell)
  (max_column max_row i j : nat) (s s' : detected_section) :
  i < j ->
  detect_sections ws max_column max_row !! i = Some s ->
  detect_sections ws max_column max_row !! j = Some s' ->
  header_row (info s) < header_row (info s')
  /\ data_end_row (info s) < header_row (info s').
Proof.
  intros Hij Hs Hs'.
  destruct (detect_sections_lookup _ _ _ _ _ Hs) as (Hi & _ & Hend).
  destruct (detect_sections_lookup _ _ _ _ _ Hs') as (Hj & _ & _).
  pose proof (scan_headers_lookup_lt _ _ _ i j _ _ Hij Hi Hj) as Hlt.
  simpl in Hlt. split; [assumption|].
  destruct (scan_headers ws max_column max_row !! (i + 1)) as [next|] eqn:Hi1.
  - destruct (decide (i + 1 = j)) as [<- | Hne].
    + rewrite Hj in Hi1. injection Hi1 as <-. simpl in Hend. lia.
    + pose proof (scan_headers_lookup_lt _ _ _ (i + 1) j _ _
                    ltac:(lia) Hi1 Hj) as Hlt'.
      simpl in Hlt'. lia.
  - apply lookup_ge_None in Hi1. apply lookup_lt_Some in Hj. lia.
Qed.

(** X3.  The scanner misses no header: every row of the sheet that passes
    the header test is the header row of a reported section, under the name
    the test gives. *)
Theorem detect_sections_complete (ws : gmap (nat * nat) cell)
  (max_column max_row r : nat) (n : string) :
  1 <= r <= max_row ->
  section_header_name ws max_column r = Some n ->
  exists i s,
    detect_sections ws max_column max_row !! i = Some s
    /\ name s = n /\ header_row (info s) = r.
Proof.
  intros Hr Hn.
  assert ((n, r) ∈ scan_headers ws max_column max_row) as Hin
    by (apply scan_headers_elem; split; assumption).
  apply list_elem_of_lookup_1 in Hin. destruct Hin as [i Hi].
  destruct (detect_sections ws max_column max_row !! i) as [s|] eqn:Hs.
  - exists i, s. split; [exact Hs|].
    destruct (detect_sections_lookup _ _ _ _ _ Hs) as (Hi' & _).
    rewrite Hi in Hi'. injection Hi' as -> ->. split; reflexivity.
  - pose proof (detect_sections_next ws max_column max_row i) as Hnext.
    rewrite Hs, Hi in Hnext. discriminate.
Qed.

(** X4.  No row between the data start and the end row of a reported
    section passes the header test: the data range of a section holds no
    header of another one. *)
Theorem detect_sections_range_has_no_header (ws : gmap (nat * nat) cell)
  (max_column max_row i r : nat) (s : detected_section) :
  detect_sections ws max_column max_row !! i = Some s ->
  data_start_row (info s) <= r <= data_end_row (info s) ->
  section_header_name ws max_column r = None.
Proof.
  intros Hs Hr.
  destruct (detect_sections_lookup _ _ _ _ _ Hs) as (Hi & Hstart & Hend).
  destruct (section_header_name ws max_column r) as [n|] eqn:Hn;
    [|reflexivity].
  exfalso.
  assert (1 <= r <= max_row) as Hbounds.
  { pose proof (list_elem_of_lookup_2 _ _ _ Hi) as Hin.
    apply scan_headers_elem in Hin.
    destruct (scan_headers ws max_column max_row !! (i + 1)) as [next|] eqn:Hi1.
    - pose proof (list_elem_of_lookup_2 _ _ _ Hi1) as Hin1.
      destruct next as [n1 h1]. apply scan_headers_elem in Hin1.
      simpl in Hend. lia.
    - lia. }
  assert ((n, r) ∈ scan_headers ws max_column max_row) as Hin
    by (apply scan_headers_elem; split; assumption).
  apply list_elem_of_lookup_1 in Hin. destruct Hin as [k Hk].
  destruct (Nat.lt_trichotomy k i) as [Hlt | [-> | Hgt]].
  - pose proof (scan_headers_lookup_lt _ _ _ k i _ _ Hlt Hk Hi) as H.
    simpl in H. lia.
  - rewrite Hi in Hk. injection Hk as _ Hk. lia.
  - destruct (scan_headers ws max_column max_row !! (i + 1)) as [next|] eqn:Hi1.
    + destruct (decide (i + 1 = k)) as [<- | Hne].
      * rewrite Hk in Hi1. injection Hi1 as <-. simpl in Hend. lia.
      * pose proof (scan_headers_lookup_lt _ _ _ (i + 1) k _ _
                      ltac:(lia) Hi1 Hk) as H.
        pose proof (scan_headers_lookup_lt _ _ _ i (i + 1) _ _
                      ltac:(lia) Hi Hi1) as H'.
        simpl in H, H'. lia.
    + apply lookup_ge_None in Hi1. apply lookup_lt_Some in Hk. lia.
Qed.

(** ** The extractor, row by row *)

Lemma row_values_cons ws r n :
  1 <= n ->
  Sheet.row_values ws r 2 n
  = Sheet.value ws r 2 :: Sheet.row_values ws r 3 (n - 1).
Proof.
  intros Hn. unfold Sheet.row_values.
  destruct n as [|n]; [lia|]. simpl. now rewrite Nat.sub_0_r.
Qed.

Lemma read_headers_cons ws max_column hr :
  2 <= max_column ->
  read_headers ws max_column hr
  = header_label 1 (Sheet.value ws hr 2)
      :: map (fun i => header_label i (Sheet.value ws hr (i + 1)))
           (seq 2 (max_column - 2)).
Proof.
  intros Hm. unfold read_headers.
  replace (max_column - 1) with (S (max_column - 2)) by lia. reflexivity.
Qed.

Lemma read_headers_length ws max_column hr :
  length (read_headers ws max_column hr) = max_column - 1.
Proof. unfold read_headers. now rewrite length_map, length_seq. Qed.

Lemma read_rows_kept ws n l1 l2 :
  1 <= n ->
  (forall r, In r l1 -> Cell.truthy (Sheet.value ws r 2) = true) ->
  read_rows ws n (l1 ++ l2)
  = map (fun r => Sheet.row_values ws r 2 n) l1 ++ read_rows ws n l2.
Proof.
  intros Hn. induction l1 as [|r l1 IH]; intros Hall; [reflexivity|].
  cbn [app read_rows map].
  rewrite (row_values_cons ws r n Hn). cbn [existsb hd negb].
  rewrite (Hall r (or_introl eq_refl)). cbn [orb negb].
  rewrite <- (row_values_cons ws r n Hn).
  rewrite IH; [reflexivity|].
  intros r' Hr'. apply Hall. now right.
Qed.

Lemma filter_all_true {A : Type} (f : A -> bool) (l : list A) :
  (forall x, In x l -> f x = true) -> List.filter f l = l.
Proof.
  induction l as [|x l IH]; intros Hall; [reflexivity|]. simpl.
  rewrite (Hall x (or_introl eq_refl)). f_equal.
  apply IH. intros y Hy. apply Hall. now right.
Qed.

Lemma row_of_list_first h0 hs v0 vs :
  DF.get (row_of_list (h0 :: hs) (v0 :: vs)) h0 = v0.
Proof.
  unfold DF.get, row_of_list. simpl. now rewrite lookup_insert_eq.
Qed.

(** X5.  The table of a section the scanner reports has the month column
    first: the sheet has at least two columns, and the first label of the
    table reads "month" once put in lower case. *)
Theorem detected_section_month_first (ws : gmap (nat * nat) cell)
  (max_column max_row i : nat) (s : detected_section) :
  detect_sections ws max_column max_row !! i = Some s ->
  2 <= max_column
  /\ exists first rest,
       columns (extract_section_data ws max_column (info s)) = first :: rest
       /\ Text.lower first = "month".
Proof.
  intros Hs. destruct (detect_sections_lookup _ _ _ _ _ Hs) as (Hi & _).
  pose proof (list_elem_of_lookup_2 _ _ _ Hi) as Hin.
  apply scan_headers_elem in Hin. destruct Hin as [_ Hn].
  unfold section_header_name in Hn.
  destruct (negb (Cell.truthy (Sheet.value ws (header_row (info s)) 1)));
    [discriminate|].
  destruct (existsb _ reserved_labels); [discriminate|].
  destruct (1 <? max_column)%nat eqn:Hmax; [|discriminate].
  apply Nat.ltb_lt in Hmax.
  destruct (Cell.truthy (Sheet.value ws (header_row (info s)) 2)) eqn:Htruthy;
    [|discriminate].
  destruct (String.eqb _ "month") eqn:Hmonth; [|discriminate].
  apply String.eqb_eq in Hmonth.
  split; [lia|].
  assert (columns (extract_section_data ws max_column (info s))
          = read_headers ws max_column (header_row (info s))) as ->.
  { unfold extract_section_data.
    match goal with
    | |- columns (if ?c then _ else _) = _ => destruct c; reflexivity
    end. }
  rewrite read_headers_cons by lia.
  eexists _, _. split; [reflexivity|].
  unfold header_label. rewrite Htruthy. exact Hmonth.
Qed.

(** X6.  While the rows at the top of the data range carry a month label
    that is true, not missing and no %Change text, the table keeps them
    one for one: row k of the table is built from sheet row
    data_start_row + k, the row the write-back later addresses. *)
Theorem extraction_rows_aligned (ws : gmap (nat * nat) cell)
  (max_column : nat) (si : section_info) (m : nat) :
  let headers := read_headers ws max_column (header_row si) in
  let df := extract_section_data ws max_column si in
  2 <= max_column ->
  (existsb (String.eqb "Month") headers = true -> hd "" headers = "Month") ->
  data_start_row si + m <= data_end_row si + 1 ->
  (forall k, k < m ->
     let month := Sheet.value ws (data_start_row si + k) 2 in
     Cell.truthy month = true /\ Cell.isna month = false
     /\ is_change_text month = false) ->
  forall k, k < m ->
    rows df !! k
    = Some (row_of_list headers
              (Sheet.row_values ws (data_start_row si + k) 2 (length headers))).
Proof.
  intros headers df Hmax Hmonth Hm Hrows k Hk.
  assert (Hn : 1 <= length headers).
  { unfold headers. rewrite read_headers_length. lia. }
  pose proof (read_headers_cons ws max_column (header_row si) Hmax) as Hheaders.
  fold headers in Hheaders.
  set (h0 := header_label 1 (Sheet.value ws (header_row si) 2)) in Hheaders.
  set (hs := map _ _) in Hheaders.
  set (rv := fun r => Sheet.row_values ws r 2 (length headers)).
  set (top := map (row_of_list headers) (map rv (seq (data_start_row si) m))).
  assert (Hsplit : exists rest,
             map (row_of_list headers)
               (read_rows ws (length headers)
                  (range_incl (data_start_row si) (data_end_row si)))
             = top ++ rest).
  { unfold range_incl.
    replace (data_end_row si + 1 - data_start_row si)
      with (m + (data_end_row si + 1 - data_start_row si - m)) by lia.
    rewrite seq_app, read_rows_kept; [|exact Hn|].
    - rewrite map_app. eexists. reflexivity.
    - intros r Hr. apply in_seq in Hr.
      replace r with (data_start_row si + (r - data_start_row si)) by lia.
      apply Hrows. lia. }
  destruct Hsplit as [rest Hsplit].
  assert (Htop : forall row, In row top ->
             exists r, data_start_row si <= r < data_start_row si + m
                       /\ row = row_of_list headers (rv r)).
  { intros row Hrow. unfold top in Hrow. rewrite map_map in Hrow.
    apply in_map_iff in Hrow. destruct Hrow as (r & <- & Hr).
    apply in_seq in Hr. exists r. split; [lia | reflexivity]. }
  assert (Hfirst : forall r, DF.get (row_of_list headers (rv r)) h0
                             = Sheet.value ws r 2).
  { intros r. unfold rv. rewrite (row_values_cons ws r _ Hn), Hheaders.
    apply row_of_list_first. }
  assert (Hlookup : top !! k
                    = Some (row_of_list headers (rv (data_start_row si + k)))).
  { unfold top. rewrite map_map, list_lookup_fmap.
    rewrite lookup_seq_lt by exact Hk. reflexivity. }
  assert (Hlen : k < length top).
  { unfold top. rewrite !length_map, length_seq. exact Hk. }
  unfold df, extract_section_data. fold headers. rewrite Hsplit.
  match goal with
  | |- rows (if ?c then _ else _) !! _ = _ => destruct c
  end.
  - cbn [rows]. rewrite !List.filter_app.
    set (month_col := if existsb (String.eqb "Month") headers then "Month"
                      else hd "" headers).
    assert (month_col = h0) as Hcol.
    { unfold month_col. destruct (existsb (String.eqb "Month") headers) eqn:He.
      - rewrite <- (Hmonth eq_refl), Hheaders. reflexivity.
      - rewrite Hheaders. reflexivity. }
    rewrite (filter_all_true _ top).
    + rewrite (filter_all_true _ top).
      * rewrite lookup_app_l by exact Hlen. exact Hlookup.
      * intros row Hrow. destruct (Htop row Hrow) as (r & Hr & ->).
        unfold all_missing. rewrite Hheaders at 1. cbn [forallb].
        rewrite Hfirst.
        replace r with (data_start_row si + (r - data_start_row si)) by lia.
        destruct (Hrows (r - data_start_row si) ltac:(lia)) as (_ & -> & _).
        reflexivity.
    + intros row Hrow. destruct (Htop row Hrow) as (r & Hr & ->).
      rewrite Hcol, Hfirst.
      replace r with (data_start_row si + (r - data_start_row si)) by lia.
      destruct (Hrows (r - data_start_row si) ltac:(lia)) as (_ & _ & ->).
      reflexivity.
  - cbn [rows]. rewrite lookup_app_l by exact Hlen. exact Hlookup.
Qed.

(** ** The guarded percentage, numerically *)

Lemma round_half_even_near (q : Q) :
  (q - (1 # 2) <= inject_Z (Num.round_half_even q) <= q + (1 # 2))%Q.
Proof.
  destruct q as [n d]. unfold Num.round_half_even, Qle. cbn [Qnum Qden].
  pose proof (Z.div_mod n (Zpos d) ltac:(lia)) as Hdm.
  pose proof (Z.mod_pos_bound n (Zpos d) ltac:(lia)) as Hr.
  set (f := (n / Zpos d)%Z) in *. set (r := (n mod Zpos d)%Z) in *.
  clearbody f r. simpl. rewrite !Pos2Z.inj_mul.
  destruct (Z.compare_spec (2 * r) (Zpos d)) as [Hc | Hc | Hc];
    try destruct (Z.even f); split; nia.
Qed.


Lemma round2_sign (p : Q) :
  ((0 <= p)%Q -> (0 <= Num.round2 p)%Q)
  /\ ((p <= 0)%Q -> (Num.round2 p <= 0)%Q).
Proof.
  pose proof (round_half_even_near (p * 100)) as [Hlo Hhi].
  split; intros Hp.
  - assert (- (1 # 2) <= inject_Z (Num.round_half_even (p * 100)))%Q as H
      by lra.
    unfold Num.round2. unfold Qle in *. simpl in *. lia.
  - assert (inject_Z (Num.round_half_even (p * 100)) <= 1 # 2)%Q as H by lra.
    unfold Num.round2. unfold Qle in *. simpl in *. lia.
Qed.


(** X8.  The sign of a YOY percentage never contradicts the direction of
    the change: it is not negative when the 2025 value is at least the 2024
    value, and not positive when it is at most the 2024 value. *)
Theorem yoy_percentage_sign (value_2024 value_2025 r : Q) :
  calculate_yoy_percentage (Fin value_2024) (Fin value_2025) = Some r ->
  ((value_2024 <= value_2025 -> 0 <= r)
   /\ (value_2025 <= value_2024 -> r <= 0))%Q.
Proof.
  unfold calculate_yoy_percentage. cbn.
  destruct (Qle_bool value_2024 0) eqn:Hle; [discriminate|].
  rewrite safe_percentage_finite by now apply Qle_bool_false_neq0.
  intros [= <-].
  assert (0 < value_2024)%Q as Hpos.
  { apply Qnot_le_lt. intros H. apply Qle_bool_iff in H. congruence. }
  pose proof (Qinv_lt_0_compat _ Hpos) as Hinv.
  destruct (round2_sign ((value_2025 + - value_2024) / value_2024 * 100))
    as [Hnonneg Hnonpos].
  unfold Qdiv in *.
  split; intros Hdir.
  - apply Hnonneg. nra.
  - apply Hnonpos. nra.
Qed.

(** X9.  The LM percentage is the YOY rule with the roles exchanged: the
    previous month stands where the 2024 value stands, the current month
    where the 2025 value stands. *)
Theorem lm_is_yoy_rule (current_value previous_value : pynum) :
  calculate_lm_percentage current_value previous_value
  = calculate_yoy_percentage previous_value current_value.
Proof.
  unfold calculate_lm_percentage, calculate_yoy_percentage.
  rewrite (orb_comm (Num.isnan current_value)). reflexivity.
Qed.

(** ** The metrics engine: what it reads and what it leaves alone *)

Lemma loop_later_row {S : Type} (proj : S -> DataFrame)
  (body : S -> nat -> gmap string cell -> S) (col : string)
  (body_writes :
     forall st idx row,
       proj (body st idx row) = proj st
       \/ exists v, proj (body st idx row) = DF.set_at (proj st) idx col v)
  rs idx st k label :
  idx + length rs <= k ->
  DF.at_ (proj (DF.iterrows body idx rs st)) k label = DF.at_ (proj st) k label.
Proof.
  revert idx st.
  induction rs as [|r rs IH]; intros idx st Hle; simpl in *; [reflexivity|].
  rewrite IH by lia.
  destruct (body_writes st idx r) as [->|[v ->]]; [reflexivity|].
  apply DF_at_set_at_other_row. lia.
Qed.

Lemma lm_pass_length c24 c25 lm_col d :
  length (rows (lm_pass c24 c25 lm_col d)) = length (rows d).
Proof.
  unfold lm_pass.
  now rewrite (loop_length lm_df _ lm_col (lm_body_writes _ c25 lm_col _)).
Qed.

Lemma lm_pass_columns c24 c25 lm_col d :
  columns (lm_pass c24 c25 lm_col d) = columns d.
Proof.
  unfold lm_pass.
  now rewrite (loop_columns lm_df _ lm_col (lm_body_writes _ c25 lm_col _)).
Qed.

Lemma ensure_column_columns label d :
  columns (ensure_column label d)
  = columns d ++ (if DF.has_column d label then [] else [label]).
Proof.
  unfold ensure_column, DF.set_column_none.
  destruct (DF.has_column d label) eqn:Hhas; simpl.
  - now rewrite app_nil_r.
  - reflexivity.
Qed.

Lemma set_column_none_columns label d :
  columns (DF.set_column_none label d)
  = columns d ++ (if DF.has_column d label then [] else [label]).
Proof.
  unfold DF.set_column_none. simpl.
  destruct (DF.has_column d label); [now rewrite app_nil_r | reflexivity].
Qed.

Lemma set_column_none_length label d :
  length (rows (DF.set_column_none label d)) = length (rows d).
Proof. unfold DF.set_column_none. simpl. apply length_fmap. Qed.

(** X10.  calculate_metrics keeps the number of rows, keeps the labels of
    the table in place and appends at most the two metric labels, and
    changes no entry outside the two metric columns: "YOY %" and "LM %" for
    an inactive table, the picked YOY and LM labels for an active one.  The
    year data are never altered. *)
Theorem calculate_metrics_frame (df : DataFrame) :
  let out := calculate_metrics df in
  let touched :=
    if is_section_empty df (ODict.values (identify_year_columns df))
    then ["YOY %"; "LM %"]
    else [fst (pick_metric_columns (columns df));
          snd (pick_metric_columns (columns df))] in
  length (rows out) = length (rows df)
  /\ (exists added,
        columns out = columns df ++ added
        /\ forall label, In label added -> In label touched)
  /\ forall idx label,
       ~ In label touched -> DF.at_ out idx label = DF.at_ df idx label.
Proof.
  intros out touched. unfold out, touched, calculate_metrics.
  destruct (is_section_empty df (ODict.values (identify_year_columns df))).
  - split; [|split].
    + now rewrite !set_column_none_length.
    + rewrite !set_column_none_columns, <- app_assoc.
      eexists. split; [reflexivity|].
      intros label Hin. apply in_app_or in Hin. simpl.
      destruct Hin as [Hin | Hin].
      * destruct (DF.has_column df "YOY %"); simpl in Hin; tauto.
      * destruct (DF.has_column (DF.set_column_none "YOY %" df) "LM %");
          simpl in Hin; tauto.
    + intros idx label Hout. simpl in Hout.
      rewrite !DF_at_set_column_none_ne by tauto. reflexivity.
  - set (yoy_col := fst (pick_metric_columns (columns df))).
    set (lm_col := snd (pick_metric_columns (columns df))).
    set (d1 := ensure_column yoy_col df).
    set (d2 := ensure_column lm_col d1).
    set (d3 := match ODict.get "2024" (identify_year_columns df),
                     ODict.get "2025" (identify_year_columns df) with
               | Some col_2024, Some col_2025 =>
                   yoy_pass col_2024 col_2025 yoy_col d2
               | _, _ => d2
               end).
    assert (Hd3 : length (rows d3) = length (rows d2)
                  /\ columns d3 = columns d2
                  /\ forall idx label, label <> yoy_col ->
                       DF.at_ d3 idx label = DF.at_ d2 idx label).
    { unfold d3.
      destruct (ODict.get "2024" _) as [c24|];
        [destruct (ODict.get "2025" _) as [c25|]|];
        try (split; [|split]; reflexivity).
      split; [apply yoy_pass_length|].
      split; [apply yoy_pass_columns|].
      intros idx label Hne. now apply yoy_pass_other_column. }
    destruct Hd3 as (Hlen3 & Hcols3 & Hat3).
    set (d4 := match ODict.get "2025" (identify_year_columns df) with
               | Some col_2025 =>
                   lm_pass (ODict.get "2024" (identify_year_columns df))
                     col_2025 lm_col d3
               | None => d3
               end).
    assert (Hd4 : length (rows d4) = length (rows d3)
                  /\ columns d4 = columns d3
                  /\ forall idx label, label <> lm_col ->
                       DF.at_ d4 idx label = DF.at_ d3 idx label).
    { unfold d4.
      destruct (ODict.get "2025" _) as [c25|];
        try (split; [|split]; reflexivity).
      split; [apply lm_pass_length|].
      split; [apply lm_pass_columns|].
      intros idx label Hne. now apply lm_pass_other_column. }
    destruct Hd4 as (Hlen4 & Hcols4 & Hat4).
    split; [|split].
    + rewrite Hlen4, Hlen3. unfold d2, d1.
      now rewrite !ensure_column_length.
    + rewrite Hcols4, Hcols3. unfold d2, d1.
      rewrite !ensure_column_columns, <- app_assoc.
      eexists. split; [reflexivity|].
      intros label Hin. apply in_app_or in Hin. simpl.
      destruct Hin as [Hin | Hin].
      * destruct (DF.has_column df yoy_col); simpl in Hin; tauto.
      * destruct (DF.has_column (ensure_column yoy_col df) lm_col);
          simpl in Hin; tauto.
    + intros idx label Hout. simpl in Hout.
      rewrite Hat4, Hat3 by (intros ->; tauto).
      unfold d2, d1.
      rewrite !ensure_column_at_ne by (intros ->; tauto). reflexivity.
Qed.

(** X11.  The YOY pass settles the YOY entry of every row from that row
    alone: a row the pass skips (missing first field, or %Change text) keeps
    the entry it had, a Total-row gets the absence-marker, and every other
    row gets the guarded percentage of its own two year entries. *)
Theorem yoy_pass_rows (col_2024 col_2025 yoy_col : string) (df : DataFrame)
  (i : nat) (row : gmap string cell) :
  rows df !! i = Some row ->
  DF.at_ (yoy_pass col_2024 col_2025 yoy_col df) i yoy_col
  = if is_skip_row (DF.first (columns df) row) then DF.at_ df i yoy_col
    else if is_total_row (DF.first (columns df) row) then CNone
    else Cell.of_result (row_yoy (DF.get row col_2024) (DF.get row col_2025)).
Proof.
  intros Hrow.
  pose proof (take_drop_middle _ _ _ Hrow) as Hsplit.
  pose proof (lookup_lt_Some _ _ _ Hrow) as Hlt.
  assert (Hi : length (take i (rows df)) = i)
    by (rewrite length_take; lia).
  set (writes := yoy_body_writes (columns df) col_2024 col_2025 yoy_col).
  pose proof (loop_at_row (fun d => d) _ yoy_col writes
                (take i (rows df)) row (drop (S i) (rows df)) df yoy_col)
    as Hgoal.
  rewrite Hsplit, Hi in Hgoal.
  unfold yoy_pass. rewrite Hgoal. clear Hgoal.
  assert (Hlen : i < length (rows (DF.iterrows
                   (yoy_body (columns df) col_2024 col_2025 yoy_col) 0
                   (take i (rows df)) df))).
  { rewrite (loop_length (fun d => d) _ yoy_col writes). exact Hlt. }
  unfold yoy_body at 1.
  destruct (is_skip_row (DF.first (columns df) row)).
  - apply (loop_later_row (fun d => d) _ yoy_col writes). simpl. lia.
  - destruct (is_total_row (DF.first (columns df) row));
      now apply DF_at_set_at_same.
Qed.

(** ** The year columns of the engine *)

Lemma ODict_get_set k k' v d :
  ODict.get k (ODict.set k' v d)
  = if String.eqb k k' then Some v else ODict.get k d.
Proof.
  induction d as [|[k0 v0] d IH]; simpl.
  - destruct (String.eqb k k'); reflexivity.
  - destruct (String.eqb k' k0) eqn:H0; simpl.
    + apply String.eqb_eq in H0. subst k0.
      destruct (String.eqb k k'); reflexivity.
    + destruct (String.eqb k k0) eqn:H1.
      * apply String.eqb_eq in H1. subst k0.
        rewrite String.eqb_sym, H0. reflexivity.
      * exact IH.
Qed.

Lemma ODict_set_keys k v d x :
  In x (map fst (ODict.set k v d)) <-> x = k \/ In x (map fst d).
Proof.
  induction d as [|[k0 v0] d IH]; simpl.
  - intuition congruence.
  - destruct (String.eqb k k0) eqn:H0; simpl.
    + apply String.eqb_eq in H0. subst k0. intuition congruence.
    + rewrite IH. intuition congruence.
Qed.

Lemma ODict_set_entries k v d x w :
  In (x, w) (ODict.set k v d) -> (x = k /\ w = v) \/ In (x, w) d.
Proof.
  induction d as [|[k0 v0] d IH]; simpl.
  - intros [[= <- <-]|[]]. now left.
  - destruct (String.eqb k k0); simpl.
    + intros [[= <- <-]|H]; [now left | right; now right].
    + intros [H|H]; [right; now left|].
      destruct (IH H) as [H'|H']; [now left | right; now right].
Qed.

Lemma ODict_set_NoDup k v d :
  List.NoDup (map fst d) -> List.NoDup (map fst (ODict.set k v d)).
Proof.
  induction d as [|[k0 v0] d IH]; simpl; intros Hnd.
  - constructor; [tauto | constructor].
  - destruct (String.eqb k k0) eqn:H0; simpl.
    + apply String.eqb_eq in H0. subst k0. exact Hnd.
    + apply String.eqb_neq in H0. inversion Hnd as [|? ? Hnotin Hrest]; subst.
      constructor; [|now apply IH].
      rewrite ODict_set_keys. intros [->|Hin]; tauto.
Qed.

Lemma year_col_step_label year_columns col :
  year_col_step year_columns col
  = match label_year col with
    | Some year => ODict.set year col year_columns
    | None => year_columns
    end.
Proof.
  unfold year_col_step, label_year, known_years, year_pattern.
  cbn [List.find].
  change ("year-" +:+ "2023") with "year-2023".
  change ("year " +:+ "2023") with "year 2023".
  change ("year-" +:+ "2024") with "year-2024".
  change ("year " +:+ "2024") with "year 2024".
  change ("year-" +:+ "2025") with "year-2025".
  change ("year " +:+ "2025") with "year 2025".
  destruct (Text.contains "year-2023" (Text.lower col)
            || Text.contains "year 2023" (Text.lower col)
            || Text.endswith "2023" (Text.lower col)); [reflexivity|].
  destruct (Text.contains "year-2024" (Text.lower col)
            || Text.contains "year 2024" (Text.lower col)
            || Text.endswith "2024" (Text.lower col)); [reflexivity|].
  destruct (Text.contains "year-2025" (Text.lower col)
            || Text.contains "year 2025" (Text.lower col)
            || Text.endswith "2025" (Text.lower col)); reflexivity.
Qed.

Lemma label_year_known col year :
  label_year col = Some year -> In year known_years.
Proof.
  unfold label_year. intros H. now apply find_some in H.
Qed.

(** X12.  identify_year_columns files every label under the first of the
    years 2023, 2024, 2025 whose tests it passes, and the last label filed
    under a year is the column of that year; the years found are distinct
    and every entry pairs a year with a label filed under it. *)
Theorem identify_year_columns_last_match (df : DataFrame) :
  (forall year,
      ODict.get year (identify_year_columns df)
      = last (List.filter
                (fun col => bool_decide (label_year col = Some year))
                (columns df)))
  /\ List.NoDup (map fst (identify_year_columns df))
  /\ forall year col,
       In (year, col) (identify_year_columns df) ->
       In year known_years /\ In col (columns df)
       /\ label_year col = Some year.
Proof.
  unfold identify_year_columns.
  induction (columns df) as [|c cols IH] using rev_ind.
  - split; [reflexivity|]. split; [constructor|]. intros year col [].
  - destruct IH as (IHget & IHnd & IHin).
    rewrite fold_left_app. cbn [fold_left].
    rewrite year_col_step_label.
    split; [|split].
    + intros year. rewrite List.filter_app. cbn [List.filter].
      destruct (label_year c) as [y|] eqn:Hy.
      * rewrite ODict_get_set.
        destruct (String.eqb year y) eqn:Heq.
        -- apply String.eqb_eq in Heq. subst y.
           rewrite bool_decide_eq_true_2 by reflexivity.
           now rewrite last_snoc.
        -- apply String.eqb_neq in Heq.
           rewrite bool_decide_eq_false_2 by congruence.
           rewrite app_nil_r. apply IHget.
      * rewrite bool_decide_eq_false_2 by discriminate.
        rewrite app_nil_r. apply IHget.
    + destruct (label_year c); [now apply ODict_set_NoDup | exact IHnd].
    + intros year col Hin.
      destruct (label_year c) as [y|] eqn:Hy.
      * apply ODict_set_entries in Hin. destruct Hin as [[-> ->]|Hin].
        -- split; [now apply (label_year_known c)|].
           split; [apply in_or_app; right; now left | exact Hy].
        -- destruct (IHin _ _ Hin) as (H1 & H2 & H3).
           split; [exact H1|]. split; [apply in_or_app; now left | exact H3].
      * destruct (IHin _ _ Hin) as (H1 & H2 & H3).
        split; [exact H1|]. split; [apply in_or_app; now left | exact H3].
Qed.

(** ** The writer: where it writes and when it fails *)

(** X13.  The summary column is always set and its index is never 0, so
    the writer never skips the summary: it lies two columns right of the LM
    column when the header row has one, else three columns right of the YOY
    column when it has one, else it is column 8. *)
Theorem summary_column_always_set (ws : gmap (nat * nat) cell)
  (max_column header_row_idx : nat) :
  let ci := find_yoy_lm_columns ws max_column header_row_idx in
  index_truthy (ci_summary ci) = true
  /\ ci_summary ci
     = match ci_lm ci, ci_yoy ci with
       | Some lm_idx, _ => Some (lm_idx + 2)
       | None, Some yoy_idx => Some (yoy_idx + 3)
       | None, None => Some 8
       end.
Proof.
  destruct (find_yoy_lm_columns_inv ws max_column header_row_idx) as [Hy Hl].
  unfold find_yoy_lm_columns in *. cbn [ci_yoy ci_lm ci_summary] in *.
  set (found := fold_left _ _ _) in *. clearbody found.
  destruct found as [[a|] [b|]]; cbn [fst snd] in *.
  - destruct (Hl b eq_refl) as [Hb _]. destruct b; [lia|].
    split; reflexivity.
  - destruct (Hy a eq_refl) as [Ha _]. destruct a; [lia|].
    split; reflexivity.
  - destruct (Hl b eq_refl) as [Hb _]. destruct b; [lia|].
    split; reflexivity.
  - split; reflexivity.
Qed.

Lemma write_entry_changes ws excel_row col_name col_idx row ws' :
  write_entry ws excel_row col_name col_idx row = Some ws' ->
  forall r c,
    Sheet.value ws' r c = Sheet.value ws r c
    \/ (r = excel_row /\ Some c = col_idx
        /\ exists text, Sheet.value ws' r c = CStr (text +:+ "%")).
Proof.
  unfold write_entry. intros Hw r c.
  destruct col_name as [name|]; [|injection Hw as <-; now left].
  destruct col_idx as [idx|]; [|injection Hw as <-; now left].
  destruct (label_truthy (Some name) && index_truthy (Some idx));
    [|injection Hw as <-; now left].
  destruct (DF.get row name) as [|b|[q| | |]|t];
    cbn [Cell.isna negb format_entry format_percentage_for_excel] in Hw;
    try discriminate; injection Hw as <-; try (now left).
  all: destruct (decide ((excel_row, idx) = (r, c))) as [[= <- <-]|Hne];
    [|left; now apply Sheet_value_set_ne].
  all: right; split; [reflexivity|]; split; [reflexivity|].
  all: rewrite Sheet_value_set_eq; eexists; reflexivity.
Qed.

Lemma write_loop_none yoy_col_name lm_col_name ci data_start rs idx :
  DF.iterrows (write_row_body yoy_col_name lm_col_name ci data_start)
    idx rs None = None.
Proof.
  revert idx. induction rs as [|row rs IH]; intros idx; simpl;
    [reflexivity | apply IH].
Qed.

Lemma write_loop_changes yoy_col_name lm_col_name ci data_start rs idx ws ws' :
  DF.iterrows (write_row_body yoy_col_name lm_col_name ci data_start)
    idx rs (Some ws) = Some ws' ->
  forall r c,
    Sheet.value ws' r c = Sheet.value ws r c
    \/ (data_start + idx <= r < data_start + idx + length rs
        /\ (Some c = ci_yoy ci \/ Some c = ci_lm ci)
        /\ exists text, Sheet.value ws' r c = CStr (text +:+ "%")).
Proof.
  revert idx ws.
  induction rs as [|row rs IH]; intros idx ws Hloop r c.
  - injection Hloop as <-. now left.
  - cbn [DF.iterrows] in Hloop.
    destruct (write_row_body yoy_col_name lm_col_name ci data_start
                (Some ws) idx row) as [ws2|] eqn:Hbody;
      [|rewrite write_loop_none in Hloop; discriminate].
    unfold write_row_body in Hbody.
    destruct (write_entry ws (data_start + idx) yoy_col_name (ci_yoy ci) row)
      as [ws1|] eqn:H1; [|discriminate].
    pose proof (write_entry_changes _ _ _ _ _ _ H1 r c) as Hc1.
    pose proof (write_entry_changes _ _ _ _ _ _ Hbody r c) as Hc2.
    destruct (IH _ _ Hloop r c) as [Hsame | (Hr & Hcol & Htext)].
    + rewrite Hsame. cbn [length].
      destruct Hc2 as [Hsame2 | (-> & Hcol & Htext)].
      * rewrite Hsame2.
        destruct Hc1 as [Hsame1 | (-> & Hcol & Htext)]; [now left|].
        right. split; [lia|]. split; [now left | exact Htext].
      * right. split; [lia|]. split; [now right | exact Htext].
    + right. cbn [length]. split; [lia|]. split; assumption.
Qed.

(** X14.  The row loop of the write-back changes nothing but the cells of
    the two metric columns in the rows data_start to
    data_start + len(df) - 1, and whatever it puts there is text that ends
    with the percent sign. *)
Theorem write_metric_rows_changes (ws : gmap (nat * nat) cell)
  (df : DataFrame) (data_start : nat) (ci : column_indices)
  (ws' : gmap (nat * nat) cell) :
  write_metric_rows ws df data_start ci = Some ws' ->
  forall r c,
    Sheet.value ws' r c = Sheet.value ws r c
    \/ (data_start <= r < data_start + length (rows df)
        /\ (Some c = ci_yoy ci \/ Some c = ci_lm ci)
        /\ exists text, Sheet.value ws' r c = CStr (text +:+ "%")).
Proof.
  unfold write_metric_rows. intros Hloop r c.
  destruct (write_loop_changes _ _ _ _ _ _ _ _ Hloop r c)
    as [Hsame | (Hr & Hcol & Htext)]; [now left|].
  right. split; [lia|]. split; assumption.
Qed.

Lemma write_entry_text_fails ws excel_row name idx row t :
  name <> "" -> 1 <= idx -> DF.get row name = CStr t ->
  write_entry ws excel_row (Some name) (Some idx) row = None.
Proof.
  intros Hname Hidx Hget. unfold write_entry.
  assert (label_truthy (Some name) = true) as ->.
  { simpl. destruct (String.eqb_spec name ""); [contradiction|reflexivity]. }
  assert (index_truthy (Some idx) = true) as ->.
  { destruct idx; [lia|reflexivity]. }
  rewrite Hget. reflexivity.
Qed.

(** X15.  Text in a metric entry stops the write-back: when a row of the
    table holds text in the YOY or the LM column the writer picked, and the
    sheet has the matching metric column, formatting raises and the row
    loop delivers no sheet. *)
Theorem write_metric_rows_text_fails (ws : gmap (nat * nat) cell)
  (df : DataFrame) (data_start : nat) (ci : column_indices)
  (i : nat) (row : gmap string cell) (name : string) (idx : nat)
  (t : string) :
  rows df !! i = Some row ->
  (fst (pick_written_columns (columns df)) = Some name /\ ci_yoy ci = Some idx)
  \/ (snd (pick_written_columns (columns df)) = Some name
      /\ ci_lm ci = Some idx) ->
  1 <= idx ->
  DF.get row name = CStr t ->
  write_metric_rows ws df data_start ci = None.
Proof.
  intros Hrow Hcol Hidx Hget.
  destruct (pick_written_columns_truthy (columns df)) as [Hy Hl].
  unfold write_metric_rows.
  rewrite <- (take_drop_middle _ _ _ Hrow), DF_iterrows_app.
  cbn [DF.iterrows].
  match goal with
  | |- DF.iterrows ?body _ _ (?body ?st _ _) = _ =>
      assert (body st (0 + length (take i (rows df))) row = None) as ->
  end; [|apply write_loop_none].
  match goal with
  | |- write_row_body _ _ _ _ ?st _ _ = _ => destruct st as [ws0|]
  end; [|reflexivity].
  unfold write_row_body.
  destruct Hcol as [[Hn Hi] | [Hn Hi]].
  - rewrite Hn, Hi.
    rewrite (write_entry_text_fails _ _ name idx row t (Hy _ Hn) Hidx Hget).
    reflexivity.
  - destruct (write_entry ws0 _ _ (ci_yoy ci) row) as [ws1|]; [|reflexivity].
    rewrite Hn, Hi.
    apply (write_entry_text_fails _ _ name idx row t (Hl _ Hn) Hidx Hget).
Qed.

(** ** One section at a time *)

Lemma calculate_metrics_length (df : DataFrame) :
  length (rows (calculate_metrics df)) = length (rows df).
Proof.
  unfold calculate_metrics.
  destruct (is_section_empty df (ODict.values (identify_year_columns df))).
  - now rewrite !set_column_none_length.
  - destruct (ODict.get "2025" (identify_year_columns df)) as [c25|].
    + rewrite lm_pass_length.
      destruct (ODict.get "2024" (identify_year_columns df)) as [c24|];
        rewrite ?yoy_pass_length, !ensure_column_length; reflexivity.
    + destruct (ODict.get "2024" (identify_year_columns df)) as [c24|];
        rewrite !ensure_column_length; reflexivity.
Qed.

Lemma read_rows_length ws n row_idxs :
  length (read_rows ws n row_idxs) <= length row_idxs.
Proof.
  induction row_idxs as [|r rest IH]; simpl; [lia|].
  destruct (negb _); simpl; [lia|].
  destruct (Cell.truthy _); simpl; lia.
Qed.

Lemma extract_section_data_length ws max_column si :
  length (rows (extract_section_data ws max_column si))
  <= data_end_row si + 1 - data_start_row si.
Proof.
  unfold extract_section_data.
  set (headers := read_headers ws max_column (header_row si)).
  pose proof (read_rows_length ws (length headers)
                (range_incl (data_start_row si) (data_end_row si))) as Hread.
  unfold range_incl in Hread at 2. rewrite length_seq in Hread.
  match goal with
  | |- length (rows (if ?c then _ else _)) <= _ => destruct c
  end; cbn [rows].
  - etransitivity; [apply List.filter_length_le|].
    etransitivity; [apply List.filter_length_le|].
    now rewrite length_map.
  - now rewrite length_map.
Qed.

Lemma write_total_row_outside ws df si r c :
  r < data_start_row si \/ data_end_row si < r ->
  Sheet.value (write_total_row ws df si) r c = Sheet.value ws r c.
Proof.
  intros Hr. unfold write_total_row.
  destruct (List.find _ _) as [t|] eqn:Hfind; [|reflexivity].
  destruct (index_truthy (Some t)); [|reflexivity].
  apply find_some in Hfind. destruct Hfind as [Hin _].
  unfold range_incl in Hin. apply in_seq in Hin.
  unfold Sheet.value. rewrite total_row_fold_lookup; [reflexivity|].
  left. lia.
Qed.

Lemma locate_rows_in_range ws si :
  (forall t, fst (locate_rows ws si) = Some t ->
             data_start_row si <= t <= data_end_row si)
  /\ (forall cr, snd (locate_rows ws si) = Some cr ->
                 data_start_row si <= cr <= data_end_row si).
Proof.
  unfold locate_rows.
  set (step := fun (acc : option nat * option nat) (row_idx : nat) => _).
  set (P := fun x => data_start_row si <= x <= data_end_row si).
  assert (Hgen : forall l acc,
             (forall x, In x l -> P x) ->
             ((forall t, fst acc = Some t -> P t)
              /\ (forall cr, snd acc = Some cr -> P cr)) ->
             (forall t, fst (fold_left step l acc) = Some t -> P t)
             /\ (forall cr, snd (fold_left step l acc) = Some cr -> P cr)).
  { induction l as [|x l IH]; intros acc Hl Hacc; [exact Hacc|].
    cbn [fold_left]. apply IH; [intros y Hy; apply Hl; now right|].
    destruct Hacc as [Ht Hc]. unfold step.
    destruct (is_total_label _); cbn [fst snd].
    - split; [|exact Hc]. intros t [= <-]. apply Hl. now left.
    - destruct (is_change_label _); cbn [fst snd]; [|now split].
      split; [exact Ht|]. intros cr [= <-]. apply Hl. now left. }
  apply Hgen.
  - intros x Hx. unfold range_incl in Hx. apply in_seq in Hx. unfold P. lia.
  - split; intros x Hx; discriminate Hx.
Qed.

Lemma write_percent_change_row_outside ws df si wsd r c :
  r < data_start_row si \/ data_end_row si < r ->
  Sheet.value (write_percent_change_row ws df si wsd) r c = Sheet.value ws r c.
Proof.
  intros Hr. unfold write_percent_change_row.
  destruct (locate_rows_in_range ws si) as [_ Hchange].
  destruct (locate_rows ws si) as [[t|] [cr|]]; try reflexivity.
  destruct (index_truthy (Some t) && index_truthy (Some cr)); [|reflexivity].
  specialize (Hchange cr eq_refl).
  unfold Sheet.value.
  rewrite refill_change_row_lookup by (left; lia).
  rewrite clear_change_row_lookup.
  rewrite bool_decide_eq_false_2 by lia. reflexivity.
Qed.

(** X16.  The write-back of a section stays inside the section: when the
    table extracted from the rows data_start_row to data_end_row has gone
    through the metrics engine and its metrics are written back, no cell
    above data_start_row or below data_end_row changes; the header row and
    the rows of the other sections are left as they were. *)
Theorem section_write_back_isolated (ws : gmap (nat * nat) cell)
  (max_column : nat) (si : section_info) (ci : column_indices)
  (ws_data_only : option (gmap (nat * nat) cell))
  (out : gmap (nat * nat) cell) :
  let df := calculate_metrics (extract_section_data ws max_column si) in
  write_metrics_to_excel ws df (data_start_row si) ci si ws_data_only
  = Some out ->
  same_outside_rows (data_start_row si) (data_end_row si) ws out.
Proof.
  intros df Hwrite r c Hr. unfold write_metrics_to_excel in Hwrite.
  destruct (write_metric_rows ws df (data_start_row si) ci) as [ws1|] eqn:Hrows;
    [|discriminate].
  injection Hwrite as <-.
  rewrite write_percent_change_row_outside by exact Hr.
  rewrite write_total_row_outside by exact Hr.
  unfold write_metric_rows in Hrows.
  destruct (write_loop_changes _ _ _ _ _ _ _ _ Hrows r c)
    as [Hsame | (Hin & _)]; [exact Hsame|].
  exfalso.
  pose proof (extract_section_data_length ws max_column si) as Hlen.
  unfold df in Hin. rewrite calculate_metrics_length in Hin. lia.
Qed.

(** ** The %Change row outside the year columns *)

Lemma refill_change_row_non_year ws df si wsd tr cr r c :
  ~ In c (map fst (collect_year_columns ws (header_row si))) ->
  refill_change_row ws df si wsd tr cr !! (r, c) = ws !! (r, c).
Proof.
  intros Hout. unfold refill_change_row.
  set (ycs := collect_year_columns ws (header_row si)) in *.
  set (vals := gather_values ws df wsd (data_start_row si) tr ycs).
  destruct (length ycs <? 2)%nat; [reflexivity|].
  destruct (size (fst vals) <? 2)%nat; [reflexivity|].
  destruct (fst vals !! from_option snd "" (head ycs)) as [rt|]; [|reflexivity].
  destruct (_ || _); [reflexivity|].
  apply fill_change_row_lookup. now right.
Qed.

Lemma header_year_metric_label header_value :
  Text.contains "yoy" (Cell.lower header_value) = true
  \/ Text.contains "lm" (Cell.lower header_value) = true ->
  header_year header_value = None.
Proof.
  intros Hlabel. unfold header_year.
  destruct (Cell.truthy header_value); [|reflexivity].
  destruct Hlabel as [-> | ->]; cbn [negb andb]; [reflexivity|].
  destruct (negb _); reflexivity.
Qed.

(** X17.  When the Total and the %Change row are found, the %Change
    recompute leaves the label "% Change" in column B and leaves blank
    every cell of the row, from column C to column S, whose header names no
    year; the cells under the YOY and the LM header are among them. *)
Theorem change_row_other_cells_blank (ws : gmap (nat * nat) cell)
  (df : DataFrame) (si : section_info)
  (ws_data_only : option (gmap (nat * nat) cell))
  (total_row_idx change_row_idx : nat) :
  locate_rows ws si = (Some total_row_idx, Some change_row_idx) ->
  1 <= total_row_idx -> 1 <= change_row_idx ->
  let ws1 := clear_change_row ws change_row_idx in
  let out := write_percent_change_row ws df si ws_data_only in
  Sheet.value out change_row_idx 2 = CStr "% Change"
  /\ (forall c, 3 <= c < 20 ->
        header_year (Sheet.value ws1 (header_row si) c) = None ->
        Sheet.value out change_row_idx c = CNone)
  /\ (forall c, 3 <= c < 20 ->
        Text.contains "yoy" (Cell.lower (Sheet.value ws1 (header_row si) c))
        = true
        \/ Text.contains "lm" (Cell.lower (Sheet.value ws1 (header_row si) c))
           = true ->
        Sheet.value out change_row_idx c = CNone).
Proof.
  intros Hloc Ht Hcr ws1 out.
  assert (Hout : out = refill_change_row ws1 df si ws_data_only total_row_idx
                         change_row_idx).
  { unfold out, write_percent_change_row. rewrite Hloc.
    assert (index_truthy (Some total_row_idx) = true) as ->
      by (destruct total_row_idx; [lia|reflexivity]).
    assert (index_truthy (Some change_row_idx) = true) as ->
      by (destruct change_row_idx; [lia|reflexivity]).
    reflexivity. }
  assert (Hblank : forall c, 3 <= c < 20 ->
             header_year (Sheet.value ws1 (header_row si) c) = None ->
             Sheet.value out change_row_idx c = CNone).
  { intros c Hc Hyear. rewrite Hout. unfold Sheet.value at 1.
    rewrite refill_change_row_non_year.
    - exact (clear_change_row_value_in ws change_row_idx c Hc).
    - intros Hin. apply in_map_iff in Hin. destruct Hin as [[col year] [Hfst Hin]].
      cbn [fst] in Hfst. subst col.
      apply collect_year_columns_In in Hin. destruct Hin as [_ Hin].
      congruence. }
  split; [|split].
  - rewrite Hout. unfold Sheet.value at 1.
    rewrite refill_change_row_lookup by (right; left; lia).
    exact (clear_change_row_value_label ws change_row_idx).
  - exact Hblank.
  - intros c Hc Hlabel. apply (Hblank c Hc).
    now apply header_year_metric_label.
Qed.

(** ** The Total row, column by column *)

Lemma total_row_body_value df hr t ws ws' c :
  Sheet.value ws' hr c = Sheet.value ws hr c ->
  Sheet.value ws' t c = Sheet.value ws t c ->
  Sheet.value (total_row_body df hr t ws' c) t c
  = Sheet.value (total_row_body df hr t ws c) t c.
Proof.
  intros Hheader Hcell. unfold total_row_body. rewrite Hheader.
  destruct (Cell.truthy _); [|exact Hcell].
  destruct (is_summed_header _); [|exact Hcell].
  destruct (List.find _ _); [|exact Hcell].
  destruct (_ && _); [|exact Hcell].
  now rewrite !Sheet_value_set_eq.
Qed.

Lemma total_row_body_other df hr t ws x r c :
  x <> c -> Sheet.value (total_row_body df hr t ws x) r c = Sheet.value ws r c.
Proof.
  intros Hne. unfold Sheet.value.
  change (total_row_body df hr t ws x)
    with (fold_left (total_row_body df hr t) [x] ws).
  rewrite total_row_fold_lookup; [reflexivity|].
  right. simpl. intros [H|[]]. congruence.
Qed.

Lemma total_row_fold_value df hr t cols ws c :
  List.NoDup cols -> In c cols ->
  Sheet.value (fold_left (total_row_body df hr t) cols ws) t c
  = Sheet.value (total_row_body df hr t ws c) t c.
Proof.
  revert ws. induction cols as [|x cols IH]; intros ws Hnd Hin; [destruct Hin|].
  inversion Hnd as [|? ? Hnotin Hrest]; subst. cbn [fold_left].
  destruct Hin as [->|Hin].
  - unfold Sheet.value at 1. rewrite total_row_fold_lookup by now right.
    reflexivity.
  - assert (x <> c) as Hne by (intros ->; contradiction).
    rewrite (IH _ Hrest Hin).
    apply total_row_body_value; now apply total_row_body_other.
Qed.

(** X18.  The Total-row recompute settles each of the columns C to S on
    its own.  Under a header that is true, names a year and no metric, and
    equals a label of the table once both are stripped, the cell of the
    first Total row gets the sum of that column over the rows of the table
    whose first field does not contain "total", rounded to a whole number;
    when that sum is zero or no number the cell keeps what it held. *)
Theorem write_total_row_value (ws : gmap (nat * nat) cell) (df : DataFrame)
  (si : section_info) (total_row_idx c : nat) (df_col : string) :
  List.find (fun row_idx => is_total_label (Sheet.value ws row_idx 2))
    (range_incl (data_start_row si) (data_end_row si)) = Some total_row_idx ->
  1 <= total_row_idx ->
  3 <= c < 20 ->
  let header_value := Sheet.value ws (header_row si) c in
  Cell.truthy header_value = true ->
  is_summed_header (Cell.lower header_value) = true ->
  List.find
    (fun df_col =>
       String.eqb (Text.strip (Cell.str header_value)) (Text.strip df_col))
    (columns df) = Some df_col ->
  let month_rows :=
    List.filter
      (fun row =>
         negb (Text.contains "total" (Cell.lower (DF.first (columns df) row))))
      (rows df) in
  let total_sum := column_sum month_rows df_col in
  Sheet.value (write_total_row ws df si) total_row_idx c
  = if negb (Num.isnan total_sum) && negb (Num.eqb total_sum (Fin 0))
    then CNum (Num.round0 total_sum)
    else Sheet.value ws total_row_idx c.
Proof.
  intros Hfind Ht Hc header_value Htruthy Hsummed Hcol month_rows total_sum.
  unfold write_total_row. rewrite Hfind.
  assert (index_truthy (Some total_row_idx) = true) as ->
    by (destruct total_row_idx; [lia|reflexivity]).
  rewrite total_row_fold_value.
  - unfold total_row_body. fold header_value.
    rewrite Htruthy, Hsummed, Hcol. fold month_rows. fold total_sum.
    destruct (_ && _); [apply Sheet_value_set_eq | reflexivity].
  - unfold range_excl. apply List.seq_NoDup.
  - unfold range_excl. apply in_seq. lia.
Qed.

(** ** Active tables *)

Lemma pick_2024_2025_labels (year_columns : list string) :
  (forall c, fst (pick_2024_2025 year_columns) = Some c ->
             In c year_columns
             /\ Text.contains "2024" (Text.lower c) = true)
  /\ (forall c, snd (pick_2024_2025 year_columns) = Some c ->
                In c year_columns
                /\ Text.contains "2025" (Text.lower c) = true).
Proof.
  unfold pick_2024_2025.
  induction year_columns as [|x l IH] using rev_ind.
  - split; intros c Hc; discriminate Hc.
  - rewrite fold_left_app. cbn [fold_left].
    destruct IH as [IH24 IH25].
    destruct (Text.contains "2024" (Text.lower x)) eqn:H24; cbn [fst snd].
    + split.
      * intros c [= <-]. split; [apply in_or_app; right; now left | exact H24].
      * intros c Hc. destruct (IH25 c Hc) as [Hin Hl].
        split; [apply in_or_app; now left | exact Hl].
    + destruct (Text.contains "2025" (Text.lower x)) eqn:H25; cbn [fst snd].
      * split.
        -- intros c Hc. destruct (IH24 c Hc) as [Hin Hl].
           split; [apply in_or_app; now left | exact Hl].
        -- intros c [= <-].
           split; [apply in_or_app; right; now left | exact H25].
      * split.
        -- intros c Hc. destruct (IH24 c Hc) as [Hin Hl].
           split; [apply in_or_app; now left | exact Hl].
        -- intros c Hc. destruct (IH25 c Hc) as [Hin Hl].
           split; [apply in_or_app; now left | exact Hl].
Qed.

(** X19.  A table is active exactly when is_section_empty finds a 2024
    and a 2025 column among the year columns, both are labels of the table,
    and some row, a Total-row included, holds a number above 0 in the first
    and a number in the second. *)
Theorem active_table_has_valid_row (df : DataFrame)
  (year_columns : list string) :
  is_section_empty df year_columns = false
  <-> exists col_2024 col_2025 row,
        pick_2024_2025 year_columns = (Some col_2024, Some col_2025)
        /\ In col_2024 (columns df) /\ In col_2025 (columns df)
        /\ In row (rows df)
        /\ Num.gt (to_numeric (DF.get row col_2024)) (Fin 0) = true
        /\ Num.isnan (to_numeric (DF.get row col_2025)) = false.
Proof.
  unfold is_section_empty. split.
  - destruct (pick_2024_2025 year_columns) as [[c24|] [c25|]] eqn:Hpick;
      try discriminate.
    destruct (String.eqb c24 "" || String.eqb c25 ""); [discriminate|].
    destruct (DF.has_column df c24) eqn:H24; [|discriminate].
    destruct (DF.has_column df c25) eqn:H25; [|discriminate].
    cbn [negb orb]. intros Hlen.
    destruct (List.filter (valid_row c24 c25) (rows df)) as [|row rest] eqn:Hf;
      [discriminate|].
    assert (In row (List.filter (valid_row c24 c25) (rows df))) as Hin
      by (rewrite Hf; now left).
    apply filter_In in Hin. destruct Hin as [Hin Hvalid].
    unfold valid_row in Hvalid.
    apply andb_prop in Hvalid. destruct Hvalid as [Hvalid Hgt].
    apply andb_prop in Hvalid. destruct Hvalid as [_ Hnan].
    apply negb_true_iff in Hnan.
    exists c24, c25, row. split; [reflexivity|].
    split; [now apply DF_has_column_In|].
    split; [now apply DF_has_column_In|].
    split; [exact Hin|]. split; assumption.
  - intros (c24 & c25 & row & Hpick & H24 & H25 & Hin & Hgt & Hnan).
    destruct (pick_2024_2025_labels year_columns) as [Hl24 Hl25].
    rewrite Hpick in Hl24, Hl25. cbn [fst snd] in Hl24, Hl25.
    destruct (Hl24 c24 eq_refl) as [_ Hc24].
    destruct (Hl25 c25 eq_refl) as [_ Hc25].
    rewrite Hpick.
    assert (String.eqb c24 "" = false) as ->.
    { apply String.eqb_neq. apply lower_nonempty.
      now apply (contains_nonempty "2024"). }
    assert (String.eqb c25 "" = false) as ->.
    { apply String.eqb_neq. apply lower_nonempty.
      now apply (contains_nonempty "2025"). }
    apply DF_has_column_In in H24, H25. rewrite H24, H25. cbn [negb orb].
    assert (In row (List.filter (valid_row c24 c25) (rows df))) as Hf.
    { apply filter_In. split; [exact Hin|]. unfold valid_row.
      rewrite Hgt, Hnan.
      destruct (to_numeric (DF.get row c24)); try discriminate; reflexivity. }
    destruct (List.filter (valid_row c24 c25) (rows df)); [destruct Hf|].
    reflexivity.
Qed.

(** ** The summary generator after the engine *)

Lemma identify_metric_columns_labels (df : DataFrame) :
  (forall m, fst (identify_metric_columns df) = Some m ->
             Text.contains "2024" (Text.lower m)
             || Text.contains "2025" (Text.lower m) = true)
  /\ (forall m, snd (identify_metric_columns df) = Some m ->
                Text.contains "2025" (Text.lower m) = true).
Proof.
  unfold identify_metric_columns.
  induction (columns df) as [|x l IH] using rev_ind.
  - split; intros m Hm; discriminate Hm.
  - rewrite fold_left_app. cbn [fold_left]. destruct IH as [IHy IHl].
    destruct (Text.contains "yoy" (Text.lower x)
              && (Text.contains "2024" (Text.lower x)
                  || Text.contains "2025" (Text.lower x))) eqn:Hyoy;
      cbn [fst snd].
    + apply andb_prop in Hyoy. destruct Hyoy as [_ Hyear].
      split; [|exact IHl]. intros m [= <-]. exact Hyear.
    + destruct (Text.contains "lm" (Text.lower x)
                && Text.contains "2025" (Text.lower x)) eqn:Hlm;
        cbn [fst snd]; [|now split].
      apply andb_prop in Hlm. destruct Hlm as [_ Hyear].
      split; [exact IHy|]. intros m [= <-]. exact Hyear.
Qed.

Lemma existsb_map {A B : Type} (f : B -> bool) (g : A -> B) (l : list A) :
  existsb f (map g l) = existsb (fun x => f (g x)) l.
Proof. induction l as [|x l IH]; simpl; [reflexivity | now rewrite IH]. Qed.

Lemma has_values_set_column_none (label m : string) (df : DataFrame) :
  label <> m ->
  has_values (DF.set_column_none label df) (Some m) = has_values df (Some m).
Proof.
  intros Hne. unfold has_values. f_equal; [f_equal|].
  - unfold DF.has_column. rewrite set_column_none_columns, existsb_app.
    destruct (DF.has_column df label); cbn [existsb];
      [apply orb_false_r|].
    assert (String.eqb m label = false) as ->
      by (apply String.eqb_neq; congruence).
    now rewrite !orb_false_r.
  - unfold DF.set_column_none. cbn [rows].
    change (existsb (fun row => negb (Cell.isna (DF.get row m)))
              (map (fun row => <[label := CNone]> row) (rows df))
            = existsb (fun row => negb (Cell.isna (DF.get row m))) (rows df)).
    rewrite existsb_map.
    induction (rows df) as [|row rest IH]; [reflexivity|]. cbn [existsb].
    now rewrite IH, DF_get_insert_ne.
Qed.

Lemma has_values_inactive (df : DataFrame) (col : option string) :
  (forall m, col = Some m ->
             Text.contains "2024" (Text.lower m)
             || Text.contains "2025" (Text.lower m) = true) ->
  has_values (DF.set_column_none "LM %" (DF.set_column_none "YOY %" df)) col
  = has_values df col.
Proof.
  intros Hyear. destruct col as [m|]; [|reflexivity].
  specialize (Hyear m eq_refl).
  rewrite !has_values_set_column_none; [reflexivity| |];
    intros <-; discriminate Hyear.
Qed.

(** X20.  After the engine has marked a table inactive, the summary
    generator sees what it would have seen before: the columns "YOY %" and
    "LM %" the engine adds are never taken for metric columns, so the choice
    between the inactive and the trend summary rests on the metric columns
    the table already had; with none of them the summary of an inactive
    section is asked for, and the text returned when the language model
    fails is the sentence on no measurable traffic. *)
Theorem inactive_table_summary (df : DataFrame) :
  is_section_empty df (ODict.values (identify_year_columns df)) = true ->
  let out := calculate_metrics df in
  identify_metric_columns out = identify_metric_columns df
  /\ no_calculated_metrics out = no_calculated_metrics df
  /\ (identify_metric_columns df = (None, None) ->
      forall section_name,
        fallback_summary section_name out
        = "No measurable traffic was recorded in " +:+ section_name
            +:+ " during the analyzed period.").
Proof.
  intros Hempty out.
  destruct (calculate_metrics_inactive df Hempty) as [Hout _].
  assert (Hcols : identify_metric_columns out = identify_metric_columns df).
  { unfold out. rewrite Hout. unfold identify_metric_columns.
    rewrite !set_column_none_columns, !fold_left_app.
    destruct (DF.has_column df "YOY %"),
      (DF.has_column (DF.set_column_none "YOY %" df) "LM %"); reflexivity. }
  assert (Hno : no_calculated_metrics out = no_calculated_metrics df).
  { unfold no_calculated_metrics. rewrite Hcols.
    destruct (identify_metric_columns_labels df) as [Hy Hl].
    unfold out. rewrite Hout.
    rewrite !has_values_inactive; [reflexivity| |].
    - intros m Hm. rewrite (Hl m Hm). apply orb_true_r.
    - exact Hy. }
  split; [exact Hcols|]. split; [exact Hno|].
  intros Hnone section_name. unfold fallback_summary. rewrite Hno.
  unfold no_calculated_metrics. rewrite Hnone. reflexivity.
Qed.

(** ** The months of a table *)

Lemma month_name_in_order month m :
  month_name month = Some m -> In m month_order.
Proof.
  unfold month_name.
  destruct (_ && _); [|discriminate].
  destruct (existsb _ month_order) eqn:Hex; [|discriminate].
  intros [= <-]. apply existsb_exists in Hex. destruct Hex as (x & Hx & Heq).
  apply String.eqb_eq in Heq. now rewrite Heq.
Qed.

Lemma months_in_data_spec (values : list cell) :
  List.NoDup (months_in_data values)
  /\ forall x, In x (months_in_data values)
               <-> exists v, In v values /\ month_name v = Some x.
Proof.
  unfold months_in_data.
  induction values as [|v l IH] using rev_ind.
  - split; [constructor|]. intros x. split; [intros []|intros (v & [] & _)].
  - rewrite fold_left_app. cbn [fold_left]. destruct IH as [IHnd IHin].
    set (acc := fold_left _ l []) in *. clearbody acc.
    assert (Hstep : forall x, (exists w, In w (l ++ [v]) /\ month_name w = Some x)
                              <-> In x acc \/ month_name v = Some x).
    { intros x. rewrite IHin. split.
      - intros (w & Hw & Hn). apply in_app_or in Hw.
        destruct Hw as [Hw|[<-|[]]]; [left; eauto | now right].
      - intros [(w & Hw & Hn)|Hn].
        + exists w. split; [apply in_or_app; now left | exact Hn].
        + exists v. split; [apply in_or_app; right; now left | exact Hn]. }
    destruct (month_name v) as [m|] eqn:Hm.
    + destruct (existsb (String.eqb m) acc) eqn:Hex.
      * split; [exact IHnd|]. intros x. rewrite Hstep. split; [now left|].
        intros [Hx|[= <-]]; [exact Hx|].
        apply existsb_exists in Hex. destruct Hex as (y & Hy & Heq).
        apply String.eqb_eq in Heq. now subst y.
      * assert (~ In m acc) as Hnotin.
        { intros Hin. apply not_true_iff_false in Hex. apply Hex.
          apply existsb_exists. exists m. split; [exact Hin|].
          apply String.eqb_refl. }
        split.
        -- apply NoDup_ListNoDup. apply NoDup_app.
           split; [now apply NoDup_ListNoDup|]. split.
           ++ intros x Hx [->|[]]%list_elem_of_In. apply Hnotin.
              now apply list_elem_of_In.
           ++ apply NoDup_ListNoDup. constructor; [tauto | constructor].
        -- intros x. rewrite Hstep, in_app_iff. cbn [In].
           split; [intros [H|[<-|[]]]; [now left | now right]|].
           intros [H|[= <-]]; [now left | right; now left].
    + split; [exact IHnd|]. intros x. rewrite Hstep. split; [now left|].
      intros [Hx|Hx]; [exact Hx | discriminate].
Qed.

Lemma insert_by_month_perm x l : Permutation (insert_by_month x l) (x :: l).
Proof.
  induction l as [|y l IH]; cbn [insert_by_month]; [reflexivity|].
  destruct (_ <? _)%nat; [reflexivity|].
  rewrite IH. apply perm_swap.
Qed.

Lemma sort_by_month_perm l : Permutation (sort_by_month l) l.
Proof.
  unfold sort_by_month.
  assert (Hgen : forall acc, Permutation (fold_left (fun a x => insert_by_month x a) l acc)
                               (rev l ++ acc)).
  { induction l as [|x l IH]; intros acc; simpl; [reflexivity|].
    rewrite IH, insert_by_month_perm, <- app_assoc. simpl.
    apply Permutation_app_head. reflexivity. }
  rewrite Hgen, app_nil_r. symmetry. apply Permutation_rev.
Qed.

Lemma insert_by_month_sorted x l :
  StronglySorted month_le l -> StronglySorted month_le (insert_by_month x l).
Proof.
  induction 1 as [|y l Hs IH Hall]; cbn [insert_by_month].
  - constructor; constructor.
  - destruct (_ <? _)%nat eqn:Hlt.
    + apply Nat.ltb_lt in Hlt. constructor; [now constructor|].
      constructor; [unfold month_le; lia|].
      eapply Forall_impl; [exact Hall|]. unfold month_le. intros z Hz. lia.
    + apply Nat.ltb_ge in Hlt. constructor; [exact IH|].
      apply Forall_forall. intros z Hz. apply list_elem_of_In in Hz.
      apply (Permutation_in _ (insert_by_month_perm x l)) in Hz.
      destruct Hz as [<-|Hz]; [exact Hlt|].
      rewrite Forall_forall in Hall. apply Hall. now apply list_elem_of_In.
Qed.

Lemma sort_by_month_sorted l : StronglySorted month_le (sort_by_month l).
Proof.
  unfold sort_by_month.
  assert (Hgen : forall acc, StronglySorted month_le acc ->
             StronglySorted month_le (fold_left (fun a x => insert_by_month x a) l acc)).
  { induction l as [|x l IH]; intros acc Hacc; simpl; [exact Hacc|].
    apply IH. now apply insert_by_month_sorted. }
  apply Hgen. constructor.
Qed.

Lemma index_of_inj (l : list string) x y :
  In x l -> In y l -> index_of x l = index_of y l -> x = y.
Proof.
  induction l as [|z l IH]; intros Hx Hy; [destruct Hx|]. simpl.
  destruct (String.eqb_spec x z) as [->|Hxz], (String.eqb_spec y z) as [->|Hyz];
    try discriminate; try reflexivity.
  intros [= Heq]. apply IH; try assumption.
  - destruct Hx; [congruence | assumption].
  - destruct Hy; [congruence | assumption].
Qed.

Lemma month_order_sorted : StronglySorted month_le month_order.
Proof.
  unfold month_order.
  repeat (constructor; [|repeat (constructor; [unfold month_le; vm_compute; lia|])]);
    constructor.
Qed.

Lemma filter_sorted {A : Type} (R : A -> A -> Prop) (f : A -> bool) l :
  StronglySorted R l -> StronglySorted R (List.filter f l).
Proof.
  induction 1 as [|x l Hs IH Hall]; simpl; [constructor|].
  destruct (f x); [|exact IH].
  constructor; [exact IH|].
  apply Forall_forall. intros z Hz. apply list_elem_of_In, filter_In in Hz.
  rewrite Forall_forall in Hall. apply Hall, list_elem_of_In. tauto.
Qed.

Lemma month_order_NoDup : List.NoDup month_order.
Proof.
  unfold month_order.
  repeat (constructor; [simpl; intuition discriminate|]). constructor.
Qed.

(** X21.  detect_month_order returns the months of the calendar that
    occur in the month column, each once and in calendar order, whatever
    their order and number of occurrences in the table: a value counts when
    it is not missing and its stripped text is, letter for letter, one of
    the twelve names.  No list comes back when the table lacks the
    column. *)
Theorem detect_month_order_calendar (df : DataFrame) (month_column : string) :
  detect_month_order df month_column
  = if DF.has_column df month_column then
      Some (List.filter
              (fun m =>
                 existsb
                   (fun row =>
                      bool_decide
                        (month_name (DF.get row month_column) = Some m))
                   (rows df))
              month_order)
    else None.
Proof.
  unfold detect_month_order.
  destruct (DF.has_column df month_column); [|reflexivity]. f_equal.
  set (values := map (fun row => DF.get row month_column) (rows df)).
  set (keep := fun m => existsb _ (rows df)).
  destruct (months_in_data_spec values) as [Hnd Hin].
  pose proof (sort_by_month_perm (months_in_data values)) as Hperm.
  assert (Hmem : forall x, In x (sort_by_month (months_in_data values))
                           <-> In x (List.filter keep month_order)).
  { intros x. rewrite filter_In. split.
    - intros Hx. apply (Permutation_in _ Hperm), Hin in Hx.
      destruct Hx as (v & Hv & Hn). split; [now apply (month_name_in_order v)|].
      unfold values in Hv. apply in_map_iff in Hv. destruct Hv as (row & <- & Hrow).
      unfold keep. apply existsb_exists. exists row. split; [exact Hrow|].
      now apply bool_decide_eq_true_2.
    - intros [_ Hk]. unfold keep in Hk. apply existsb_exists in Hk.
      destruct Hk as (row & Hrow & Hn). apply bool_decide_eq_true_1 in Hn.
      apply (Permutation_in _ (Permutation_sym Hperm)), Hin.
      exists (DF.get row month_column). split; [|exact Hn].
      unfold values. apply in_map_iff. eauto. }
  apply (StronglySorted_unique_strong month_le).
  - intros x1 x2 H1 H2 Hle Hge.
    apply list_elem_of_In, filter_In in H2. destruct H2 as [H2 _].
    apply list_elem_of_In, Hmem, filter_In in H1. destruct H1 as [H1 _].
    apply (index_of_inj month_order); try assumption.
    unfold month_le in *. lia.
  - apply sort_by_month_sorted.
  - apply filter_sorted, month_order_sorted.
  - apply NoDup_Permutation.
    + apply NoDup_ListNoDup.
      apply (Permutation_NoDup (Permutation_sym Hperm) Hnd).
    + apply NoDup_ListNoDup, List.NoDup_filter, month_order_NoDup.
    + intros x. rewrite !list_elem_of_In. apply Hmem.
Qed.

End Model.

(** * Worked examples *)

(** ** C1 *)

(** A 2024 value of exactly 0 gives no YOY. *)
Example yoy_zero_baseline_absent :
  row_yoy Sample.numeric (Sample.num 0) (Sample.num 100) = None.
Proof. reflexivity. Qed.

Example yoy_ten_percent :
  row_yoy Sample.numeric (Sample.num 10) (Sample.num 11) = Some (1000 # 100).
Proof. reflexivity. Qed.

Example yoy_text_absent :
  row_yoy Sample.numeric (CStr "n/a") (Sample.num 11) = None.
Proof. reflexivity. Qed.

(** ** C2 *)



(** ** C3 *)



(** ** C4 *)

(** C4 as stated fails: with the year columns 2023 and 2024 only, 2024 is
    the latest year and partial sums exist for it and for 2023, yet the
    cell of 2024 holds the Total comparison (0.00%), not the partial one
    (50.00% marked as partial). *)
Lemma latest_year_2024_gets_total_comparison :
  collect_year_columns (clear_change_row Sample.sheet_two_years 5) 1
  = [(3, "2023"); (4, "2024")]
  /\ snd (gather_values Sample.numeric Sample.float
            (clear_change_row Sample.sheet_two_years 5)
            Sample.table_two_years None 2 4 [(3, "2023"); (4, "2024")])
     = <["2024" := Fin (150 # 1)]> (<["2023" := Fin (100 # 1)]> ∅)
  /\ fst (gather_values Sample.numeric Sample.float
            (clear_change_row Sample.sheet_two_years 5)
            Sample.table_two_years None 2 4 [(3, "2023"); (4, "2024")])
     = <["2024" := Fin (400 # 1)]> (<["2023" := Fin (400 # 1)]> ∅)
  /\ Sheet.value
       (write_percent_change_row Sample.numeric Sample.float
          Sample.sheet_two_years Sample.table_two_years
          Sample.section_1_to_5 None) 5 4
     = CStr "0.00%"
  /\ claimed_change_cell [(3, "2023"); (4, "2024")] "2023" (Fin (400 # 1))
       (<["2024" := Fin (400 # 1)]> (<["2023" := Fin (400 # 1)]> ∅))
       (<["2024" := Fin (150 # 1)]> (<["2023" := Fin (100 # 1)]> ∅)) "2024"
     = Some (CStr "50.00% (till Aug)").
Proof.
  repeat split; vm_compute; reflexivity.
Qed.

(** The amended C4 at a sheet with the three years: the reference cell is
    blank, 2024 holds the Total comparison, 2025 the partial one. *)
Lemma percent_change_row_cells_witness :
  locate_rows Sample.sheet_three_years Sample.section_1_to_5 = (Some 4, Some 5)
  /\ Sheet.value
       (write_percent_change_row Sample.numeric Sample.float
          Sample.sheet_three_years Sample.table_three_years_written
          Sample.section_1_to_5 None) 5 5
     = CStr "0.00% (till Aug)"
  /\ Sheet.value
       (write_percent_change_row Sample.numeric Sample.float
          Sample.sheet_three_years Sample.table_three_years_written
          Sample.section_1_to_5 None) 5 4
     = CStr "25.00%"
  /\ Sheet.value
       (write_percent_change_row Sample.numeric Sample.float
          Sample.sheet_three_years Sample.table_three_years_written
          Sample.section_1_to_5 None) 5 3
     = CNone.
Proof.
  assert (Hloc : locate_rows Sample.sheet_three_years Sample.section_1_to_5
                 = (Some 4, Some 5)) by (vm_compute; reflexivity).
  assert (H4 : 1 <= 4) by lia.
  assert (H5 : 1 <= 5) by lia.
  pose proof (percent_change_row_cells Sample.numeric Sample.float
                Sample.sheet_three_years Sample.table_three_years_written
                Sample.section_1_to_5 None 4 5 (Fin (32 # 1)) Hloc H4 H5) as H.
  cbv zeta in H.
  assert (Hlen : 2 <= length (collect_year_columns
                                (clear_change_row Sample.sheet_three_years 5)
                                (header_row Sample.section_1_to_5)))
    by (vm_compute; lia).
  specialize (H Hlen).
  assert (Hsize : 2 <= size (fst (gather_values Sample.numeric Sample.float
                                    (clear_change_row Sample.sheet_three_years 5)
                                    Sample.table_three_years_written None
                                    (data_start_row Sample.section_1_to_5) 4
                                    (collect_year_columns
                                       (clear_change_row
                                          Sample.sheet_three_years 5)
                                       (header_row Sample.section_1_to_5)))))
    by (vm_compute; lia).
  specialize (H Hsize).
  assert (Href : fst (gather_values Sample.numeric Sample.float
                        (clear_change_row Sample.sheet_three_years 5)
                        Sample.table_three_years_written None
                        (data_start_row Sample.section_1_to_5) 4
                        (collect_year_columns
                           (clear_change_row Sample.sheet_three_years 5)
                           (header_row Sample.section_1_to_5)))
                 !! from_option snd ""
                      (head (collect_year_columns
                               (clear_change_row Sample.sheet_three_years 5)
                               (header_row Sample.section_1_to_5)))
                 = Some (Fin (32 # 1)))
    by (vm_compute; reflexivity).
  specialize (H Href).
  split; [exact Hloc|].
  split; [|split].
  - destruct (H 5 "2025") as [_ Hcell].
    { vm_compute. right. right. left. reflexivity. }
    rewrite Hcell. vm_compute. reflexivity.
  - destruct (H 4 "2024") as [_ Hcell].
    { vm_compute. right. left. reflexivity. }
    rewrite Hcell. vm_compute. reflexivity.
  - destruct (H 3 "2023") as [_ Hcell].
    { vm_compute. left. reflexivity. }
    rewrite Hcell. vm_compute. reflexivity.
Defined.

(** ** C5 *)


(** ** C6 *)



(** ** C7 *)

(** The first run replaces the old cells of the %Change row; the second
    run finds nothing to change. *)
Example percent_change_row_second_run :
  Sheet.value Sample.sheet_three_years 5 3 = CStr "stale"
  /\ Sheet.value
       (write_percent_change_row Sample.numeric Sample.float
          Sample.sheet_three_years Sample.table_three_years_written
          Sample.section_1_to_5 None) 5 3 = CNone
  /\ write_percent_change_row Sample.numeric Sample.float
       (write_percent_change_row Sample.numeric Sample.float
          Sample.sheet_three_years Sample.table_three_years_written
          Sample.section_1_to_5 None)
       Sample.table_three_years_written Sample.section_1_to_5 None
     = write_percent_change_row Sample.numeric Sample.float
         Sample.sheet_three_years Sample.table_three_years_written
         Sample.section_1_to_5 None.
Proof.
  repeat split; vm_compute; reflexivity.
Qed.

(** ** C8 *)

(** C8 at a sheet whose row 4 is blank while data_end_row is 6. *)
Lemma extraction_stops_at_blank_row_witness :
  (forall c, 2 <= c <= 4 -> Sheet.value Sample.sheet_with_gap 4 c = CNone)
  /\ read_rows Sample.sheet_with_gap
       (length (read_headers Sample.sheet_with_gap 4 1)) (range_incl 2 6)
     = read_rows Sample.sheet_with_gap
         (length (read_headers Sample.sheet_with_gap 4 1)) (range_excl 2 4)
  /\ extract_section_data Sample.sheet_with_gap 4 Sample.section_1_to_6
     = extract_section_data Sample.sheet_with_gap 4
         (with_data_end_row Sample.section_1_to_6 4)
  /\ length (rows (extract_section_data Sample.sheet_with_gap 4
                     Sample.section_1_to_6)) = 2.
Proof.
  assert (Hblank : forall c, 2 <= c <= 4 ->
                             Sheet.value Sample.sheet_with_gap 4 c = CNone).
  { intros c Hc.
    assert (Hcases : c = 2 \/ c = 3 \/ c = 4) by lia.
    destruct Hcases as [-> | [-> | ->]]; vm_compute; reflexivity. }
  assert (Hk : data_start_row Sample.section_1_to_6 <= 4
               <= data_end_row Sample.section_1_to_6)
    by (simpl; lia).
  destruct (extraction_stops_at_blank_row Sample.sheet_with_gap 4
              Sample.section_1_to_6 4 Hk Hblank) as [Hread [Hsame _]].
  split; [exact Hblank|]. split; [exact Hread|]. split; [exact Hsame|].
  vm_compute. reflexivity.
Defined.

(** ** C9 *)

(** C9 at the three-year sheet: the YOY of January replaces the old cell,
    its missing LM leaves the old cell. *)
Lemma write_back_rows_witness :
  exists ws',
    write_metric_rows Sample.sheet_three_years Sample.table_three_years_written
      2 (find_yoy_lm_columns Sample.sheet_three_years 7 1) = Some ws'
    /\ Sheet.value Sample.sheet_three_years 2 6 = CStr "old"
    /\ Sheet.value ws' 2 6 = CStr "10.00%"
    /\ Sheet.value Sample.sheet_three_years 2 7 = CStr "kept"
    /\ Sheet.value ws' 2 7 = CStr "kept".
Proof.
  pose (row := default ∅ (rows Sample.table_three_years_written !! 0)).
  assert (Hrow : rows Sample.table_three_years_written !! 0 = Some row)
    by (vm_compute; reflexivity).
  assert (Hfmt : forall r name,
             In r (rows Sample.table_three_years_written) ->
             fst (pick_written_columns
                    (columns Sample.table_three_years_written)) = Some name
             \/ snd (pick_written_columns
                       (columns Sample.table_three_years_written)) = Some name ->
             Cell.is_str (DF.get r name) = false).
  { intros r name Hin Hname.
    assert (Hcases : name = "YOY % (2024-2025)" \/ name = "LM % (2025)").
    { destruct Hname as [Hn|Hn]; vm_compute in Hn; injection Hn as <-; tauto. }
    simpl in Hin.
    destruct Hin as [<-|[<-|[<-|[]]]]; destruct Hcases as [-> | ->];
      vm_compute; reflexivity. }
  destruct (write_back_rows Sample.sheet_three_years 7 1 2
              Sample.table_three_years_written Hfmt)
    as [ws' [Hwritten [Hrows _]]].
  exists ws'. split; [exact Hwritten|].
  split; [vm_compute; reflexivity|].
  assert (Hyoy : written_or_untouched Sample.sheet_three_years ws' (2 + 0) 6
                   (DF.get row "YOY % (2024-2025)")).
  { apply (Hrows 0 row "YOY % (2024-2025)" 6 Hrow).
    left. split; vm_compute; reflexivity. }
  assert (Hlm : written_or_untouched Sample.sheet_three_years ws' (2 + 0) 7
                  (DF.get row "LM % (2025)")).
  { apply (Hrows 0 row "LM % (2025)" 7 Hrow).
    right. split; vm_compute; reflexivity. }
  destruct Hyoy as [Hpresent _]. destruct Hlm as [_ Hmissing].
  assert (Hcell : CStr <$> format_entry (DF.get row "YOY % (2024-2025)")
                  = Some (CStr "10.00%")) by (vm_compute; reflexivity).
  rewrite Hcell in Hpresent.
  split.
  - assert (Hna : Cell.isna (DF.get row "YOY % (2024-2025)") = false)
      by (vm_compute; reflexivity).
    specialize (Hpresent Hna). now injection Hpresent.
  - split; [vm_compute; reflexivity|].
    assert (Hna : Cell.isna (DF.get row "LM % (2025)") = true)
      by (vm_compute; reflexivity).
    etransitivity; [exact (Hmissing Hna)|]. vm_compute. reflexivity.
Defined.

(** ** C10 *)

(** C10 as stated fails in its last part: the row of January records zero
    in every year column, and it is kept and the reading goes on to
    February. *)
Lemma zero_month_row_is_kept :
  Sheet.row_values Sample.sheet_with_gap 2 2 3
  = [CStr "January"; Sample.num 0; Sample.num 0]
  /\ read_rows Sample.sheet_with_gap 3 (range_incl 2 6)
     = [ [CStr "January"; Sample.num 0; Sample.num 0];
         [CStr "February"; Sample.num 5; Sample.num 6] ]
  /\ DF.at_ (extract_section_data Sample.sheet_with_gap 4
               Sample.section_1_to_6) 1 "Month" = CStr "February".
Proof.
  repeat split; vm_compute; reflexivity.
Qed.

(** The amended C10 at the same sheet: row 2 is kept, row 4 ends the
    reading. *)
Lemma extraction_row_cases_witness :
  Cell.truthy (hd CNone (Sheet.row_values Sample.sheet_with_gap 2 2 3)) = true
  /\ read_rows Sample.sheet_with_gap 3 [2; 3; 4; 5; 6]
     = Sheet.row_values Sample.sheet_with_gap 2 2 3
         :: read_rows Sample.sheet_with_gap 3 [3; 4; 5; 6]
  /\ read_rows Sample.sheet_with_gap 3 [4; 5; 6] = [].
Proof.
  assert (Hfirst : Cell.truthy
                     (hd CNone (Sheet.row_values Sample.sheet_with_gap 2 2 3))
                   = true) by (vm_compute; reflexivity).
  split; [exact Hfirst|]. split.
  - destruct (extraction_row_cases Sample.sheet_with_gap 3 2 [3; 4; 5; 6])
      as [_ [_ Hkeep]].
    exact (Hkeep Hfirst).
  - destruct (extraction_row_cases Sample.sheet_with_gap 3 4 [5; 6])
      as [Hstop _].
    apply Hstop. vm_compute. reflexivity.
Defined.

(** ** The scenario of the specification *)

(** Extraction, metrics and write-back on the scenario sheet: January has
    YOY 10.00 and February -10.00; the Total row gets 80 for 2024 and for
    2025; the 2025 cell of the %Change row gets the partial-period value
    0.00%. *)
Example scenario_run :
  let df := extract_section_data Sample.sheet_scenario 7
              Sample.section_scenario in
  let metrics := calculate_metrics Sample.numeric df in
  length (rows df) = 9
  /\ DF.at_ metrics 0 "YOY % (2024-2025)" = CNum (Fin (1000 # 100))
  /\ DF.at_ metrics 1 "YOY % (2024-2025)" = CNum (Fin (-1000 # 100))
  /\ DF.at_ metrics 8 "YOY % (2024-2025)" = CNone
  /\ (fun w => (Sheet.value w 19 4, Sheet.value w 19 5, Sheet.value w 20 3,
                Sheet.value w 20 4, Sheet.value w 20 5))
       <$> write_metrics_to_excel Sample.numeric Sample.float
             Sample.sheet_scenario metrics 11
             (find_yoy_lm_columns Sample.sheet_scenario 7 10)
             Sample.section_scenario None
     = Some (CNum (Fin (80 # 1)), CNum (Fin (80 # 1)), CNone,
             CStr "11.11%", CStr "0.00% (till Aug)").
Proof.
  repeat split; vm_compute; reflexivity.
Qed.

(** ** The scanner and the extractor on a sheet with two sections *)

Example two_sections_detected :
  detect_sections Sample.sheet_two_sections 4 9
  = [Sample.section_organic; Sample.section_paid].
Proof. vm_compute. reflexivity. Qed.

Lemma detect_sections_layout_witness :
  detect_sections Sample.sheet_two_sections 4 9 !! 0
  = Some Sample.section_organic
  /\ section_header_name Sample.sheet_two_sections 4 1 = Some "Organic"
  /\ data_end_row (info Sample.section_organic)
     = match detect_sections Sample.sheet_two_sections 4 9 !! (0 + 1) with
       | Some next => header_row (info next) - 1
       | None => 9
       end.
Proof.
  assert (H : detect_sections Sample.sheet_two_sections 4 9 !! 0
              = Some Sample.section_organic) by (vm_compute; reflexivity).
  destruct (detect_sections_layout Sample.sheet_two_sections 4 9 0
              Sample.section_organic H) as (Hname & _ & _ & _ & Hend).
  split; [exact H|]. split; [exact Hname | exact Hend].
Defined.

Lemma detect_sections_disjoint_witness :
  0 < 1
  /\ detect_sections Sample.sheet_two_sections 4 9 !! 1
     = Some Sample.section_paid
  /\ data_end_row (info Sample.section_organic)
     < header_row (info Sample.section_paid).
Proof.
  assert (H0 : detect_sections Sample.sheet_two_sections 4 9 !! 0
               = Some Sample.section_organic) by (vm_compute; reflexivity).
  assert (H1 : detect_sections Sample.sheet_two_sections 4 9 !! 1
               = Some Sample.section_paid) by (vm_compute; reflexivity).
  assert (Hlt : 0 < 1) by lia.
  split; [exact Hlt|]. split; [exact H1|].
  exact (proj2 (detect_sections_disjoint Sample.sheet_two_sections 4 9 0 1
                  Sample.section_organic Sample.section_paid Hlt H0 H1)).
Defined.

Lemma detect_sections_complete_witness :
  1 <= 6 <= 9
  /\ section_header_name Sample.sheet_two_sections 4 6 = Some "Paid"
  /\ exists i s,
       detect_sections Sample.sheet_two_sections 4 9 !! i = Some s
       /\ name s = "Paid" /\ header_row (info s) = 6.
Proof.
  assert (Hr : 1 <= 6 <= 9) by lia.
  assert (Hn : section_header_name Sample.sheet_two_sections 4 6 = Some "Paid")
    by (vm_compute; reflexivity).
  split; [exact Hr|]. split; [exact Hn|].
  exact (detect_sections_complete Sample.sheet_two_sections 4 9 6 "Paid" Hr Hn).
Defined.

Lemma detect_sections_range_has_no_header_witness :
  data_start_row (info Sample.section_organic) <= 3
  <= data_end_row (info Sample.section_organic)
  /\ section_header_name Sample.sheet_two_sections 4 3 = None.
Proof.
  assert (H : detect_sections Sample.sheet_two_sections 4 9 !! 0
              = Some Sample.section_organic) by (vm_compute; reflexivity).
  assert (Hr : data_start_row (info Sample.section_organic) <= 3
               <= data_end_row (info Sample.section_organic))
    by (simpl; lia).
  split; [exact Hr|].
  exact (detect_sections_range_has_no_header Sample.sheet_two_sections 4 9 0 3
           Sample.section_organic H Hr).
Defined.

Lemma detected_section_month_first_witness :
  detect_sections Sample.sheet_two_sections 4 9 !! 1
  = Some Sample.section_paid
  /\ 2 <= 4
  /\ exists first rest,
       columns (extract_section_data Sample.sheet_two_sections 4
                  (info Sample.section_paid)) = first :: rest
       /\ Text.lower first = "month".
Proof.
  assert (H : detect_sections Sample.sheet_two_sections 4 9 !! 1
              = Some Sample.section_paid) by (vm_compute; reflexivity).
  split; [exact H|].
  exact (detected_section_month_first Sample.sheet_two_sections 4 9 1
           Sample.section_paid H).
Defined.

Lemma extraction_rows_aligned_witness :
  (forall k, k < 3 ->
     Cell.truthy (Sheet.value Sample.sheet_three_years (2 + k) 2) = true
     /\ Cell.isna (Sheet.value Sample.sheet_three_years (2 + k) 2) = false
     /\ is_change_text (Sheet.value Sample.sheet_three_years (2 + k) 2) = false)
  /\ forall k, k < 3 ->
       rows (extract_section_data Sample.sheet_three_years 7
               Sample.section_1_to_5) !! k
       = Some (row_of_list (read_headers Sample.sheet_three_years 7 1)
                 (Sheet.row_values Sample.sheet_three_years (2 + k) 2
                    (length (read_headers Sample.sheet_three_years 7 1)))).
Proof.
  assert (Hrows : forall k, k < 3 ->
     Cell.truthy (Sheet.value Sample.sheet_three_years (2 + k) 2) = true
     /\ Cell.isna (Sheet.value Sample.sheet_three_years (2 + k) 2) = false
     /\ is_change_text (Sheet.value Sample.sheet_three_years (2 + k) 2) = false).
  { intros k Hk.
    assert (Hcases : k = 0 \/ k = 1 \/ k = 2) by lia.
    destruct Hcases as [-> | [-> | ->]]; vm_compute; repeat split. }
  assert (Hmax : 2 <= 7) by lia.
  assert (Hmonth : existsb (String.eqb "Month")
                     (read_headers Sample.sheet_three_years 7
                        (header_row Sample.section_1_to_5)) = true ->
                   hd "" (read_headers Sample.sheet_three_years 7
                            (header_row Sample.section_1_to_5)) = "Month")
    by (intros _; vm_compute; reflexivity).
  assert (Hm : data_start_row Sample.section_1_to_5 + 3
               <= data_end_row Sample.section_1_to_5 + 1)
    by (simpl; lia).
  split; [exact Hrows|].
  exact (extraction_rows_aligned Sample.sheet_three_years 7
           Sample.section_1_to_5 3 Hmax Hmonth Hm Hrows).
Defined.

(** ** The guarded percentage on numbers *)


Lemma yoy_percentage_sign_witness :
  calculate_yoy_percentage (Fin 10) (Fin 11) = Some (1000 # 100)
  /\ ((10 <= 11 -> 0 <= 1000 # 100) /\ (11 <= 10 -> 1000 # 100 <= 0))%Q.
Proof.
  assert (H : calculate_yoy_percentage (Fin 10) (Fin 11) = Some (1000 # 100))
    by (vm_compute; reflexivity).
  split; [exact H|].
  exact (yoy_percentage_sign 10 11 (1000 # 100) H).
Defined.

(** ** The YOY pass, the summary generator and the months *)

Lemma yoy_pass_rows_witness :
  is_Some (rows Sample.table_three_years !! 0)
  /\ DF.at_ (yoy_pass Sample.numeric "Year-2024" "Year-2025" "YOY%"
               Sample.table_three_years) 0 "YOY%"
     = CNum (Fin (1000 # 100)).
Proof.
  pose (row := default ∅ (rows Sample.table_three_years !! 0)).
  assert (Hrow : rows Sample.table_three_years !! 0 = Some row)
    by (vm_compute; reflexivity).
  split; [rewrite Hrow; eexists; reflexivity|].
  etransitivity;
    [exact (yoy_pass_rows Sample.numeric "Year-2024" "Year-2025" "YOY%"
              Sample.table_three_years 0 row Hrow)|].
  vm_compute. reflexivity.
Defined.

Lemma inactive_table_summary_witness :
  is_section_empty Sample.numeric Sample.table_zero_2024
    (ODict.values (identify_year_columns Sample.table_zero_2024)) = true
  /\ no_calculated_metrics
       (calculate_metrics Sample.numeric Sample.table_zero_2024) = true
  /\ fallback_summary "Paid"
       (calculate_metrics Sample.numeric Sample.table_zero_2024)
     = "No measurable traffic was recorded in Paid during the analyzed period.".
Proof.
  assert (Hempty : is_section_empty Sample.numeric Sample.table_zero_2024
                     (ODict.values
                        (identify_year_columns Sample.table_zero_2024)) = true)
    by (vm_compute; reflexivity).
  assert (Hnone : identify_metric_columns Sample.table_zero_2024 = (None, None))
    by (vm_compute; reflexivity).
  destruct (inactive_table_summary Sample.numeric Sample.table_zero_2024 Hempty)
    as (_ & Hno & Hfallback).
  split; [exact Hempty|]. split.
  - etransitivity; [exact Hno|]. vm_compute. reflexivity.
  - exact (Hfallback Hnone "Paid").
Defined.

Example months_of_shuffled_table :
  detect_month_order Sample.table_months_shuffled "Month"
  = Some ["January"; "March"]
  /\ detect_month_order Sample.table_months_shuffled "Months" = None.
Proof. split; vm_compute; reflexivity. Qed.

(** ** The writer on the three-year sheet *)

Lemma write_metric_rows_changes_witness :
  exists ws',
    write_metric_rows Sample.sheet_three_years Sample.table_three_years_written
      2 (find_yoy_lm_columns Sample.sheet_three_years 7 1) = Some ws'
    /\ Sheet.value ws' 2 6 = CStr "10.00%"
    /\ forall r c,
         Sheet.value ws' r c = Sheet.value Sample.sheet_three_years r c
         \/ (2 <= r < 2 + length (rows Sample.table_three_years_written)
             /\ (Some c = ci_yoy (find_yoy_lm_columns Sample.sheet_three_years 7 1)
                 \/ Some c
                    = ci_lm (find_yoy_lm_columns Sample.sheet_three_years 7 1))
             /\ exists text, Sheet.value ws' r c = CStr (text +:+ "%")).
Proof.
  pose (ws' := default ∅
                 (write_metric_rows Sample.sheet_three_years
                    Sample.table_three_years_written 2
                    (find_yoy_lm_columns Sample.sheet_three_years 7 1))).
  assert (H : write_metric_rows Sample.sheet_three_years
                Sample.table_three_years_written 2
                (find_yoy_lm_columns Sample.sheet_three_years 7 1) = Some ws')
    by (vm_compute; reflexivity).
  exists ws'. split; [exact H|]. split; [vm_compute; reflexivity|].
  exact (write_metric_rows_changes Sample.sheet_three_years
           Sample.table_three_years_written 2
           (find_yoy_lm_columns Sample.sheet_three_years 7 1) ws' H).
Defined.

Lemma write_metric_rows_text_fails_witness :
  DF.at_ Sample.table_text_metric 0 "YOY % (2024-2025)" = CStr "n/a"
  /\ write_metric_rows Sample.sheet_three_years Sample.table_text_metric 2
       (find_yoy_lm_columns Sample.sheet_three_years 7 1) = None.
Proof.
  pose (row := default ∅ (rows Sample.table_text_metric !! 0)).
  assert (Hrow : rows Sample.table_text_metric !! 0 = Some row)
    by (vm_compute; reflexivity).
  assert (Hcol : (fst (pick_written_columns (columns Sample.table_text_metric))
                  = Some "YOY % (2024-2025)"
                  /\ ci_yoy (find_yoy_lm_columns Sample.sheet_three_years 7 1)
                     = Some 6)
                 \/ (snd (pick_written_columns
                            (columns Sample.table_text_metric))
                     = Some "YOY % (2024-2025)"
                     /\ ci_lm (find_yoy_lm_columns Sample.sheet_three_years 7 1)
                        = Some 6))
    by (left; split; vm_compute; reflexivity).
  assert (Hidx : 1 <= 6) by lia.
  assert (Hget : DF.get row "YOY % (2024-2025)" = CStr "n/a")
    by (vm_compute; reflexivity).
  split; [vm_compute; reflexivity|].
  exact (write_metric_rows_text_fails Sample.sheet_three_years
           Sample.table_text_metric 2
           (find_yoy_lm_columns Sample.sheet_three_years 7 1)
           0 row "YOY % (2024-2025)" 6 "n/a" Hrow Hcol Hidx Hget).
Defined.

Lemma section_write_back_isolated_witness :
  exists out,
    write_metrics_to_excel Sample.numeric Sample.float
      Sample.sheet_three_years
      (calculate_metrics Sample.numeric
         (extract_section_data Sample.sheet_three_years 7
            Sample.section_1_to_5))
      2 (find_yoy_lm_columns Sample.sheet_three_years 7 1)
      Sample.section_1_to_5 None = Some out
    /\ Sheet.value out 3 7 = CStr "-18.18%"
    /\ same_outside_rows 2 5 Sample.sheet_three_years out.
Proof.
  pose (out := default ∅
                 (write_metrics_to_excel Sample.numeric Sample.float
                    Sample.sheet_three_years
                    (calculate_metrics Sample.numeric
                       (extract_section_data Sample.sheet_three_years 7
                          Sample.section_1_to_5))
                    2 (find_yoy_lm_columns Sample.sheet_three_years 7 1)
                    Sample.section_1_to_5 None)).
  assert (H : write_metrics_to_excel Sample.numeric Sample.float
                Sample.sheet_three_years
                (calculate_metrics Sample.numeric
                   (extract_section_data Sample.sheet_three_years 7
                      Sample.section_1_to_5))
                (data_start_row Sample.section_1_to_5)
                (find_yoy_lm_columns Sample.sheet_three_years 7 1)
                Sample.section_1_to_5 None = Some out)
    by (vm_compute; reflexivity).
  exists out. split; [exact H|]. split; [vm_compute; reflexivity|].
  exact (section_write_back_isolated Sample.numeric Sample.float
           Sample.sheet_three_years 7 Sample.section_1_to_5
           (find_yoy_lm_columns Sample.sheet_three_years 7 1) None out H).
Defined.

Lemma change_row_other_cells_blank_witness :
  locate_rows Sample.sheet_three_years Sample.section_1_to_5 = (Some 4, Some 5)
  /\ Sheet.value
       (write_percent_change_row Sample.numeric Sample.float
          Sample.sheet_three_years Sample.table_three_years_written
          Sample.section_1_to_5 None) 5 2 = CStr "% Change"
  /\ Sheet.value
       (write_percent_change_row Sample.numeric Sample.float
          Sample.sheet_three_years Sample.table_three_years_written
          Sample.section_1_to_5 None) 5 6 = CNone.
Proof.
  assert (Hloc : locate_rows Sample.sheet_three_years Sample.section_1_to_5
                 = (Some 4, Some 5)) by (vm_compute; reflexivity).
  assert (Ht : 1 <= 4) by lia.
  assert (Hcr : 1 <= 5) by lia.
  destruct (change_row_other_cells_blank Sample.numeric Sample.float
              Sample.sheet_three_years Sample.table_three_years_written
              Sample.section_1_to_5 None 4 5 Hloc Ht Hcr)
    as (Hlabel & _ & Hmetric).
  split; [exact Hloc|]. split; [exact Hlabel|].
  apply Hmetric; [lia|]. left. vm_compute. reflexivity.
Defined.

Lemma write_total_row_value_witness :
  List.find
    (fun row_idx => is_total_label (Sheet.value Sample.sheet_three_years row_idx 2))
    (range_incl 2 5) = Some 4
  /\ Sheet.value
       (write_total_row Sample.numeric Sample.sheet_three_years
          Sample.table_three_years_written Sample.section_1_to_5) 4 3
     = CNum (Fin (16 # 1)).
Proof.
  assert (Hfind : List.find
                    (fun row_idx =>
                       is_total_label
                         (Sheet.value Sample.sheet_three_years row_idx 2))
                    (range_incl (data_start_row Sample.section_1_to_5)
                       (data_end_row Sample.section_1_to_5)) = Some 4)
    by (vm_compute; reflexivity).
  assert (Ht : 1 <= 4) by lia.
  assert (Hc : 3 <= 3 < 20) by lia.
  assert (Htruthy : Cell.truthy (Sheet.value Sample.sheet_three_years
                                   (header_row Sample.section_1_to_5) 3) = true)
    by (vm_compute; reflexivity).
  assert (Hsummed : is_summed_header
                      (Cell.lower (Sheet.value Sample.sheet_three_years
                                     (header_row Sample.section_1_to_5) 3))
                    = true)
    by (vm_compute; reflexivity).
  assert (Hcol : List.find
                   (fun df_col =>
                      String.eqb
                        (Text.strip
                           (Cell.str (Sheet.value Sample.sheet_three_years
                                        (header_row Sample.section_1_to_5) 3)))
                        (Text.strip df_col))
                   (columns Sample.table_three_years_written)
                 = Some "Year-2023")
    by (vm_compute; reflexivity).
  split; [exact Hfind|].
  etransitivity;
    [exact (write_total_row_value Sample.numeric Sample.float
              Sample.sheet_three_years
              Sample.table_three_years_written Sample.section_1_to_5 4 3
              "Year-2023" Hfind Ht Hc Htruthy Hsummed Hcol)|].
  vm_compute. reflexivity.
Defined.
